(** * sdlocker-tiny: the SD card SPI engine and the lock toggle

    A shallow embedding of [sdlocker-tiny.cpp] (ATTINY85 firmware that flips
    the temporary write-protect bit of an SD card's CSD register).  The
    firmware's globals and the I/O registers it touches form a [world]; every
    C function becomes a state-passing function of the same name.  Unsigned
    C integers are [Z] with the wrap-around written out ([u8], [u16], [u32]).

    The SPI bus is bit-banged by [Xchg]: the world records what the card
    sees at every SCK pulse ([wire]) and holds the levels the card will
    drive on its DO line ([miso]), so that a theorem quantified over all
    worlds holds for every card.  The first part of the file is the
    embedding, the second lifts the bus to bytes, the third states the
    properties of the protocol engine and of the lock controller.  The
    LED, the push button and [main] come last: a [board] adds to the
    world the direction register and the level of the shared pin.
*)

From Stdlib Require Import ZArith NArith List Bool Lia.
From stdpp Require Import base list.
Import ListNotations.
Local Open Scope Z_scope.

(** ** Constants of the source *)

Definition SD_GO_IDLE      : Z := 0x40 + 0.
Definition SD_INIT         : Z := 0x40 + 1.
Definition SD_SEND_IF_COND : Z := 0x40 + 8.
Definition SD_SEND_CSD     : Z := 0x40 + 9.
Definition SD_SEND_CID     : Z := 0x40 + 10.
Definition SD_SEND_STATUS  : Z := 0x40 + 13.
Definition SD_SET_BLK_LEN  : Z := 0x40 + 16.
Definition SD_READ_BLK     : Z := 0x40 + 17.
Definition SD_LOCK_UNLOCK  : Z := 0x40 + 42.
Definition CMD55           : Z := 0x40 + 55.
Definition SD_READ_OCR     : Z := 0x40 + 58.
Definition SD_ADV_INIT     : Z := 0xc0 + 41.
Definition SD_PROGRAM_CSD  : Z := 0x40 + 27.

Definition LOCK_BIT_MASK : Z := 0x10.

Definition SDCARD_OK           : Z := 0.
Definition SDCARD_NOT_DETECTED : Z := 1.
Definition SDCARD_TIMEOUT      : Z := 2.
Definition SDCARD_RWFAIL       : Z := 3.

Definition SDTYPE_UNKNOWN : Z := 0.
Definition SDTYPE_SD      : Z := 1.
Definition SDTYPE_SDHC    : Z := 2.

Definition MOSI_BIT : Z := 0.
Definition MISO_BIT : Z := 1.
Definition SCK_BIT  : Z := 2.
Definition CS_BIT   : Z := 3.

Definition LEDSW_BIT  : Z := 4.
Definition LEDSW_MASK : Z := Z.shiftl 1 LEDSW_BIT.

Definition PATTERN_WERROR : Z := 0x000f000f.

Definition CRC7_POLY : Z := 0x89.

(** ** Machine integers *)

Definition u8  (x : Z) : Z := x mod 256.
Definition u16 (x : Z) : Z := x mod 65536.
Definition u32 (x : Z) : Z := x mod 4294967296.

(** C truth value of an integer expression. *)
Definition nz (x : Z) : bool := negb (x =? 0).

(** ** The world: firmware globals, port B and the SPI bus *)

(** What the card sees at one SCK pulse: the level of its CS pin
    ([true] = high = not selected) and of its DI pin. *)
Record edge := Edge { e_cs : bool; e_mosi : bool }.

Record world := World {
  PORTB      : Z;           (* output latch of port B *)
  miso       : N -> bool;   (* level of PB1 (card DO) during the n-th SCK pulse *)
  pulses     : N;           (* SCK pulses issued so far *)
  wire       : list edge;   (* the bus at every SCK pulse, newest first *)
  elapsed_ms : Z;           (* time spent in _delay_ms *)
  sdtype     : Z;
  csd        : list Z;      (* uint8_t csd[16] *)
  crctable   : list Z       (* uint8_t crctable[256] *)
}.

Definition set_PORTB (v : Z) (w : world) : world :=
  World v (miso w) (pulses w) (wire w) (elapsed_ms w) (sdtype w) (csd w) (crctable w).
Definition set_pulses (n : N) (w : world) : world :=
  World (PORTB w) (miso w) n (wire w) (elapsed_ms w) (sdtype w) (csd w) (crctable w).
Definition set_wire (l : list edge) (w : world) : world :=
  World (PORTB w) (miso w) (pulses w) l (elapsed_ms w) (sdtype w) (csd w) (crctable w).
Definition set_elapsed_ms (t : Z) (w : world) : world :=
  World (PORTB w) (miso w) (pulses w) (wire w) t (sdtype w) (csd w) (crctable w).
Definition set_sdtype (t : Z) (w : world) : world :=
  World (PORTB w) (miso w) (pulses w) (wire w) (elapsed_ms w) t (csd w) (crctable w).
Definition set_csd (l : list Z) (w : world) : world :=
  World (PORTB w) (miso w) (pulses w) (wire w) (elapsed_ms w) (sdtype w) l (crctable w).
Definition set_crctable (l : list Z) (w : world) : world :=
  World (PORTB w) (miso w) (pulses w) (wire w) (elapsed_ms w) (sdtype w) (csd w) l.

(** The bus log in chronological order. *)
Definition trace (w : world) : list edge := rev (wire w).

(** Level of the CS line ([true] = card not selected). *)
Definition cs_high (w : world) : bool := Z.testbit (PORTB w) CS_BIT.
Definition selected (w : world) : bool := negb (cs_high w).

(** ** A state monad over the world *)

Definition M (A : Type) : Type := world -> A * world.

Definition ret {A} (a : A) : M A := fun w => (a, w).
Definition bind {A B} (m : M A) (k : A -> M B) : M B :=
  fun w => let (a, w') := m w in k a w'.

Declare Scope fw_scope.
Delimit Scope fw_scope with fw.
Notation "x <- m ;; k" := (bind m (fun x => k))
  (at level 100, m at next level, right associativity) : fw_scope.
Notation "m ;; k" := (bind m (fun _ => k))
  (at level 100, right associativity) : fw_scope.
Local Open Scope fw_scope.

Definition modify (f : world -> world) : M unit := fun w => (tt, f w).
Definition gets {A} (f : world -> A) : M A := fun w => (f w, w).

(** [for (i = 0; i < n; i++) body], with no [break]. *)
Fixpoint repeat_do (n : nat) (body : M unit) : M unit :=
  match n with
  | O => ret tt
  | S n' => body ;; repeat_do n' body
  end.

(** ** Port access *)

(** [PORTB |= mask] and [PORTB &= ~mask] on the 8-bit latch. *)
Definition port_set (mask : Z) : M unit :=
  modify (fun w => set_PORTB (u8 (Z.lor (PORTB w) mask)) w).
Definition port_clear (mask : Z) : M unit :=
  modify (fun w => set_PORTB (u8 (Z.land (PORTB w) (Z.lnot mask))) w).

(** [SPI_PORT |= (1<<SCK_BIT)]: the card latches CS and DI. *)
Definition sck_high : M unit :=
  port_set (Z.shiftl 1 SCK_BIT) ;;
  modify (fun w =>
    set_wire (Edge (Z.testbit (PORTB w) CS_BIT) (Z.testbit (PORTB w) MOSI_BIT) :: wire w) w).

(** [SPI_PIN & (1<<MISO_BIT)] while SCK is high. *)
Definition read_MISO : M bool := gets (fun w => miso w (pulses w)).

(** [SPI_PORT &= ~(1<<SCK_BIT)]: the pulse is over. *)
Definition sck_low : M unit :=
  port_clear (Z.shiftl 1 SCK_BIT) ;;
  modify (fun w => set_pulses (N.succ (pulses w)) w).

Definition _delay_ms (ms : Z) : M unit :=
  modify (fun w => set_elapsed_ms (elapsed_ms w + ms) w).

Definition TURN_LED_ON  : M unit := port_clear LEDSW_MASK.
Definition TURN_LED_OFF : M unit := port_set LEDSW_MASK.

(** ** Select, Deselect, Xchg *)

Definition Select : M unit := port_clear (Z.shiftl 1 CS_BIT).
Definition Deselect : M unit := port_set (Z.shiftl 1 CS_BIT).

(** One pass of the bit-bang loop of [Xchg]. *)
Definition Xchg_bit (c : Z) : M Z :=
  (if nz (Z.land c 0x80)
   then port_set (Z.shiftl 1 MOSI_BIT)
   else port_clear (Z.shiftl 1 MOSI_BIT)) ;;
  sck_high ;;
  let c := u8 (Z.shiftl c 1) in
  m <- read_MISO ;;
  let c := if m then u8 (Z.lor c 0x01) else u8 (Z.land c (Z.lnot 0x01)) in
  sck_low ;;
  ret c.

Fixpoint Xchg_loop (n : nat) (c : Z) : M Z :=
  match n with
  | O => ret c
  | S n' => c' <- Xchg_bit c ;; Xchg_loop n' c'
  end.

Definition Xchg (c : Z) : M Z := Xchg_loop 8 c.

(** ** Loops and arrays *)

(** [for (i = i0; ...; i++) a = body(i, a)], [n] passes, no [break]. *)
Fixpoint for_loop {A} (n : nat) (i : Z) (body : Z -> A -> M A) (a : A) : M A :=
  match n with
  | O => ret a
  | S n' => a' <- body i a ;; for_loop n' (i + 1) body a'
  end.

(** [for (...; n passes; ...) { response = step; if (done response) break; }].
    [response] is the variable's value before the loop; every loop of the
    source makes at least one pass, so it is never what the loop leaves. *)
Fixpoint poll (n : nat) (step : M Z) (done : Z -> bool) (response : Z) : M Z :=
  match n with
  | O => ret response
  | S n' =>
      response <- step ;;
      if done response then ret response else poll n' step done response
  end.

(** [a[i]] and [a[i] = v] on a C array held as a list.  A read past the end
    (undefined in C) gives 0 and a write past the end does nothing; neither
    happens on worlds satisfying [wf_world]. *)
Definition aget (a : list Z) (i : Z) : Z := default 0 (a !! Z.to_nat i).
Definition aset (a : list Z) (i : Z) (v : Z) : list Z := <[Z.to_nat i := v]> a.

Definition csd_write (i v : Z) : M unit :=
  modify (fun w => set_csd (aset (csd w) i v) w).
Definition crctable_write (i v : Z) : M unit :=
  modify (fun w => set_crctable (aset (crctable w) i v) w).

(** ** CRC7 *)

(** Body of the inner loop of [GenerateCRCTable]. *)
Definition crc_shift (i : Z) : M unit :=
  t <- gets (fun w => aget (crctable w) i) ;;
  crctable_write i (u8 (Z.shiftl t 1)) ;;
  t <- gets (fun w => aget (crctable w) i) ;;
  if nz (Z.land t 0x80)
  then crctable_write i (u8 (Z.lxor t CRC7_POLY))
  else ret tt.

(** Body of the outer loop of [GenerateCRCTable]. *)
Definition crc_entry (i : Z) : M unit :=
  crctable_write i (u8 (if nz (Z.land i 0x80) then Z.lxor i CRC7_POLY else i)) ;;
  repeat_do 7 (crc_shift i).

Definition GenerateCRCTable : M unit :=
  for_loop 256 0 (fun i _ => crc_entry i) tt.

Definition AddByteToCRC (crc b : Z) : M Z :=
  gets (fun w => aget (crctable w) (Z.lxor (Z.shiftl crc 1) b)).

(** ** SD_send_command *)

(** Lines 700-751 of the source: everything after the ACMD test.
    [response] is the variable's value on entry. *)
Definition SD_transfer (command arg response : Z) : M Z :=
  Deselect ;;
  Xchg 0xff ;;
  Select ;;
  Xchg 0xff ;;
  Xchg (u8 (Z.lor command 0x40)) ;;
  Xchg (u8 (Z.shiftr arg 24)) ;;
  Xchg (u8 (Z.shiftr arg 16)) ;;
  Xchg (u8 (Z.shiftr arg 8)) ;;
  Xchg (u8 (Z.land arg 0xff)) ;;
  let crc := 0x01 in
  let crc := if command =? SD_GO_IDLE then 0x95 else crc in
  let crc := if command =? SD_SEND_IF_COND then 0x87 else crc in
  Xchg crc ;;
  response <- poll 10 (Xchg 0xff) (fun r => Z.land r 0x80 =? 0) response ;;
  (if negb (command =? SD_READ_BLK) &&
      negb (command =? SD_READ_OCR) &&
      negb (command =? SD_SEND_CSD) &&
      negb (command =? SD_SEND_STATUS) &&
      negb (command =? SD_SEND_CID) &&
      negb (command =? SD_SEND_IF_COND) &&
      negb (command =? SD_LOCK_UNLOCK) &&
      negb (command =? SD_PROGRAM_CSD)
   then Deselect ;; Xchg 0xff ;; ret tt
   else ret tt) ;;
  ret response.

(** The function body, with the recursive call made through [self]. *)
Definition SD_send_command_body (self : Z -> Z -> M Z) (command arg : Z) : M Z :=
  if nz (Z.land command 0x80) then
    let command := Z.land command 0x7f in
    response <- self CMD55 0 ;;
    if response >? 1 then ret response
    else SD_transfer command arg response
  else SD_transfer command arg 0.

(** The recursion of the source is never deeper than one call, because
    CMD55 has bit 7 clear; [SD_send_command_unfold] below shows that two
    levels give a solution of the source's recursive equation. *)
Fixpoint SD_send_command_rec (depth : nat) : Z -> Z -> M Z :=
  match depth with
  | O => fun _ _ => ret 0xff
  | S d => SD_send_command_body (SD_send_command_rec d)
  end.

Definition SD_send_command : Z -> Z -> M Z := SD_send_command_rec 2.

Definition SD_wait_for_data : M Z :=
  poll 100 (Xchg 0xff) (fun r => negb (r =? 0xff)) 0.

(** ** SDInit *)

Definition SDInit : M Z :=
  modify (set_sdtype SDTYPE_UNKNOWN) ;;
  Deselect ;;
  repeat_do 10 (Xchg 0xff ;; ret tt) ;;
  response <- poll 10 (SD_send_command SD_GO_IDLE 0) (fun r => r =? 0x01) 0 ;;
  if negb (response =? 0x01) then ret SDCARD_NOT_DETECTED
  else
    response <- SD_send_command SD_SEND_IF_COND 0x1aa ;;
    (if response =? 0x01 then
       repeat_do 4 (Xchg 0xff ;; ret tt) ;;
       poll (Z.to_nat 20000) (SD_send_command SD_ADV_INIT (Z.shiftl 1 30))
            (fun r => r =? 0) response ;;
       modify (set_sdtype SDTYPE_SDHC)
     else
       response <- SD_send_command SD_READ_OCR 0 ;;
       if response =? 0x01 then
         repeat_do 4 (Xchg 0xff ;; ret tt) ;;
         poll (Z.to_nat 20000) (SD_send_command SD_INIT 0) (fun r => r =? 0) response ;;
         SD_send_command SD_SET_BLK_LEN 512 ;;
         modify (set_sdtype SDTYPE_SD)
       else ret tt) ;;
    Xchg 0xff ;;
    ret SDCARD_OK.

(** The three stages of [SDInit], named so that lemmas can refer to the
    worlds between them: the power-up clocks, the go-idle loop, and the
    card-type detection that follows a successful go-idle. *)
Definition SDInit_power_up : M unit :=
  modify (set_sdtype SDTYPE_UNKNOWN) ;;
  Deselect ;;
  repeat_do 10 (Xchg 0xff ;; ret tt).

Definition SDInit_go_idle : M Z :=
  SDInit_power_up ;;
  poll 10 (SD_send_command SD_GO_IDLE 0) (fun r => r =? 0x01) 0.

Definition SDInit_detect : M Z :=
  response <- SD_send_command SD_SEND_IF_COND 0x1aa ;;
  (if response =? 0x01 then
     repeat_do 4 (Xchg 0xff ;; ret tt) ;;
     poll (Z.to_nat 20000) (SD_send_command SD_ADV_INIT (Z.shiftl 1 30))
          (fun r => r =? 0) response ;;
     modify (set_sdtype SDTYPE_SDHC)
   else
     response <- SD_send_command SD_READ_OCR 0 ;;
     if response =? 0x01 then
       repeat_do 4 (Xchg 0xff ;; ret tt) ;;
       poll (Z.to_nat 20000) (SD_send_command SD_INIT 0) (fun r => r =? 0) response ;;
       SD_send_command SD_SET_BLK_LEN 512 ;;
       modify (set_sdtype SDTYPE_SD)
     else ret tt) ;;
  Xchg 0xff ;;
  ret SDCARD_OK.

(** The world before the [k]-th pass of a loop that repeats [step], and
    the response that pass gets, had no earlier pass left the loop. *)
Definition step_world (step : M Z) (w : world) (k : nat) : world :=
  Nat.iter k (fun v => snd (step v)) w.

Definition step_response (step : M Z) (w : world) (k : nat) : Z :=
  fst (step (step_world step w k)).

(** ** ReadCSD and WriteCSD *)

Definition ReadCSD : M Z :=
  for_loop 16 0 (fun i _ => csd_write i 0) tt ;;
  SD_send_command SD_SEND_CSD 0 ;;
  response <- SD_wait_for_data ;;
  if negb (response =? 0xfe) then ret SDCARD_RWFAIL
  else
    for_loop 16 0 (fun i _ => r <- Xchg 0xff ;; csd_write i r) tt ;;
    Xchg 0xff ;;
    ret SDCARD_OK.

(** Passes the busy-wait of [WriteCSD] can make: [i] starts at 0xffff. *)
Definition BUSY_BOUND : nat := Z.to_nat 0xffff.

(** [while (!Xchg(0xff) && (--i));] with [i] a [uint16_t].  [fuel] bounds
    the passes; the loop leaves through one of its two tests before
    [Z.to_nat i] passes are over. *)
Fixpoint busy_wait (fuel : nat) (i : Z) : M Z :=
  match fuel with
  | O => ret i
  | S fuel' =>
      r <- Xchg 0xff ;;
      if nz r then ret i
      else
        let i := u16 (i - 1) in
        if nz i then busy_wait fuel' i else ret i
  end.

Definition WriteCSD : M Z :=
  response <- SD_send_command SD_PROGRAM_CSD 0 ;;
  if nz response then ret SDCARD_RWFAIL
  else
    Xchg 0xfe ;;
    tcrc <- for_loop 15 0
              (fun i tcrc =>
                 b <- gets (fun w => aget (csd w) i) ;;
                 Xchg b ;;
                 AddByteToCRC tcrc b) 0 ;;
    Xchg (u8 (Z.shiftl tcrc 1 + 1)) ;;
    Xchg 0xff ;;
    Xchg 0xff ;;
    i <- busy_wait BUSY_BOUND 0xffff ;;
    if nz i then ret SDCARD_OK else ret SDCARD_TIMEOUT.

(** The statements of [WriteCSD] after the test of the response, named so
    that lemmas can refer to them. *)
Definition WriteCSD_data : M Z :=
  Xchg 0xfe ;;
  tcrc <- for_loop 15 0
            (fun i tcrc =>
               b <- gets (fun w => aget (csd w) i) ;;
               Xchg b ;;
               AddByteToCRC tcrc b) 0 ;;
  Xchg (u8 (Z.shiftl tcrc 1 + 1)) ;;
  Xchg 0xff ;;
  Xchg 0xff ;;
  i <- busy_wait BUSY_BOUND 0xffff ;;
  if nz i then ret SDCARD_OK else ret SDCARD_TIMEOUT.

(** ** The lock controller *)

Fixpoint BlinkLED_loop (n : nat) (pattern : Z) : M unit :=
  match n with
  | O => ret tt
  | S n' =>
      (if nz (Z.land pattern 0x80000000) then TURN_LED_ON else TURN_LED_OFF) ;;
      _delay_ms 35 ;;
      let pattern := u32 (Z.shiftl pattern 1) in
      if pattern =? 0 then ret tt else BlinkLED_loop n' pattern
  end.

Definition BlinkLED (pattern : Z) : M unit := BlinkLED_loop 32 pattern.

Definition CardIsLocked : M Z :=
  gets (fun w => Z.land (aget (csd w) 14) LOCK_BIT_MASK).

Definition ToggleState : M unit :=
  locked <- CardIsLocked ;;
  (if nz locked
   then b <- gets (fun w => aget (csd w) 14) ;;
        csd_write 14 (u8 (Z.land b (Z.lnot LOCK_BIT_MASK)))
   else b <- gets (fun w => aget (csd w) 14) ;;
        csd_write 14 (u8 (Z.lor b LOCK_BIT_MASK))) ;;
  r <- WriteCSD ;;
  if negb (r =? SDCARD_OK)
  then BlinkLED PATTERN_WERROR ;; BlinkLED PATTERN_WERROR ;; BlinkLED PATTERN_WERROR
  else ret tt.

(** ** Well-formed worlds *)

Definition is_byte (x : Z) : Prop := 0 <= x < 256.

(** The arrays have their declared sizes and hold bytes. *)
Record wf_world (w : world) : Prop := {
  wf_csd_len : length (csd w) = 16%nat;
  wf_csd_bytes : Forall is_byte (csd w);
  wf_crc_len : length (crctable w) = 256%nat;
  wf_crc_bytes : Forall is_byte (crctable w)
}.

(** State at reset: all globals zero, port B zero, a card that drives
    [line] on DO. *)
Definition power_on (line : N -> bool) : world :=
  World 0 line 0 [] 0 0 (replicate 16 0) (replicate 256 0).


(** ** The bus at byte level *)

(** The eight levels a byte puts on DI, most significant bit first. *)
Definition bits_msb (c : Z) : list bool :=
  [Z.testbit c 7; Z.testbit c 6; Z.testbit c 5; Z.testbit c 4;
   Z.testbit c 3; Z.testbit c 2; Z.testbit c 1; Z.testbit c 0].

(** One byte on the wire, with CS at level [cs] throughout. *)
Definition tx (cs : bool) (c : Z) : list edge := map (Edge cs) (bits_msb c).

Definition tx_bytes (cs : bool) (l : list Z) : list edge := concat (map (tx cs) l).

(** The byte the card shifts out during pulses [n .. n+7]. *)
Definition rx_byte (line : N -> bool) (n : N) : Z :=
  128 * Z.b2z (line n) + 64 * Z.b2z (line (n + 1)%N) +
  32 * Z.b2z (line (n + 2)%N) + 16 * Z.b2z (line (n + 3)%N) +
  8 * Z.b2z (line (n + 4)%N) + 4 * Z.b2z (line (n + 5)%N) +
  2 * Z.b2z (line (n + 6)%N) + Z.b2z (line (n + 7)%N).

(** The byte that the [k]-th exchange from now on will read. *)
Definition incoming (w : world) (k : nat) : Z :=
  rx_byte (miso w) (pulses w + 8 * N.of_nat k)%N.

(** A card that answers with the bytes of [l] and then leaves DO high. *)
Definition card_sends (l : list Z) : N -> bool :=
  fun n => Z.testbit (nth (N.to_nat (n / 8)) l 0xff) (7 - Z.of_N (n mod 8)).

(** ** Frame conditions *)

(** [w'] has the memory of [w]: only the port and the bus log may differ. *)
Record same_memory (w w' : world) : Prop := {
  sm_miso : miso w' = miso w;
  sm_elapsed : elapsed_ms w' = elapsed_ms w;
  sm_sdtype : sdtype w' = sdtype w;
  sm_csd : csd w' = csd w;
  sm_crctable : crctable w' = crctable w
}.

(** ** Byte-level view of a run *)

(** From [w] to [w'] the firmware exchanged [k] bytes, putting [sent] on the
    wire, and touched no memory. *)
Record moved (w w' : world) (sent : list edge) (k : nat) : Prop := {
  mv_mem : same_memory w w';
  mv_pulses : pulses w' = (pulses w + 8 * N.of_nat k)%N;
  mv_trace : trace w' = trace w ++ sent
}.

(** Number of passes a polling loop of bound [n] makes when the bytes it
    reads are [f k], [f (k+1)], ... *)
Fixpoint polls (n : nat) (done : Z -> bool) (f : nat -> Z) (k : nat) : nat :=
  match n with
  | O => O
  | S n' => if done (f k) then 1%nat else S (polls n' done f (S k))
  end.

(** ** What one command exchange puts on the wire *)

(** Commands after which the card stays selected. *)
Definition keeps_selected (command : Z) : bool :=
  (command =? SD_READ_BLK) || (command =? SD_READ_OCR) ||
  (command =? SD_SEND_CSD) || (command =? SD_SEND_STATUS) ||
  (command =? SD_SEND_CID) || (command =? SD_SEND_IF_COND) ||
  (command =? SD_LOCK_UNLOCK) || (command =? SD_PROGRAM_CSD).

Definition frame_crc (command : Z) : Z :=
  if command =? SD_GO_IDLE then 0x95
  else if command =? SD_SEND_IF_COND then 0x87
  else 0x01.

(** The six bytes of a command frame: the opcode with bit 6 set, the
    argument most significant byte first, the CRC byte. *)
Definition frame_bytes (command arg : Z) : list Z :=
  [Z.lor 0x40 command;
   (arg / 2 ^ 24) mod 256; (arg / 2 ^ 16) mod 256; (arg / 2 ^ 8) mod 256;
   arg mod 256;
   frame_crc command].

(** Passes of the response loop: the bytes read start 8 exchanges after
    the command began. *)
Definition response_polls (w : world) : nat :=
  polls 10 (fun r => Z.land r 0x80 =? 0) (incoming w) 8.

Definition exchange_response (w : world) : Z :=
  incoming w (8 + response_polls w - 1).

(** Everything one command exchange started in world [w] clocks out. *)
Definition exchange_wire (command arg : Z) (w : world) : list edge :=
  tx true 0xff ++
  tx false 0xff ++
  tx_bytes false (frame_bytes command arg) ++
  tx_bytes false (replicate (response_polls w) 0xff) ++
  (if keeps_selected command then [] else tx true 0xff).

Definition exchange_len (command : Z) (w : world) : nat :=
  8 + response_polls w + (if keeps_selected command then 0 else 1).

(** The command whose frame went out last. *)
Definition last_command (command : Z) (w : world) : Z :=
  if nz (Z.land command 0x80) then
    if fst (SD_send_command CMD55 0 w) >? 1 then CMD55
    else Z.land command 0x7f
  else command.

(** Everything a call of [SD_send_command] clocks out: one exchange, or for
    an advanced command the CMD55 exchange and then, unless its response
    was above 1, the exchange of the command itself. *)
Definition command_wire (command arg : Z) (w : world) : list edge :=
  if nz (Z.land command 0x80) then
    exchange_wire CMD55 0 w ++
    (if fst (SD_send_command CMD55 0 w) >? 1 then []
     else exchange_wire (Z.land command 0x7f) arg (snd (SD_send_command CMD55 0 w)))
  else exchange_wire command arg w.

Definition command_len (command : Z) (w : world) : nat :=
  if nz (Z.land command 0x80) then
    exchange_len CMD55 w +
    (if fst (SD_send_command CMD55 0 w) >? 1 then 0
     else exchange_len (Z.land command 0x7f) (snd (SD_send_command CMD55 0 w)))
  else exchange_len command w.

(** ** CRC7, as the specification words it *)

(** One step of the long division by the generator [0x89]
    (x^7 + x^3 + 1): if the coefficient of x^(k+7) is set, XOR in the
    generator shifted left by [k]. *)
Definition crc7_spec_step (d k : Z) : Z :=
  if Z.testbit d (k + 7) then Z.lxor d (Z.shiftl CRC7_POLY k) else d.

(** The standard CRC7 remainder of one byte: the byte followed by seven
    zero bits, reduced by eight XOR-shift steps. *)
Definition crc7_spec (i : Z) : Z :=
  fold_left crc7_spec_step [7; 6; 5; 4; 3; 2; 1; 0] (Z.shiftl i 7).

(** CRC7 of a message, folded through a table as [AddByteToCRC] does. *)
Definition crc7_fold (table : list Z) (msg : list Z) : Z :=
  fold_left (fun crc b => aget table (Z.lxor (Z.shiftl crc 1) b)) msg 0.

(** ** What the code computes for one table entry *)

Definition crc_shift_value (t : Z) : Z :=
  let t := u8 (Z.shiftl t 1) in
  if nz (Z.land t 0x80) then u8 (Z.lxor t CRC7_POLY) else t.

Definition crc_entry_value (i : Z) : Z :=
  Nat.iter 7 crc_shift_value
    (u8 (if nz (Z.land i 0x80) then Z.lxor i CRC7_POLY else i)).

(** [w'] is [w] with another CRC table. *)
Definition only_crctable (w w' : world) : Prop :=
  w' = set_crctable (crctable w') w.

(** The table [GenerateCRCTable] leaves, computed once. *)
Definition CRC7_TABLE : list Z :=
  Eval vm_compute in crctable (snd (GenerateCRCTable (power_on (fun _ => true)))).

(** ** The data phase of WriteCSD, byte by byte *)

(** [csd[i] .. csd[i+n-1]] as the send loop reads them. *)
Definition csd_slice (w : world) (i : Z) (n : nat) : list Z :=
  map (aget (csd w)) (seqZ i (Z.of_nat n)).

(** The CRC7 accumulated over a message from [tcrc], through the world's table. *)
Definition crc_from (w : world) (tcrc : Z) (msg : list Z) : Z :=
  fold_left (fun crc b => aget (crctable w) (Z.lxor (Z.shiftl crc 1) b)) msg tcrc.

(** The world once [main] has called [GenerateCRCTable]. *)
Definition booted (line : N -> bool) : world :=
  snd (GenerateCRCTable (power_on line)).

(** ** Reading a block *)

(** The next [n] bytes the card sends, starting [k] exchanges from now. *)
Fixpoint received (w : world) (k n : nat) : list Z :=
  match n with
  | O => []
  | S n' => incoming w k :: received w (S k) n'
  end.

(** [a[i] = b0; a[i+1] = b1; ...] *)
Fixpoint store_bytes (a : list Z) (i : Z) (bytes : list Z) : list Z :=
  match bytes with
  | [] => a
  | b :: bs => store_bytes (aset a i b) (i + 1) bs
  end.

(** Passes of the loop of [SD_wait_for_data] in world [w]. *)
Definition data_polls (w : world) : nat :=
  polls 100 (fun r => negb (r =? 0xff)) (incoming w) 0.

(** ** The lock bit *)

(** What [ToggleState] stores into [csd[14]] when it held [b]. *)
Definition toggle_byte (b : Z) : Z :=
  if nz (Z.land b LOCK_BIT_MASK)
  then u8 (Z.land b (Z.lnot LOCK_BIT_MASK))
  else u8 (Z.lor b LOCK_BIT_MASK).

(** The world [ToggleState] hands to [WriteCSD]. *)
Definition toggled (w : world) : world :=
  set_csd (aset (csd w) 14 (toggle_byte (aget (csd w) 14))) w.

(** ** Two cards used as examples *)

(** A card that holds DO low for ever: every byte read is 0x00
    (permanently busy). *)
Definition busy_card : N -> bool := fun _ => false.

(** A card that answers 0x01 (in idle state) to every byte. *)
Definition idle_card : N -> bool := fun n => (n mod 8 =? 7)%N.

(** The world talks to [idle_card] and is at a byte boundary. *)
Definition at_idle_card (w : world) : Prop :=
  miso w = idle_card /\ (pulses w mod 8 = 0)%N.

(** * The rest of the firmware *)

(** ** LED patterns and switch states of the source *)

Definition PATTERN_LOCKED   : Z := 0x80000000.
Definition PATTERN_UNLOCKED : Z := 0x00000000.
Definition PATTERN_BOOTING  : Z := 0x844b0000.
Definition PATTERN_LOADING  : Z := 0xa0000000.
Definition PATTERN_READING  : Z := 0xa5000000.
Definition PATTERN_FAILED   : Z := 0x00030003.

Definition SW_PRESSED  : Z := 1.
Definition SW_RELEASED : Z := 0.

(** The LED is lit when its line is low. *)
Definition led_on (w : world) : bool := negb (Z.testbit (PORTB w) LEDSW_BIT).

(** ** ShowState and ReadState *)

Definition ShowState : M unit :=
  locked <- CardIsLocked ;;
  if nz locked then BlinkLED PATTERN_LOCKED else BlinkLED PATTERN_UNLOCKED.

(** [while (r != SDCARD_OK) { BlinkLED(pattern); r = op(); }].  The loop of
    the source has no bound: [None] says it is still running after [fuel]
    passes. *)
Fixpoint retry_loop (fuel : nat) (pattern : Z) (op : M Z) (r : Z) (w : world)
  : option world :=
  if r =? SDCARD_OK then Some w
  else match fuel with
       | O => None
       | S fuel' =>
           let (_, w1) := BlinkLED pattern w in
           let (r', w2) := op w1 in
           retry_loop fuel' pattern op r' w2
       end.

(** [ReadState], each of its two loops allowed [fuel] passes. *)
Definition ReadState (fuel : nat) (w : world) : option world :=
  let (r, w1) := SDInit w in
  match retry_loop fuel PATTERN_LOADING SDInit r w1 with
  | None => None
  | Some w2 =>
      let (r, w3) := ReadCSD w2 in
      retry_loop fuel PATTERN_READING ReadCSD r w3
  end.

(** A bus with no card: the pull-up keeps MISO high. *)
Definition no_card : N -> bool := fun _ => true.

(** [w'] differs from [w] at most in the port, the bus log, the clock and
    [sdtype]. *)
Record same_buffers (w w' : world) : Prop := {
  sb_miso : miso w' = miso w;
  sb_csd : csd w' = csd w;
  sb_crctable : crctable w' = crctable w
}.

(** [w'] is [w] but for the LED line of port B and the time spent. *)
Record only_led (w w' : world) : Prop := {
  ol_bits : forall k, 0 <= k < 8 -> k <> LEDSW_BIT ->
            Z.testbit (PORTB w') k = Z.testbit (PORTB w) k;
  ol_miso : miso w' = miso w;
  ol_pulses : pulses w' = pulses w;
  ol_wire : wire w' = wire w;
  ol_sdtype : sdtype w' = sdtype w;
  ol_csd : csd w' = csd w;
  ol_crctable : crctable w' = crctable w
}.

(** ** The board: the shared LED/switch pin and [main] *)

(** The LED and the push button share PB4.  Reading the button needs the
    pin's direction register and the level the button puts on the pin,
    which the board adds to the world. *)
Record board := Board {
  core  : world;       (* globals, latch of port B, the SPI bus *)
  DDRB  : Z;           (* direction register of port B *)
  ledsw : N -> bool;   (* level of PB4, as an input, at the n-th read of PINB *)
  reads : N            (* reads of PINB so far *)
}.

Definition set_core (w : world) (b : board) : board :=
  Board w (DDRB b) (ledsw b) (reads b).
Definition set_DDRB (v : Z) (b : board) : board :=
  Board (core b) v (ledsw b) (reads b).
Definition set_reads (n : N) (b : board) : board :=
  Board (core b) (DDRB b) (ledsw b) n.

Definition MB (A : Type) : Type := board -> A * board.

Definition retB {A} (a : A) : MB A := fun b => (a, b).
Definition bindB {A B} (m : MB A) (k : A -> MB B) : MB B :=
  fun b => let (a, b') := m b in k a b'.

(** A function of the SD engine run on the board. *)
Definition on_core {A} (m : M A) : MB A :=
  fun b => let (a, w) := m (core b) in (a, set_core w b).

Declare Scope bd_scope.
Delimit Scope bd_scope with bd.
Notation "x <- m ;; k" := (bindB m (fun x => k))
  (at level 100, m at next level, right associativity) : bd_scope.
Notation "m ;; k" := (bindB m (fun _ => k))
  (at level 100, right associativity) : bd_scope.
Local Open Scope bd_scope.

(** [LEDSW_DDR |= LEDSW_MASK] and [LEDSW_DDR &= ~LEDSW_MASK]. *)
Definition ddr_set (mask : Z) : MB unit :=
  fun b => (tt, set_DDRB (u8 (Z.lor (DDRB b) mask)) b).
Definition ddr_clear (mask : Z) : MB unit :=
  fun b => (tt, set_DDRB (u8 (Z.land (DDRB b) (Z.lnot mask))) b).

Definition LEDSW_AS_LED : MB unit := ddr_set LEDSW_MASK.
Definition LEDSW_AS_SW  : MB unit := ddr_clear LEDSW_MASK.
Definition SW_PULLUP    : MB unit := on_core TURN_LED_OFF.

(** [LEDSW_PIN & LEDSW_MASK]: an output pin reads as its latch, an input
    pin as the level put on it. *)
Definition read_LEDSW_PIN : MB bool :=
  fun b =>
    ((if Z.testbit (DDRB b) LEDSW_BIT
      then Z.testbit (PORTB (core b)) LEDSW_BIT
      else ledsw b (reads b)),
     set_reads (N.succ (reads b)) b).

(** [!(LEDSW_PIN & LEDSW_MASK)]: 1 when the button pulls the line low. *)
Definition SW_GET_STATE : MB Z :=
  level <- read_LEDSW_PIN ;;
  retB (if level then 0 else 1).

Definition ReadSwitchOnce : MB Z :=
  on_core TURN_LED_OFF ;;
  LEDSW_AS_SW ;;
  SW_PULLUP ;;
  switchState <- SW_GET_STATE ;;
  LEDSW_AS_LED ;;
  locked <- on_core CardIsLocked ;;
  (if nz locked then on_core TURN_LED_ON else retB tt) ;;
  retB switchState.

(** The debounce loop of [ButtonIs], [n] checks to go; the value is
    [match]. *)
Fixpoint debounce (n : nat) (state : Z) : MB Z :=
  match n with
  | O => retB 1
  | S n' =>
      on_core (_delay_ms 100) ;;
      s <- ReadSwitchOnce ;;
      if negb (s =? state) then retB 0 else debounce n' state
  end.

Definition ButtonIs (state : Z) : MB Z :=
  s <- ReadSwitchOnce ;;
  if s =? state then debounce 5 state else retB 0.

(** [main] up to its call of [ReadState].  (It leaves the SCK latch high,
    so the first pulse of the first exchange, one of the power-up clocks
    of [SDInit], has no rising edge; the bus log counts the pulses that
    [Xchg] makes.) *)
Definition main_setup : MB unit :=
  on_core (port_set (Z.lor (Z.shiftl 1 MOSI_BIT) (Z.shiftl 1 SCK_BIT))) ;;
  ddr_set (Z.lor (Z.lor (Z.shiftl 1 CS_BIT) (Z.shiftl 1 MOSI_BIT))
                 (Z.shiftl 1 SCK_BIT)) ;;
  on_core (port_set (Z.shiftl 1 MISO_BIT)) ;;
  on_core Deselect ;;
  on_core GenerateCRCTable ;;
  LEDSW_AS_LED ;;
  on_core (BlinkLED PATTERN_BOOTING).

Definition ReadState_board (fuel : nat) (b : board) : option board :=
  match ReadState fuel (core b) with
  | None => None
  | Some w => Some (set_core w b)
  end.

(** [main] up to its loop; [None] when [ReadState] is still running
    after [fuel] retries. *)
Definition main_init (fuel : nat) (b : board) : option board :=
  let (_, b1) := main_setup b in ReadState_board fuel b1.

(** [while (!ButtonIs(SW_RELEASED)) _delay_ms(25);] *)
Fixpoint wait_release (fuel : nat) (b : board) : option board :=
  let (released, b1) := ButtonIs SW_RELEASED b in
  if nz released then Some b1
  else match fuel with
       | O => None
       | S fuel' => wait_release fuel' (snd (on_core (_delay_ms 25) b1))
       end.

(** What [main] does when the button has been found pressed. *)
Definition main_pressed (fuel : nat) (b : board) : option board :=
  let (prevState, b1) := on_core CardIsLocked b in
  let (_, b2) := on_core ToggleState b1 in
  match ReadState_board fuel b2 with
  | None => None
  | Some b3 =>
      let (locked, b4) := on_core CardIsLocked b3 in
      let (_, b5) :=
        (if locked =? prevState
         then on_core (BlinkLED PATTERN_FAILED) ;;
              on_core (BlinkLED PATTERN_FAILED) ;;
              on_core (BlinkLED PATTERN_FAILED)
         else retB tt) b4 in
      let (_, b6) := on_core ShowState b5 in
      wait_release fuel b6
  end.

(** One pass of the loop of [main]. *)
Definition main_pass (fuel : nat) (b : board) : option board :=
  let (_, b1) := on_core ShowState b in
  let (pressed, b2) := ButtonIs SW_PRESSED b1 in
  if nz pressed then main_pressed fuel b2 else Some b2.

(** [main], stopped after [passes] passes of its loop. *)
Fixpoint main_loop (passes fuel : nat) (b : board) : option board :=
  match passes with
  | O => Some b
  | S n =>
      match main_pass fuel b with
      | None => None
      | Some b' => main_loop n fuel b'
      end
  end.

Definition main (passes fuel : nat) (b : board) : option board :=
  match main_init fuel b with
  | None => None
  | Some b1 => main_loop passes fuel b1
  end.

(** The state the button shows at the [k]-th read from now: 1 is pressed. *)
Definition sample (b : board) (k : nat) : Z :=
  if ledsw b (reads b + N.of_nat k) then 0 else 1.

(** The board at reset, with a card line and a button line. *)
Definition reset (line button : N -> bool) : board :=
  Board (power_on line) 0 button 0.

Local Close Scope bd_scope.

(** The button was read [n] times, and nothing moved but the shared pin
    and the clock. *)
Record switch_read (b b' : board) (n : nat) : Prop := {
  sr_core : only_led (core b) (core b');
  sr_ledsw : ledsw b' = ledsw b;
  sr_reads : reads b' = (reads b + N.of_nat n)%N;
  sr_ddr : forall k, 0 <= k < 8 -> k <> LEDSW_BIT ->
           Z.testbit (DDRB b') k = Z.testbit (DDRB b) k
}.

(** The shared pin drives the LED, and the LED shows the lock bit of the
    buffer. *)
Definition shows_lock (b : board) : Prop :=
  Z.testbit (DDRB b) LEDSW_BIT = true /\
  led_on (core b) = Z.testbit (aget (csd (core b)) 14) 4.

(** From [b] to [b'] the firmware kept the CRC table and the direction of
    every pin but the shared one; the card and the button are the same. *)
Record board_kept (b b' : board) : Prop := {
  bk_ledsw : ledsw b' = ledsw b;
  bk_miso : miso (core b') = miso (core b);
  bk_crctable : crctable (core b') = crctable (core b);
  bk_ddr : forall k, 0 <= k < 8 -> k <> LEDSW_BIT ->
           Z.testbit (DDRB b') k = Z.testbit (DDRB b) k;
  bk_reads : (reads b <= reads b')%N
}.

(** From [b] to [b'] the firmware worked on the card's side only: the
    button was not read and no pin changed direction. *)
Record card_run (b b' : board) : Prop := {
  cr_DDRB : DDRB b' = DDRB b;
  cr_ledsw : ledsw b' = ledsw b;
  cr_reads : reads b' = reads b;
  cr_miso : miso (core b') = miso (core b);
  cr_crctable : crctable (core b') = crctable (core b)
}.

(** ** A card and two buttons used as examples *)

(** A card that answers the go-idle command with 0x01, the two probing
    commands with 0x05 and the send-CSD command with 0x00, and then sends
    the token and a CSD whose lock bit is set: what [ReadState] exchanges
    from reset. *)
Definition locked_card : N -> bool :=
  card_sends (replicate 18 0xff ++ [0x01] ++ replicate 9 0xff ++ [0x05] ++
              replicate 8 0xff ++ [0x05] ++ replicate 9 0xff ++
              [0x00; 0xfe] ++ replicate 14 0 ++ [0x10; 0x01]).


(** A button left alone, and one held down for the first six samples. *)
Definition button_up : N -> bool := fun _ => true.
(** * The bus, byte by byte *)

(** ** Bit-level facts *)

Lemma u8_range x : 0 <= u8 x < 256.
Proof. unfold u8. apply Z.mod_pos_bound. lia. Qed.

Lemma u8_testbit x k : 0 <= k < 8 -> Z.testbit (u8 x) k = Z.testbit x k.
Proof.
  intros Hk. unfold u8. change 256 with (2 ^ 8).
  apply Z.mod_pow2_bits_low. lia.
Qed.

Lemma nz_true x : x <> 0 -> nz x = true.
Proof. intros H. unfold nz. destruct (Z.eqb_spec x 0); [contradiction|reflexivity]. Qed.

Lemma nz_false x : nz x = false <-> x = 0.
Proof. unfold nz. destruct (Z.eqb_spec x 0); cbn; split; intros; congruence. Qed.

Lemma nz_bit7 c : nz (Z.land c 0x80) = Z.testbit c 7.
Proof.
  unfold nz. destruct (Z.testbit c 7) eqn:E.
  - destruct (Z.eqb_spec (Z.land c 128) 0) as [H|H]; [|reflexivity].
    assert (F : Z.testbit (Z.land c 128) 7 = true)
      by (rewrite Z.land_spec, E; reflexivity).
    rewrite H in F. discriminate.
  - assert (H : Z.land c 128 = 0).
    { apply Z.bits_inj'. intros n Hn. rewrite Z.land_spec, Z.bits_0.
      change 128 with (2 ^ 7). rewrite Z.pow2_bits_eqb by lia.
      destruct (Z.eqb_spec 7 n) as [<-|]; [rewrite E|]; auto using andb_false_r. }
    rewrite H. reflexivity.
Qed.

Lemma shift_in_bit c (b : bool) :
  (if b then u8 (Z.lor (u8 (Z.shiftl c 1)) 0x01)
   else u8 (Z.land (u8 (Z.shiftl c 1)) (Z.lnot 0x01)))
  = (2 * c + Z.b2z b) mod 256.
Proof.
  rewrite Z.shiftl_mul_pow2 by lia. change (2 ^ 1) with 2. unfold u8.
  assert (E : (c * 2) mod 256 = 2 * (c mod 128)).
  { rewrite (Z.mul_comm c 2). change 256 with (2 * 128).
    rewrite Z.mul_mod_distr_l by lia. reflexivity. }
  rewrite E.
  assert (R : 0 <= c mod 128 < 128) by (apply Z.mod_pos_bound; lia).
  assert (L1 : Z.lor (2 * (c mod 128)) 1 = 2 * (c mod 128) + 1).
  { destruct (c mod 128) as [|p|p]; [reflexivity|reflexivity|lia]. }
  assert (L0 : Z.land (2 * (c mod 128)) (Z.lnot 1) = 2 * (c mod 128)).
  { destruct (c mod 128) as [|p|p]; [reflexivity|reflexivity|lia]. }
  destruct b; simpl Z.b2z; rewrite ?L1, ?L0;
    clear L1 L0 E; Z.div_mod_to_equations; lia.
Qed.

Lemma shift_in_testbit c b k :
  0 <= k < 7 -> Z.testbit ((2 * c + b) mod 256) (k + 1) = Z.testbit (2 * c + b) (k + 1).
Proof. intros. change 256 with (2 ^ 8). apply Z.mod_pow2_bits_low. lia. Qed.

Lemma shifted_testbit c (b : bool) k :
  0 <= k < 7 -> Z.testbit ((2 * c + Z.b2z b) mod 256) (k + 1) = Z.testbit c k.
Proof.
  intros Hk. rewrite shift_in_testbit by lia.
  change (k + 1) with (Z.succ k).
  apply Z.testbit_succ_r. lia.
Qed.

Lemma shifted_bit c (b : bool) k :
  1 <= k < 8 -> Z.testbit ((2 * c + Z.b2z b) mod 256) k = Z.testbit c (k - 1).
Proof.
  intros Hk. replace k with ((k - 1) + 1) at 1 by lia.
  apply shifted_testbit. lia.
Qed.

Lemma same_memory_refl w : same_memory w w.
Proof. split; reflexivity. Qed.

Lemma same_memory_trans w1 w2 w3 :
  same_memory w1 w2 -> same_memory w2 w3 -> same_memory w1 w3.
Proof. intros [] []. split; congruence. Qed.

(** ** Xchg moves one byte each way *)

Lemma Xchg_bit_spec c w :
  fst (Xchg_bit c w) = (2 * c + Z.b2z (miso w (pulses w))) mod 256 /\
  wire (snd (Xchg_bit c w)) = Edge (cs_high w) (Z.testbit c 7) :: wire w /\
  pulses (snd (Xchg_bit c w)) = N.succ (pulses w) /\
  cs_high (snd (Xchg_bit c w)) = cs_high w /\
  same_memory w (snd (Xchg_bit c w)).
Proof.
  unfold Xchg_bit, bind, sck_high, sck_low, read_MISO, gets, ret, bind.
  rewrite nz_bit7.
  destruct (Z.testbit c 7) eqn:B7;
    unfold port_set, port_clear, modify, cs_high; cbn [fst snd];
    cbn [PORTB miso pulses wire elapsed_ms sdtype csd crctable
         set_PORTB set_pulses set_wire].
  all: rewrite shift_in_bit.
  all: repeat split.
  all: unfold CS_BIT, MOSI_BIT, SCK_BIT.
  all: repeat (rewrite ?u8_testbit by lia;
               rewrite ?Z.lor_spec, ?Z.land_spec, ?Z.lnot_spec by lia).
  all: cbn; rewrite ?orb_false_r, ?andb_true_r, ?orb_true_r, ?andb_false_r;
       reflexivity.
Qed.

Ltac xchg_step c w c' w' :=
  let E := fresh "E" in
  let H := fresh "Hstep" in
  pose proof (Xchg_bit_spec c w) as H;
  destruct (Xchg_bit c w) as [c' w'] eqn:E; cbn [fst snd] in H;
  destruct H as (? & ? & ? & ? & ?); clear E.

Lemma Xchg_spec c w :
  fst (Xchg c w) = incoming w 0 /\
  wire (snd (Xchg c w)) = rev (tx (cs_high w) c) ++ wire w /\
  pulses (snd (Xchg c w)) = (pulses w + 8)%N /\
  cs_high (snd (Xchg c w)) = cs_high w /\
  same_memory w (snd (Xchg c w)).
Proof.
  unfold Xchg, Xchg_loop, bind, ret.
  xchg_step c w c1 w1. xchg_step c1 w1 c2 w2.
  xchg_step c2 w2 c3 w3. xchg_step c3 w3 c4 w4.
  xchg_step c4 w4 c5 w5. xchg_step c5 w5 c6 w6.
  xchg_step c6 w6 c7 w7. xchg_step c7 w7 c8 w8.
  cbn [fst snd].
  repeat match goal with H : same_memory _ _ |- _ => destruct H end.
  repeat split; try congruence.
  - unfold incoming, rx_byte.
    repeat match goal with H : miso _ = _ |- _ => rewrite H in * end.
    repeat match goal with H : pulses _ = _ |- _ => rewrite H in * end.
    replace (pulses w + 8 * N.of_nat 0)%N with (pulses w) by lia.
    replace (N.succ (pulses w)) with (pulses w + 1)%N in * by lia.
    replace (N.succ (pulses w + 1)) with (pulses w + 2)%N in * by lia.
    replace (N.succ (pulses w + 2)) with (pulses w + 3)%N in * by lia.
    replace (N.succ (pulses w + 3)) with (pulses w + 4)%N in * by lia.
    replace (N.succ (pulses w + 4)) with (pulses w + 5)%N in * by lia.
    replace (N.succ (pulses w + 5)) with (pulses w + 6)%N in * by lia.
    replace (N.succ (pulses w + 6)) with (pulses w + 7)%N in * by lia.
    repeat match goal with |- context [Z.b2z ?b] =>
      let v := fresh "b" in let Hv := fresh "Hb" in
      assert (Hv : 0 <= Z.b2z b <= 1) by (destruct b; simpl; lia);
      generalize dependent (Z.b2z b); intros v; intros end.
    subst c8 c7 c6 c5 c4 c3 c2 c1.
    Z.div_mod_to_equations. lia.
  - repeat match goal with H : wire _ = _ |- _ => rewrite H end.
    repeat match goal with H : cs_high _ = _ |- _ => rewrite H in * end.
    subst c7 c6 c5 c4 c3 c2 c1.
    repeat (rewrite shifted_bit by lia).
    reflexivity.
  - repeat match goal with H : pulses _ = _ |- _ => rewrite H end. lia.
Qed.

Lemma moved_refl w : moved w w [] 0.
Proof.
  split; [apply same_memory_refl | lia | symmetry; apply app_nil_r].
Qed.

Lemma moved_trans w1 w2 w3 s1 s2 k1 k2 :
  moved w1 w2 s1 k1 -> moved w2 w3 s2 k2 -> moved w1 w3 (s1 ++ s2) (k1 + k2).
Proof.
  intros [M1 P1 T1] [M2 P2 T2]. split.
  - eapply same_memory_trans; eassumption.
  - rewrite P2, P1. lia.
  - rewrite T2, T1. symmetry. apply app_assoc.
Qed.

Lemma moved_cast w w' s s' k k' :
  moved w w' s k -> s = s' -> k = k' -> moved w w' s' k'.
Proof. intros H <- <-. exact H. Qed.

Lemma moved_incoming w w' s k j :
  moved w w' s k -> incoming w' j = incoming w (k + j).
Proof.
  intros [[Hm _ _ _ _] P _]. unfold incoming. rewrite Hm, P.
  f_equal. lia.
Qed.

Lemma Xchg_moved c w :
  fst (Xchg c w) = incoming w 0 /\
  moved w (snd (Xchg c w)) (tx (cs_high w) c) 1 /\
  cs_high (snd (Xchg c w)) = cs_high w.
Proof.
  destruct (Xchg_spec c w) as (R & W & P & C & S).
  split; [exact R|]. split; [|exact C]. split; [exact S| rewrite P; lia |].
  unfold trace. rewrite W, rev_app_distr, rev_involutive. reflexivity.
Qed.

Lemma Deselect_moved w :
  moved w (snd (Deselect w)) [] 0 /\ cs_high (snd (Deselect w)) = true.
Proof.
  unfold Deselect, port_set, modify; cbn [snd].
  split.
  - split; [split; reflexivity | cbn [pulses set_PORTB]; lia
           | unfold trace; cbn [wire set_PORTB]; symmetry; apply app_nil_r].
  - unfold cs_high, CS_BIT; cbn [PORTB set_PORTB].
    rewrite u8_testbit by lia. rewrite Z.lor_spec. apply orb_true_r.
Qed.

Lemma Select_moved w :
  moved w (snd (Select w)) [] 0 /\ cs_high (snd (Select w)) = false.
Proof.
  unfold Select, port_clear, modify; cbn [snd].
  split.
  - split; [split; reflexivity | cbn [pulses set_PORTB]; lia
           | unfold trace; cbn [wire set_PORTB]; symmetry; apply app_nil_r].
  - unfold cs_high, CS_BIT; cbn [PORTB set_PORTB].
    rewrite u8_testbit by lia. rewrite Z.land_spec. apply andb_false_r.
Qed.

Lemma polls_le n done f k : (polls n done f k <= n)%nat.
Proof.
  revert k. induction n as [|n IH]; intros k; simpl; [lia|].
  destruct (done (f k)); [lia|]. specialize (IH (S k)). lia.
Qed.

Lemma polls_pos n done f k : (0 < n)%nat -> (0 < polls n done f k)%nat.
Proof. destruct n; simpl; [lia|]. destruct (done (f k)); lia. Qed.

(** Every byte read before the last pass failed the test. *)
Lemma polls_before n done f k j :
  (S j < polls n done f k)%nat -> done (f (k + j)%nat) = false.
Proof.
  revert k j. induction n as [|n IH]; intros k j; simpl; [lia|].
  destruct (done (f k)) eqn:D; [lia|]. intros H.
  destruct j as [|j]; [rewrite Nat.add_0_r; exact D|].
  replace (k + S j)%nat with (S k + j)%nat by lia. apply IH. lia.
Qed.

(** The loop stopped early only on a byte passing the test. *)
Lemma polls_last n done f k :
  (0 < polls n done f k < n)%nat ->
  done (f (k + polls n done f k - 1)%nat) = true.
Proof.
  revert k. induction n as [|n IH]; intros k; simpl; [lia|].
  destruct (done (f k)) eqn:D.
  - intros _. replace (k + 1 - 1)%nat with k by lia. exact D.
  - intros H. specialize (IH (S k)).
    replace (k + S (polls n done f (S k)) - 1)%nat
      with (S k + polls n done f (S k) - 1)%nat by lia.
    apply IH. split; [|lia].
    destruct n; simpl in *; [lia|]. destruct (done (f (S k))); lia.
Qed.

Lemma tx_bytes_nil cs : tx_bytes cs [] = [].
Proof. reflexivity. Qed.

Lemma tx_bytes_cons cs c l : tx_bytes cs (c :: l) = tx cs c ++ tx_bytes cs l.
Proof. reflexivity. Qed.

Lemma tx_bytes_app cs l1 l2 : tx_bytes cs (l1 ++ l2) = tx_bytes cs l1 ++ tx_bytes cs l2.
Proof. unfold tx_bytes. rewrite map_app. apply concat_app. Qed.

Lemma tx_bytes_one cs c : tx_bytes cs [c] = tx cs c.
Proof. rewrite tx_bytes_cons, tx_bytes_nil. apply app_nil_r. Qed.

Arguments tx : simpl never.
Arguments tx_bytes : simpl never.
Arguments incoming : simpl never.
Arguments Xchg : simpl never.

Lemma poll_Xchg_moved n c done r0 w0 w s k :
  moved w0 w s k ->
  let p := polls n done (incoming w0) k in
  let out := poll n (Xchg c) done r0 w in
  fst out = (if p is O then r0 else incoming w0 (k + p - 1)) /\
  moved w0 (snd out) (s ++ tx_bytes (cs_high w) (replicate p c)) (k + p) /\
  cs_high (snd out) = cs_high w.
Proof.
  revert r0 w s k. induction n as [|n IH]; intros r0 w s k Hm; cbn zeta.
  - simpl. rewrite app_nil_r, Nat.add_0_r. auto.
  - simpl. unfold bind.
    destruct (Xchg_moved c w) as (R & Mv & C).
    destruct (Xchg c w) as [r w1]. cbn [fst snd] in *.
    pose proof (moved_trans _ _ _ _ _ _ _ Hm Mv) as Hm1.
    assert (Er : r = incoming w0 k).
    { rewrite R. rewrite (moved_incoming _ _ _ _ 0 Hm). f_equal. lia. }
    rewrite <- Er.
    destruct (done r) eqn:D.
    + cbn [ret fst snd]. replace (k + 1 - 1)%nat with k by lia.
      split; [exact Er|]. split; [|exact C].
      change (replicate 1 c) with [c]. rewrite tx_bytes_one. exact Hm1.
    + replace (k + 1)%nat with (S k) in Hm1 by lia.
      destruct (IH r w1 _ _ Hm1) as (R' & M' & C').
      pose proof (polls_pos (S n) done (incoming w0) k ltac:(lia)) as Pp.
      simpl in Pp. rewrite <- Er, D in Pp.
      split; [|split].
      * rewrite R'.
        destruct (polls n done (incoming w0) (S k)) eqn:Ep.
        { rewrite Er. f_equal. lia. }
        { f_equal. lia. }
      * rewrite C in M'.
        replace (k + S (polls n done (incoming w0) (S k)))%nat
          with (S k + polls n done (incoming w0) (S k))%nat by lia.
        change (replicate (S (polls n done (incoming w0) (S k))) c)
          with (c :: replicate (polls n done (incoming w0) (S k)) c).
        rewrite tx_bytes_cons, app_assoc. exact M'.
      * congruence.
Qed.

(** *** Chaining exchanges from a base world *)

Section Chain.
Variables (w0 w : world) (s : list edge) (k : nat) (b : bool).
Hypothesis Hm : moved w0 w s k.
Hypothesis Hc : cs_high w = b.

Lemma Xchg_chain c :
  exists w', Xchg c w = (incoming w0 k, w') /\
    moved w0 w' (s ++ tx b c) (k + 1) /\ cs_high w' = b.
Proof.
  destruct (Xchg_moved c w) as (R & Mv & C).
  exists (snd (Xchg c w)). split; [|split].
  - rewrite (surjective_pairing (Xchg c w)). f_equal.
    rewrite R, (moved_incoming _ _ _ _ 0 Hm). f_equal. lia.
  - rewrite <- Hc. eapply moved_trans; eassumption.
  - congruence.
Qed.

Lemma Deselect_chain :
  exists w', Deselect w = (tt, w') /\ moved w0 w' s k /\ cs_high w' = true.
Proof.
  destruct (Deselect_moved w) as (Mv & C).
  exists (snd (Deselect w)). split; [|split].
  - destruct (Deselect w) as [[] ?]. reflexivity.
  - pose proof (moved_trans _ _ _ _ _ _ _ Hm Mv) as H.
    rewrite app_nil_r, Nat.add_0_r in H. exact H.
  - exact C.
Qed.

Lemma Select_chain :
  exists w', Select w = (tt, w') /\ moved w0 w' s k /\ cs_high w' = false.
Proof.
  destruct (Select_moved w) as (Mv & C).
  exists (snd (Select w)). split; [|split].
  - destruct (Select w) as [[] ?]. reflexivity.
  - pose proof (moved_trans _ _ _ _ _ _ _ Hm Mv) as H.
    rewrite app_nil_r, Nat.add_0_r in H. exact H.
  - exact C.
Qed.

Lemma poll_chain n c done r0 :
  let p := polls n done (incoming w0) k in
  exists w', poll n (Xchg c) done r0 w
             = ((if p is O then r0 else incoming w0 (k + p - 1)), w') /\
    moved w0 w' (s ++ tx_bytes b (replicate p c)) (k + p) /\ cs_high w' = b.
Proof.
  destruct (poll_Xchg_moved n c done r0 w0 w s k Hm) as (R & Mv & C).
  exists (snd (poll n (Xchg c) done r0 w)). split; [|split].
  - rewrite (surjective_pairing (poll n (Xchg c) done r0 w)). f_equal. exact R.
  - rewrite <- Hc. exact Mv.
  - congruence.
Qed.
End Chain.

Ltac chain_with lem :=
  match goal with
  | Hm : moved ?w0 ?w ?s ?k, Hc : cs_high ?w = ?b |- _ =>
      let w' := fresh "w" in
      let E := fresh "E" in
      let Hm' := fresh "Hm" in
      let Hc' := fresh "Hc" in
      destruct (lem w0 w s k Hm) as (w' & E & Hm' & Hc');
      rewrite E; cbv beta iota; clear E Hm Hc
  end.

Ltac chain_xchg :=
  match goal with
  | Hm : moved ?w0 ?w ?s ?k, Hc : cs_high ?w = ?b |- context [Xchg ?c ?w] =>
      let w' := fresh "w" in
      let E := fresh "E" in
      let Hm' := fresh "Hm" in
      let Hc' := fresh "Hc" in
      destruct (Xchg_chain w0 w s k b Hm Hc c) as (w' & E & Hm' & Hc');
      rewrite E; cbv beta iota; clear E Hm Hc
  end.

Lemma tx_u8 cs x : tx cs (u8 x) = tx cs x.
Proof.
  unfold tx, bits_msb. rewrite !u8_testbit by lia. reflexivity.
Qed.

Lemma tx_mod cs x : tx cs (x mod 256) = tx cs x.
Proof. apply tx_u8. Qed.

Lemma tx_low_byte cs x : tx cs (Z.land x 0xff) = tx cs x.
Proof.
  unfold tx, bits_msb. rewrite !Z.land_spec. cbn. rewrite !andb_true_r.
  reflexivity.
Qed.

Lemma SD_transfer_spec command arg r0 w :
  exists w', SD_transfer command arg r0 w = (exchange_response w, w') /\
    moved w w' (exchange_wire command arg w) (exchange_len command w) /\
    cs_high w' = negb (keeps_selected command).
Proof.
  pose proof (moved_refl w) as Hm.
  assert (Hc : cs_high w = cs_high w) by reflexivity.
  unfold SD_transfer, bind.
  chain_with Deselect_chain. chain_xchg.
  chain_with Select_chain. do 7 chain_xchg.
  match goal with
  | Hm : moved ?w0 ?w ?s ?k, Hc : cs_high ?w = ?b |- context [poll ?n (Xchg ?c) ?d ?r ?w] =>
      destruct (poll_chain w0 w s k b Hm Hc n c d r) as (w' & E & Hm' & Hc');
      rewrite E; cbv beta iota; clear E Hm Hc
  end.
  pose proof (polls_pos 10 (fun r => Z.land r 0x80 =? 0) (incoming w) 8 ltac:(lia)) as Pp.
  change (0 + 1 + 1 + 1 + 1 + 1 + 1 + 1 + 1)%nat with 8%nat in *.
  fold (response_polls w) in *.
  assert (Ekeep : negb (command =? SD_READ_BLK) && negb (command =? SD_READ_OCR) &&
      negb (command =? SD_SEND_CSD) && negb (command =? SD_SEND_STATUS) &&
      negb (command =? SD_SEND_CID) && negb (command =? SD_SEND_IF_COND) &&
      negb (command =? SD_LOCK_UNLOCK) && negb (command =? SD_PROGRAM_CSD)
      = negb (keeps_selected command)).
  { unfold keeps_selected. rewrite !negb_orb. reflexivity. }
  rewrite Ekeep. clear Ekeep.
  assert (Eframe : forall tail,
    ((((((((([] ++ tx true 255) ++ tx false 255) ++
      tx false (u8 (Z.lor command 64))) ++ tx false (u8 (Z.shiftr arg 24))) ++
      tx false (u8 (Z.shiftr arg 16))) ++ tx false (u8 (Z.shiftr arg 8))) ++
      tx false (u8 (Z.land arg 255))) ++
      tx false (if command =? SD_SEND_IF_COND then 135
                else if command =? SD_GO_IDLE then 149 else 1)) ++
      tx_bytes false (replicate (response_polls w) 255)) ++ tail
    = tx true 0xff ++ tx false 0xff ++ tx_bytes false (frame_bytes command arg) ++
      tx_bytes false (replicate (response_polls w) 0xff) ++ tail).
  { intros tail. unfold frame_bytes, frame_crc.
    rewrite !tx_bytes_cons, tx_bytes_nil, !tx_u8, tx_low_byte, !tx_mod.
    rewrite !Z.shiftr_div_pow2 by lia. rewrite (Z.lor_comm 64 command).
    rewrite <- !app_assoc. simpl app.
    destruct (command =? SD_SEND_IF_COND) eqn:E8;
      destruct (command =? SD_GO_IDLE) eqn:E0; try reflexivity.
    apply Z.eqb_eq in E8, E0. rewrite E8 in E0. discriminate. }
  destruct (response_polls w) as [|p] eqn:Ep; [lia|].
  destruct (keeps_selected command) eqn:K; cbn [negb].
  - cbv beta iota. unfold ret. eexists. split; [|split].
    + unfold exchange_response. rewrite Ep. reflexivity.
    + unfold exchange_wire, exchange_len. rewrite K, Ep.
      rewrite <- (Eframe []), app_nil_r, Nat.add_0_r. exact Hm'.
    + exact Hc'.
  - chain_with Deselect_chain. chain_xchg. unfold ret.
    eexists. split; [|split].
    + unfold exchange_response. rewrite Ep. reflexivity.
    + unfold exchange_wire, exchange_len. rewrite K, Ep.
      rewrite <- Eframe. exact Hm0.
    + assumption.
Qed.

(** ** SD_send_command: the recursion and the two paths *)

Lemma poll_first n step done r r' w :
  poll (S n) step done r w = poll (S n) step done r' w.
Proof. reflexivity. Qed.

(** The value [response] holds on entry is never used. *)
Lemma SD_transfer_entry command arg r r' w :
  SD_transfer command arg r w = SD_transfer command arg r' w.
Proof.
  unfold SD_transfer, bind.
  repeat match goal with
         | |- context [Deselect ?v] => destruct (Deselect v) as [[] ?]
         | |- context [Select ?v] => destruct (Select v) as [[] ?]
         | |- context [Xchg ?c ?v] => destruct (Xchg c v) as [? ?]
         end.
  match goal with
  | |- context [poll 10 ?st ?d r ?v] => rewrite (poll_first 9 st d r r' v)
  end.
  reflexivity.
Qed.

(** [SD_send_command] solves the recursive equation of the source. *)
Lemma SD_send_command_unfold command arg w :
  SD_send_command command arg w
  = SD_send_command_body SD_send_command command arg w.
Proof.
  unfold SD_send_command. cbn [SD_send_command_rec].
  unfold SD_send_command_body at 1 3.
  destruct (nz (Z.land command 128)); reflexivity.
Qed.

(** A deeper recursion bound changes nothing. *)
Lemma SD_send_command_depth d command arg w :
  SD_send_command_rec (S (S d)) command arg w = SD_send_command command arg w.
Proof.
  unfold SD_send_command. cbn [SD_send_command_rec].
  unfold SD_send_command_body at 1 3.
  destruct (nz (Z.land command 128)); [|reflexivity].
  destruct d; reflexivity.
Qed.

Lemma SD_send_command_plain command arg w :
  nz (Z.land command 0x80) = false ->
  SD_send_command command arg w = SD_transfer command arg 0 w.
Proof.
  intros H. rewrite SD_send_command_unfold. unfold SD_send_command_body.
  rewrite H. reflexivity.
Qed.

Lemma SD_send_command_adv command arg w :
  nz (Z.land command 0x80) = true ->
  SD_send_command command arg w
  = (let (r, w1) := SD_send_command CMD55 0 w in
     if r >? 1 then (r, w1) else SD_transfer (Z.land command 0x7f) arg r w1).
Proof.
  intros H. rewrite SD_send_command_unfold. unfold SD_send_command_body.
  rewrite H. unfold bind, ret.
  destruct (SD_send_command CMD55 0 w) as [r w1].
  destruct (r >? 1); reflexivity.
Qed.

Lemma stripped_plain command : nz (Z.land (Z.land command 0x7f) 0x80) = false.
Proof.
  rewrite nz_bit7, Z.land_spec. apply andb_false_r.
Qed.

Lemma SD_send_command_spec command arg w :
  nz (Z.land command 0x80) = false ->
  exists w', SD_send_command command arg w = (exchange_response w, w') /\
    moved w w' (exchange_wire command arg w) (exchange_len command w) /\
    cs_high w' = negb (keeps_selected command).
Proof.
  intros H. rewrite SD_send_command_plain by exact H. apply SD_transfer_spec.
Qed.

Lemma SD_send_command_moved command arg w :
  moved w (snd (SD_send_command command arg w))
        (command_wire command arg w) (command_len command w) /\
  cs_high (snd (SD_send_command command arg w))
  = negb (keeps_selected (last_command command w)).
Proof.
  unfold command_wire, command_len, last_command.
  destruct (nz (Z.land command 0x80)) eqn:A.
  - rewrite (SD_send_command_adv _ _ _ A).
    destruct (SD_send_command_spec CMD55 0 w eq_refl) as (w1 & E & Mv & C).
    rewrite E. cbn [fst snd].
    destruct (exchange_response w >? 1).
    + cbn [snd]. rewrite app_nil_r, Nat.add_0_r. auto.
    + destruct (SD_transfer_spec (Z.land command 0x7f) arg (exchange_response w) w1)
        as (w2 & E2 & Mv2 & C2).
      rewrite E2. cbn [snd]. split; [|exact C2].
      eapply moved_trans; eassumption.
  - destruct (SD_send_command_spec command arg w A) as (w1 & E & Mv & C).
    rewrite E. auto.
Qed.

Lemma SD_send_command_memory command arg w :
  same_memory w (snd (SD_send_command command arg w)).
Proof. apply (SD_send_command_moved command arg w). Qed.

(** ** Arrays *)

Lemma aget_aset_eq l i v :
  (Z.to_nat i < length l)%nat -> aget (aset l i v) i = v.
Proof. intros H. unfold aget, aset. rewrite list_lookup_insert_eq by exact H. reflexivity. Qed.

Lemma aget_aset_ne l i j v :
  Z.to_nat i <> Z.to_nat j -> aget (aset l i v) j = aget l j.
Proof. intros H. unfold aget, aset. rewrite list_lookup_insert_ne by exact H. reflexivity. Qed.

Lemma aset_length l i v : length (aset l i v) = length l.
Proof. unfold aset. apply length_insert. Qed.

Lemma aset_aset l i v v' : aset (aset l i v) i v' = aset l i v'.
Proof. unfold aset. apply list_insert_insert_eq. Qed.

(** ** GenerateCRCTable *)

Lemma only_crctable_refl w : only_crctable w w.
Proof. unfold only_crctable. destruct w; reflexivity. Qed.

Lemma only_crctable_trans w1 w2 w3 :
  only_crctable w1 w2 -> only_crctable w2 w3 -> only_crctable w1 w3.
Proof.
  unfold only_crctable. intros H1 H2. rewrite H2 at 1. rewrite H1 at 1.
  reflexivity.
Qed.

Lemma crc_shift_spec i w :
  (Z.to_nat i < length (crctable w))%nat ->
  crc_shift i w
  = (tt, set_crctable (aset (crctable w) i (crc_shift_value (aget (crctable w) i))) w).
Proof.
  intros Hi.
  unfold crc_shift, bind, gets, crctable_write, modify, ret, crc_shift_value.
  cbn [crctable set_crctable]. rewrite aget_aset_eq by exact Hi.
  destruct (nz (Z.land (u8 (Z.shiftl (aget (crctable w) i) 1)) 128)).
  - unfold set_crctable. cbn. rewrite aset_aset. reflexivity.
  - reflexivity.
Qed.

Lemma crc_shift_iter n i w :
  (Z.to_nat i < length (crctable w))%nat ->
  repeat_do n (crc_shift i) w
  = (tt, set_crctable
           (aset (crctable w) i (Nat.iter n crc_shift_value (aget (crctable w) i))) w).
Proof.
  revert w. induction n as [|n IH]; intros w Hi.
  - cbn [repeat_do ret]. unfold Nat.iter, nat_rect, aset, aget.
    destruct (lookup_lt_is_Some_2 _ _ Hi) as [t Ht].
    rewrite Ht. cbn [default from_option id]. rewrite (list_insert_id _ _ _ Ht).
    destruct w; reflexivity.
  - cbn [repeat_do]. unfold bind. rewrite crc_shift_spec by exact Hi.
    rewrite IH by (cbn [crctable set_crctable]; rewrite aset_length; exact Hi).
    cbn [crctable set_crctable]. rewrite aget_aset_eq by exact Hi.
    rewrite aset_aset. f_equal. unfold set_crctable. cbn. f_equal. f_equal.
    exact (eq_sym (Nat.iter_succ_r n crc_shift_value (aget (crctable w) i))).
Qed.

Lemma crc_entry_spec i w :
  (Z.to_nat i < length (crctable w))%nat ->
  crc_entry i w = (tt, set_crctable (aset (crctable w) i (crc_entry_value i)) w).
Proof.
  intros Hi. unfold crc_entry, bind, crctable_write, modify.
  rewrite crc_shift_iter by (cbn [crctable set_crctable]; rewrite aset_length; exact Hi).
  cbn [crctable set_crctable]. rewrite aget_aset_eq by exact Hi.
  rewrite aset_aset. reflexivity.
Qed.

Lemma crc_loop_spec n i w :
  0 <= i -> (Z.to_nat i + n <= length (crctable w))%nat ->
  let w' := snd (for_loop n i (fun i _ => crc_entry i) tt w) in
  only_crctable w w' /\
  length (crctable w') = length (crctable w) /\
  forall j, 0 <= j ->
    aget (crctable w') j
    = if (i <=? j) && (j <? i + Z.of_nat n) then crc_entry_value j
      else aget (crctable w) j.
Proof.
  revert i w. induction n as [|n IH]; intros i w Hi Hlen; cbn zeta.
  - cbn [for_loop ret snd]. split; [apply only_crctable_refl|].
    split; [reflexivity|]. intros j Hj.
    replace (j <? i + Z.of_nat 0) with (j <? i) by (f_equal; lia).
    destruct (Z.leb_spec i j), (Z.ltb_spec j i); try reflexivity; lia.
  - cbn [for_loop]. unfold bind.
    rewrite crc_entry_spec by lia.
    specialize (IH (i + 1)
                  (set_crctable (aset (crctable w) i (crc_entry_value i)) w)).
    cbn [crctable set_crctable] in IH. rewrite aset_length in IH.
    destruct IH as (O & L & G); [lia|lia|].
    split; [|split].
    + eapply only_crctable_trans; [|exact O].
      unfold only_crctable. reflexivity.
    + exact L.
    + intros j Hj. rewrite (G j Hj).
      destruct (Z.eq_dec j i) as [->|Hne].
      * rewrite aget_aset_eq by lia.
        destruct (Z.leb_spec (i + 1) i), (Z.leb_spec i i),
          (Z.ltb_spec i (i + 1 + Z.of_nat n)),
          (Z.ltb_spec i (i + Z.of_nat (S n))); cbn; try reflexivity; lia.
      * rewrite aget_aset_ne by lia.
        destruct (Z.leb_spec (i + 1) j), (Z.leb_spec i j),
          (Z.ltb_spec j (i + 1 + Z.of_nat n)),
          (Z.ltb_spec j (i + Z.of_nat (S n))); cbn; try reflexivity; lia.
Qed.

Lemma crc_entry_values : map crc_entry_value (seqZ 0 256) = CRC7_TABLE.
Proof. vm_compute. reflexivity. Qed.

Lemma GenerateCRCTable_spec w :
  length (crctable w) = 256%nat ->
  GenerateCRCTable w = (tt, set_crctable CRC7_TABLE w).
Proof.
  intros Hlen. unfold GenerateCRCTable.
  destruct (crc_loop_spec 256 0 w ltac:(lia) ltac:(rewrite Hlen; cbn; lia))
    as (O & L & G).
  destruct (for_loop 256 0 (fun i _ => crc_entry i) tt w) as [[] w'].
  cbn [snd] in *. f_equal. rewrite O. f_equal.
  rewrite <- crc_entry_values.
  apply (list_eq_same_length _ _ 256%nat).
  - rewrite length_fmap, length_seqZ. reflexivity.
  - congruence.
  - intros k x y Hk Hx Hy.
    rewrite list_lookup_fmap in Hy.
    rewrite lookup_seqZ_lt in Hy by lia. cbn in Hy.
    injection Hy as <-.
    specialize (G (Z.of_nat k) ltac:(lia)).
    unfold aget in G. rewrite Nat2Z.id, Hx in G. cbn [default from_option id] in G.
    rewrite G.
    destruct (Z.leb_spec 0 (Z.of_nat k)), (Z.ltb_spec (Z.of_nat k) (0 + Z.of_nat 256));
      cbn; try reflexivity; lia.
Qed.

Lemma CRC7_TABLE_small : Forall (fun t => 0 <= t < 128) CRC7_TABLE.
Proof.
  apply Forall_forall. intros t Ht.
  assert (B : forallb (fun t => (0 <=? t) && (t <? 128)) CRC7_TABLE = true)
    by (vm_compute; reflexivity).
  rewrite forallb_forall in B. specialize (B t).
  apply list_elem_of_In in Ht. specialize (B Ht).
  apply andb_true_iff in B. destruct B as [B1 B2].
  apply Z.leb_le in B1. apply Z.ltb_lt in B2. lia.
Qed.

Lemma CRC7_TABLE_spec : CRC7_TABLE = map crc7_spec (seqZ 0 256).
Proof. vm_compute. reflexivity. Qed.

(** ** WriteCSD *)

Lemma polls_first n done f k m :
  (m < n)%nat ->
  (forall j, (j < m)%nat -> done (f (k + j)%nat) = false) ->
  done (f (k + m)%nat) = true ->
  polls n done f k = S m.
Proof.
  revert k m. induction n as [|n IH]; intros k m Hm Hb Hd; [lia|].
  simpl. destruct m as [|m].
  - rewrite Nat.add_0_r in Hd. rewrite Hd. reflexivity.
  - rewrite <- (Nat.add_0_r k) at 1. rewrite (Hb 0%nat) by lia.
    f_equal. apply IH; [lia| |].
    + intros j Hj. replace (S k + j)%nat with (k + S j)%nat by lia.
      apply Hb. lia.
    + replace (S k + m)%nat with (k + S m)%nat by lia. exact Hd.
Qed.

Lemma polls_none n done f k :
  (forall j, (j < n)%nat -> done (f (k + j)%nat) = false) ->
  polls n done f k = n.
Proof.
  revert k. induction n as [|n IH]; intros k Hb; [reflexivity|].
  simpl. rewrite <- (Nat.add_0_r k) at 1. rewrite (Hb 0%nat) by lia.
  f_equal. apply IH. intros j Hj.
  replace (S k + j)%nat with (k + S j)%nat by lia. apply Hb. lia.
Qed.

Lemma send_loop_chain w0 n : forall i tcrc w s k b,
  moved w0 w s k -> cs_high w = b ->
  exists w',
    for_loop n i
      (fun i tcrc =>
         b <- gets (fun w => aget (csd w) i) ;;
         Xchg b ;;
         AddByteToCRC tcrc b) tcrc w
    = (crc_from w0 tcrc (csd_slice w0 i n), w') /\
    moved w0 w' (s ++ tx_bytes b (csd_slice w0 i n)) (k + n) /\
    cs_high w' = b.
Proof.
  induction n as [|n IH]; intros i tcrc w s k b Hm Hc.
  - exists w. cbn [for_loop ret]. unfold csd_slice. cbn.
    rewrite tx_bytes_nil, app_nil_r, Nat.add_0_r. auto.
  - cbn [for_loop]. unfold bind at 1. unfold bind at 1. unfold gets at 1.
    unfold bind at 1.
    destruct (Xchg_chain w0 w s k b Hm Hc (aget (csd w) i)) as (w1 & E & Hm1 & Hc1).
    rewrite E. unfold AddByteToCRC at 1. unfold gets at 1.
    destruct (IH (i + 1)
                (aget (crctable w1) (Z.lxor (Z.shiftl tcrc 1) (aget (csd w) i)))
                w1 _ _ b Hm1 Hc1) as (w2 & E2 & Hm2 & Hc2).
    rewrite E2. exists w2.
    assert (Ecsd : csd w = csd w0) by apply (sm_csd _ _ (mv_mem _ _ _ _ Hm)).
    assert (Ecrc : crctable w1 = crctable w0)
      by apply (sm_crctable _ _ (mv_mem _ _ _ _ Hm1)).
    assert (Esl : csd_slice w0 i (S n) = aget (csd w0) i :: csd_slice w0 (i + 1) n).
    { unfold csd_slice. rewrite Nat2Z.inj_succ, seqZ_cons by lia.
      cbn [map]. do 3 f_equal. lia. }
    rewrite Ecsd, Ecrc in *. rewrite Esl. split; [reflexivity|]. split; [|exact Hc2].
    rewrite tx_bytes_cons, app_assoc.
    replace (k + S n)%nat with (k + 1 + n)%nat by lia. exact Hm2.
Qed.

Lemma busy_wait_chain w0 fuel : forall i w s k b,
  0 < i < 65536 -> (Z.to_nat i <= fuel)%nat ->
  moved w0 w s k -> cs_high w = b ->
  let p := polls (Z.to_nat i) nz (incoming w0) k in
  exists w',
    busy_wait fuel i w
    = ((if nz (incoming w0 (k + p - 1)) then i - (Z.of_nat p - 1) else 0), w') /\
    moved w0 w' (s ++ tx_bytes b (replicate p 0xff)) (k + p) /\
    cs_high w' = b.
Proof.
  induction fuel as [|fuel IH]; intros i w s k b Hi Hf Hm Hc; [lia|].
  cbn zeta. cbn [busy_wait]. unfold bind at 1.
  destruct (Xchg_chain w0 w s k b Hm Hc 0xff) as (w1 & E & Hm1 & Hc1).
  rewrite E.
  assert (Ei : Z.to_nat i = S (Z.to_nat (i - 1))) by lia.
  rewrite Ei. cbn [polls].
  destruct (nz (incoming w0 k)) eqn:D; cbv beta iota.
  - exists w1. rewrite Nat.add_sub, D.
    unfold ret. split; [f_equal; lia|]. split; [|exact Hc1].
    cbn [replicate]. rewrite tx_bytes_one. exact Hm1.
  - assert (Eu : u16 (i - 1) = i - 1) by (unfold u16; apply Z.mod_small; lia).
    rewrite Eu.
    destruct (Z.eq_dec i 1) as [->|Hne].
    + exists w1. change (Z.to_nat (1 - 1)) with 0%nat. cbn [polls nz].
      rewrite Nat.add_sub, D.
      unfold ret. split; [reflexivity|]. split; [|exact Hc1].
      cbn [replicate]. rewrite tx_bytes_one. exact Hm1.
    + assert (Hnz : nz (i - 1) = true).
      { unfold nz. destruct (Z.eqb_spec (i - 1) 0); [lia|reflexivity]. }
      rewrite Hnz.
      replace (k + 1)%nat with (S k) in Hm1 by lia.
      destruct (IH (i - 1) w1 _ _ b ltac:(lia) ltac:(lia) Hm1 Hc1)
        as (w2 & E2 & Hm2 & Hc2).
      cbn zeta in E2, Hm2.
      pose proof (polls_pos (Z.to_nat (i - 1)) nz (incoming w0) (S k) ltac:(lia)) as Pp.
      set (p := polls (Z.to_nat (i - 1)) nz (incoming w0) (S k)) in *.
      exists w2. split; [|split; [|exact Hc2]].
      * rewrite E2. f_equal.
        replace (k + S p - 1)%nat with (S k + p - 1)%nat by lia.
        destruct (nz (incoming w0 (S k + p - 1))); [lia|reflexivity].
      * cbn [replicate]. rewrite tx_bytes_cons, app_assoc.
        replace (k + S p)%nat with (S k + p)%nat by lia. exact Hm2.
Qed.

Lemma aget_table_small (P : Z -> Prop) table i :
  Forall P table -> P 0 -> P (aget table i).
Proof.
  intros Hall H0. unfold aget.
  destruct (table !! Z.to_nat i) as [t|] eqn:E.
  - cbn [default from_option id]. rewrite Forall_forall in Hall. apply Hall.
    apply list_elem_of_lookup. eauto.
  - exact H0.
Qed.

Lemma crc7_fold_range msg : 0 <= crc7_fold CRC7_TABLE msg < 128.
Proof.
  unfold crc7_fold.
  assert (G : forall acc, 0 <= acc < 128 ->
    0 <= fold_left (fun crc b => aget CRC7_TABLE (Z.lxor (Z.shiftl crc 1) b)) msg acc < 128).
  { induction msg as [|b msg IH]; intros acc Hacc; [exact Hacc|].
    cbn [fold_left]. apply IH.
    apply (aget_table_small (fun t => 0 <= t < 128)); [apply CRC7_TABLE_small|lia]. }
  apply G. lia.
Qed.

Lemma crc_byte_format cs t :
  0 <= t < 128 -> tx cs (u8 (Z.shiftl t 1 + 1)) = tx cs (Z.lor (Z.shiftl t 1) 1).
Proof.
  intros Ht. rewrite tx_u8. f_equal.
  destruct t as [|p|p]; [reflexivity|reflexivity|lia].
Qed.

Lemma csd_slice_take w :
  length (csd w) = 16%nat -> csd_slice w 0 15 = take 15 (csd w).
Proof.
  unfold csd_slice. generalize (csd w). intros l Hl.
  do 16 (destruct l as [|? l]; [discriminate Hl|]).
  destruct l; [reflexivity|discriminate Hl].
Qed.

Lemma BUSY_BOUND_val : Z.of_nat BUSY_BOUND = 65535.
Proof. reflexivity. Qed.

(** The data phase and the busy-wait, from the world [w1] the command left. *)
Lemma WriteCSD_data_phase w1 :
  cs_high w1 = false ->
  let p := polls BUSY_BOUND nz (incoming w1) 19 in
  let crc := crc_from w1 0 (csd_slice w1 0 15) in
  exists w',
    WriteCSD_data w1
    = ((if nz (incoming w1 (19 + p - 1)) then SDCARD_OK else SDCARD_TIMEOUT), w') /\
    moved w1 w'
      (tx_bytes false ([0xfe] ++ csd_slice w1 0 15 ++
                       [u8 (Z.shiftl crc 1 + 1); 0xff; 0xff]) ++
       tx_bytes false (replicate p 0xff))
      (19 + p) /\
    cs_high w' = false.
Proof.
  intros Hc. cbn zeta.
  pose proof (moved_refl w1) as Hm.
  unfold WriteCSD_data.
  unfold bind at 1. chain_xchg.
  unfold bind at 1.
  destruct (send_loop_chain w1 15 0 0 _ _ _ _ Hm0 Hc0) as (w2 & E & Hm2 & Hc2).
  rewrite E. clear E Hm0 Hc0.
  unfold bind at 1. chain_xchg.
  unfold bind at 1. chain_xchg.
  unfold bind at 1. chain_xchg.
  unfold bind at 1.
  match goal with
  | Hm : moved w1 ?v ?s ?k, Hc : cs_high ?v = false |- _ =>
      destruct (busy_wait_chain w1 BUSY_BOUND 0xffff v s k false
                  ltac:(lia) (Nat.le_refl BUSY_BOUND) Hm Hc) as (w' & E & Hm' & Hc')
  end.
  cbn zeta in E, Hm'.
  change (Z.to_nat 65535) with BUSY_BOUND in E, Hm'.
  change (0 + 1 + 15 + 1 + 1 + 1)%nat with 19%nat in *.
  rewrite E. exists w'. split; [|split; [|exact Hc']].
  - f_equal.
    pose proof (polls_le BUSY_BOUND nz (incoming w1) 19) as Ple.
    pose proof BUSY_BOUND_val as Hb.
    destruct (nz (incoming w1 (19 + polls BUSY_BOUND nz (incoming w1) 19 - 1))).
    + assert (Hi : nz (65535 - (Z.of_nat (polls BUSY_BOUND nz (incoming w1) 19) - 1)) = true).
      { apply nz_true. lia. }
      rewrite Hi. reflexivity.
    + reflexivity.
  - rewrite !tx_bytes_app, !tx_bytes_cons, !tx_bytes_nil.
    rewrite <- !app_assoc in Hm'. rewrite <- !app_assoc. rewrite ?app_nil_r.
    cbn [app] in *. exact Hm'.
Qed.

Lemma booted_eq line : booted line = set_crctable CRC7_TABLE (power_on line).
Proof. unfold booted. rewrite GenerateCRCTable_spec by reflexivity. reflexivity. Qed.

Lemma wf_booted line : wf_world (booted line).
Proof.
  rewrite booted_eq. split; cbn [csd crctable set_crctable power_on].
  - reflexivity.
  - apply Forall_replicate. unfold is_byte. lia.
  - reflexivity.
  - eapply Forall_impl; [apply CRC7_TABLE_small|]. unfold is_byte. cbn. lia.
Qed.

Lemma WriteCSD_unfold w :
  WriteCSD w
  = (let (response, w1) := SD_send_command SD_PROGRAM_CSD 0 w in
     if nz response then (SDCARD_RWFAIL, w1) else WriteCSD_data w1).
Proof.
  unfold WriteCSD. unfold bind at 1.
  destruct (SD_send_command SD_PROGRAM_CSD 0 w) as [response w1].
  destruct (nz response); reflexivity.
Qed.

(** ** ReadCSD *)

(** The bus does not look at the CSD buffer. *)
Lemma Xchg_bit_set_csd l c w :
  Xchg_bit c (set_csd l w)
  = (fst (Xchg_bit c w), set_csd l (snd (Xchg_bit c w))).
Proof.
  unfold Xchg_bit, bind.
  destruct (nz (Z.land c 128)); cbn;
    destruct (miso w (pulses w)); reflexivity.
Qed.

Lemma Xchg_loop_set_csd l n : forall c w,
  Xchg_loop n c (set_csd l w)
  = (fst (Xchg_loop n c w), set_csd l (snd (Xchg_loop n c w))).
Proof.
  induction n as [|n IH]; intros c w; [reflexivity|].
  cbn [Xchg_loop]. unfold bind. rewrite Xchg_bit_set_csd.
  destruct (Xchg_bit c w) as [c' w']. cbn [fst snd]. apply IH.
Qed.

Lemma Xchg_set_csd l c w :
  Xchg c (set_csd l w) = (fst (Xchg c w), set_csd l (snd (Xchg c w))).
Proof. apply Xchg_loop_set_csd. Qed.

Lemma set_csd_id w : set_csd (csd w) w = w.
Proof. destruct w; reflexivity. Qed.

Lemma store_bytes_all pre : forall bytes l,
  length l = length bytes ->
  store_bytes (pre ++ l) (Z.of_nat (length pre)) bytes = pre ++ bytes.
Proof.
  intros bytes. revert pre.
  induction bytes as [|b bs IH]; intros pre l Hl.
  - destruct l; [reflexivity|discriminate].
  - destruct l as [|a l]; [discriminate|]. cbn [store_bytes].
    unfold aset. rewrite Nat2Z.id.
    rewrite insert_app_r_alt by lia. rewrite Nat.sub_diag. cbn [list_insert insert].
    specialize (IH (pre ++ [b]) l ltac:(cbn in Hl; lia)).
    rewrite length_app in IH. cbn [length] in IH.
    rewrite Nat2Z.inj_add in IH. rewrite <- !app_assoc in IH. exact IH.
Qed.

Lemma store_bytes_whole l bytes :
  length l = length bytes -> store_bytes l 0 bytes = bytes.
Proof. intros H. exact (store_bytes_all [] bytes l H). Qed.

Lemma length_received w k n : length (received w k n) = n.
Proof. revert k. induction n; intros k; cbn; [reflexivity|]. f_equal. auto. Qed.

Lemma zero_loop_spec n : forall i w,
  for_loop n i (fun i _ => csd_write i 0) tt w
  = (tt, set_csd (store_bytes (csd w) i (replicate n 0)) w).
Proof.
  induction n as [|n IH]; intros i w.
  - cbn. rewrite set_csd_id. reflexivity.
  - cbn [for_loop replicate store_bytes]. unfold bind, csd_write at 1, modify.
    rewrite IH. reflexivity.
Qed.

Lemma read_loop_chain w0 n : forall i l w s k b,
  moved w0 w s k -> cs_high w = b ->
  exists w',
    for_loop n i (fun i _ => r <- Xchg 0xff ;; csd_write i r) tt (set_csd l w)
    = (tt, set_csd (store_bytes l i (received w0 k n)) w') /\
    moved w0 w' (s ++ tx_bytes b (replicate n 0xff)) (k + n) /\
    cs_high w' = b.
Proof.
  induction n as [|n IH]; intros i l w s k b Hm Hc.
  - exists w. cbn. rewrite tx_bytes_nil, app_nil_r, Nat.add_0_r. auto.
  - cbn [for_loop received store_bytes replicate]. unfold bind at 1. unfold bind at 1.
    rewrite Xchg_set_csd.
    destruct (Xchg_chain w0 w s k b Hm Hc 0xff) as (w1 & E & Hm1 & Hc1).
    rewrite E. cbn [fst snd]. unfold csd_write at 1, modify.
    replace (k + 1)%nat with (S k) in Hm1 by lia.
    destruct (IH (i + 1) (aset l i (incoming w0 k)) w1 _ _ b Hm1 Hc1)
      as (w2 & E2 & Hm2 & Hc2).
    exists w2. split; [exact E2|]. split; [|exact Hc2].
    rewrite tx_bytes_cons, app_assoc.
    replace (k + S n)%nat with (S k + n)%nat by lia. exact Hm2.
Qed.

Lemma In_received x w n : forall k,
  In x (received w k n) <-> exists j, (j < n)%nat /\ incoming w (k + j) = x.
Proof.
  induction n as [|n IH]; intros k; cbn [received In].
  - split; [contradiction|]. intros (j & Hj & _). lia.
  - rewrite IH. split.
    + intros [H|(j & Hj & H)].
      * exists 0%nat. rewrite Nat.add_0_r. split; [lia|exact H].
      * exists (S j). replace (k + S j)%nat with (S k + j)%nat by lia.
        split; [lia|exact H].
    + intros (j & Hj & H). destruct j as [|j].
      * left. rewrite Nat.add_0_r in H. exact H.
      * right. exists j. replace (S k + j)%nat with (k + S j)%nat by lia.
        split; [lia|exact H].
Qed.

(** The bytes read by [SD_wait_for_data] hold the token 0xFE exactly when
    the last of them is the token: all the earlier ones are 0xFF. *)
Lemma token_polled w :
  In 0xfe (received w 0 (data_polls w)) <-> incoming w (data_polls w - 1) = 0xfe.
Proof.
  rewrite In_received. unfold data_polls. split.
  - intros (j & Hj & H).
    destruct (Nat.eq_dec (S j) (polls 100 (fun r => negb (r =? 255)) (incoming w) 0))
      as [<-|Hne].
    + cbn [Init.Nat.add] in H. replace (S j - 1)%nat with j by lia. exact H.
    + pose proof (polls_before 100 (fun r => negb (r =? 255)) (incoming w) 0 j
                    ltac:(lia)) as B.
      rewrite H in B. discriminate B.
  - intros H.
    pose proof (polls_pos 100 (fun r => negb (r =? 255)) (incoming w) 0 ltac:(lia)).
    set (p := polls 100 (fun r => negb (r =? 255)) (incoming w) 0) in *.
    exists (p - 1)%nat. split; [lia|exact H].
Qed.

Lemma ReadCSD_run w :
  length (csd w) = 16%nat ->
  exists w1,
    SD_send_command SD_SEND_CSD 0 (set_csd (replicate 16 0) w)
    = (exchange_response (set_csd (replicate 16 0) w), w1) /\
    exists w',
      ReadCSD w
      = ((if incoming w1 (data_polls w1 - 1) =? 0xfe
          then SDCARD_OK else SDCARD_RWFAIL),
         set_csd (if incoming w1 (data_polls w1 - 1) =? 0xfe
                  then received w1 (data_polls w1) 16
                  else replicate 16 0) w') /\
      moved (set_csd (replicate 16 0) w) w'
        (exchange_wire SD_SEND_CSD 0 (set_csd (replicate 16 0) w) ++
         tx_bytes false (replicate (data_polls w1) 0xff) ++
         (if incoming w1 (data_polls w1 - 1) =? 0xfe
          then tx_bytes false (replicate 16 0xff) ++ tx false 0xff else []))
        (exchange_len SD_SEND_CSD (set_csd (replicate 16 0) w) + data_polls w1 +
         (if incoming w1 (data_polls w1 - 1) =? 0xfe then 17 else 0)).
Proof.
  intros Hlen.
  set (wz := set_csd (replicate 16 0) w).
  destruct (SD_send_command_spec SD_SEND_CSD 0 wz eq_refl) as (w1 & E & Mv & C).
  change (negb (keeps_selected SD_SEND_CSD)) with false in C.
  exists w1. split; [exact E|].
  unfold ReadCSD. unfold bind at 1. rewrite zero_loop_spec.
  rewrite store_bytes_whole by (rewrite length_replicate; exact Hlen).
  fold wz. unfold bind at 1. rewrite E.
  unfold bind at 1. unfold SD_wait_for_data.
  destruct (poll_chain w1 w1 [] 0 false (moved_refl w1) C 100 0xff
              (fun r => negb (r =? 0xff)) 0) as (w2 & E2 & Mv2 & C2).
  cbn zeta in E2, Mv2. fold (data_polls w1) in E2, Mv2.
  pose proof (polls_pos 100 (fun r => negb (r =? 255)) (incoming w1) 0 ltac:(lia)) as Pp.
  fold (data_polls w1) in Pp.
  rewrite E2. clear E2.
  destruct (data_polls w1) as [|p] eqn:Ep; [lia|].
  cbn [Init.Nat.add app] in *.
  destruct (incoming w1 (S p - 1) =? 254) eqn:T; cbn [negb].
  - destruct (read_loop_chain w1 16 0 (csd w2) w2 _ _ false Mv2 C2)
      as (w3 & E3 & Mv3 & C3).
    rewrite set_csd_id in E3.
    unfold bind at 1. rewrite E3.
    unfold bind at 1. rewrite Xchg_set_csd.
    destruct (Xchg_chain w1 w3 _ _ false Mv3 C3 0xff) as (w4 & E4 & Mv4 & C4).
    rewrite E4. cbn [fst snd]. unfold ret.
    assert (Ecsd : csd w2 = replicate 16 0).
    { rewrite (sm_csd _ _ (mv_mem _ _ _ _ Mv2)).
      rewrite (sm_csd _ _ (mv_mem _ _ _ _ Mv)). reflexivity. }
    rewrite store_bytes_whole
      by (rewrite Ecsd, length_replicate, length_received; reflexivity).
    exists w4. split; [reflexivity|].
    pose proof (moved_trans _ _ _ _ _ _ _ Mv Mv4) as H.
    eapply moved_cast; [exact H | rewrite <- ?app_assoc; reflexivity | lia].
  - unfold ret. exists w2.
    assert (Ecsd : csd w2 = replicate 16 0).
    { rewrite (sm_csd _ _ (mv_mem _ _ _ _ Mv2)).
      rewrite (sm_csd _ _ (mv_mem _ _ _ _ Mv)). reflexivity. }
    split; [rewrite <- Ecsd, set_csd_id; reflexivity|].
    pose proof (moved_trans _ _ _ _ _ _ _ Mv Mv2) as H.
    eapply moved_cast; [exact H | rewrite ?app_nil_r; reflexivity | lia].
Qed.

(** ** SDInit *)

Lemma SDInit_unfold w :
  SDInit w
  = (let (response, w1) := SDInit_go_idle w in
     if negb (response =? 0x01) then (SDCARD_NOT_DETECTED, w1)
     else SDInit_detect w1).
Proof.
  unfold SDInit, SDInit_go_idle, SDInit_power_up, bind.
  destruct (modify (set_sdtype SDTYPE_UNKNOWN) w) as [[] wa].
  destruct (Deselect wa) as [[] wb].
  destruct (repeat_do 10 (fun w0 => let (_, w') := Xchg 255 w0 in ret tt w') wb)
    as [[] wc].
  destruct (poll 10 (SD_send_command SD_GO_IDLE 0) (fun r => r =? 1) 0 wc)
    as [response w1].
  destruct (negb (response =? 1)); reflexivity.
Qed.

Lemma step_world_S step w k :
  step_world step w (S k) = step_world step (snd (step w)) k.
Proof. exact (Nat.iter_succ_r k (fun v => snd (step v)) w). Qed.

Lemma step_response_S step w k :
  step_response step w (S k) = step_response step (snd (step w)) k.
Proof. unfold step_response. rewrite step_world_S. reflexivity. Qed.

(** A polling loop leaves a response passing its test exactly when one of
    its passes gets one. *)
Lemma poll_done_iff n step done : forall r w,
  (0 < n)%nat ->
  (done (fst (poll n step done r w)) = true <->
   exists k, (k < n)%nat /\ done (step_response step w k) = true).
Proof.
  induction n as [|n IH]; intros r w Hn; [lia|].
  cbn [poll]. unfold bind.
  destruct (step w) as [r1 w1] eqn:E.
  assert (E0 : step_response step w 0 = r1)
    by (unfold step_response, step_world; cbn; rewrite E; reflexivity).
  assert (ES : forall k, step_response step w (S k) = step_response step w1 k)
    by (intros k; rewrite step_response_S, E; reflexivity).
  destruct (done r1) eqn:D.
  - cbn [ret fst]. rewrite D. split; [|reflexivity].
    intros _. exists 0%nat. rewrite E0. split; [lia|exact D].
  - destruct n as [|n].
    + cbn [poll ret fst]. rewrite D. split; [discriminate|].
      intros (k & Hk & Hd). assert (k = 0%nat) by lia. subst k.
      rewrite E0, D in Hd. discriminate.
    + rewrite (IH r1 w1 ltac:(lia)). split.
      * intros (k & Hk & Hd). exists (S k). rewrite ES. split; [lia|exact Hd].
      * intros (k & Hk & Hd). destruct k as [|k].
        { rewrite E0, D in Hd. discriminate. }
        { exists k. rewrite <- ES. split; [lia|exact Hd]. }
Qed.

Lemma repeat_idle_memory n : forall w,
  same_memory w (snd (repeat_do n (Xchg 0xff ;; ret tt) w)).
Proof.
  induction n as [|n IH]; intros w; [apply same_memory_refl|].
  cbn [repeat_do]. unfold bind.
  destruct (Xchg_spec 0xff w) as (_ & _ & _ & _ & S).
  destruct (Xchg 255 w) as [r w1]. cbn [snd] in S. cbn [ret].
  eapply same_memory_trans; [exact S|apply IH].
Qed.

Lemma poll_memory n step done :
  (forall w, same_memory w (snd (step w))) ->
  forall r w, same_memory w (snd (poll n step done r w)).
Proof.
  intros Hs. induction n as [|n IH]; intros r w; [apply same_memory_refl|].
  cbn [poll]. unfold bind. specialize (Hs w).
  destruct (step w) as [r1 w1]. cbn [snd] in Hs.
  destruct (done r1); [exact Hs|].
  eapply same_memory_trans; [exact Hs|apply IH].
Qed.

(** The card type [SDInit_detect] leaves depends on two responses only. *)
Lemma SDInit_detect_spec w1 :
  exists w',
    SDInit_detect w1 = (SDCARD_OK, w') /\
    sdtype w'
    = (if fst (SD_send_command SD_SEND_IF_COND 0x1aa w1) =? 0x01 then SDTYPE_SDHC
       else if fst (SD_send_command SD_READ_OCR 0
                      (snd (SD_send_command SD_SEND_IF_COND 0x1aa w1))) =? 0x01
            then SDTYPE_SD
            else sdtype w1).
Proof.
  unfold SDInit_detect. unfold bind at 1.
  pose proof (SD_send_command_memory SD_SEND_IF_COND 0x1aa w1) as M8.
  destruct (SD_send_command SD_SEND_IF_COND 0x1aa w1) as [r8 w2].
  cbn [fst snd] in *.
  destruct (r8 =? 1).
  - unfold bind.
    destruct (repeat_do 4 (fun w => let (_, w') := Xchg 255 w in ret tt w') w2)
      as [[] w3].
    destruct (poll (Z.to_nat 20000) (SD_send_command SD_ADV_INIT (Z.shiftl 1 30))
                (fun r => r =? 0) r8 w3) as [r41 w4].
    unfold modify.
    destruct (Xchg_spec 0xff (set_sdtype SDTYPE_SDHC w4)) as (_ & _ & _ & _ & S).
    destruct (Xchg 255 (set_sdtype SDTYPE_SDHC w4)) as [r w5].
    cbn [fst snd ret] in *. exists w5. split; [reflexivity|].
    rewrite (sm_sdtype _ _ S). reflexivity.
  - unfold bind at 1. unfold bind at 1.
    pose proof (SD_send_command_memory SD_READ_OCR 0 w2) as M58.
    destruct (SD_send_command SD_READ_OCR 0 w2) as [r58 w3].
    cbn [fst snd] in *.
    destruct (r58 =? 1).
    + unfold bind.
      destruct (repeat_do 4 (fun w => let (_, w') := Xchg 255 w in ret tt w') w3)
        as [[] w4].
      destruct (poll (Z.to_nat 20000) (SD_send_command SD_INIT 0)
                  (fun r => r =? 0) r58 w4) as [r1 w5].
      destruct (SD_send_command SD_SET_BLK_LEN 512 w5) as [r16 w6].
      unfold modify.
      destruct (Xchg_spec 0xff (set_sdtype SDTYPE_SD w6)) as (_ & _ & _ & _ & S).
      destruct (Xchg 255 (set_sdtype SDTYPE_SD w6)) as [r w7].
      cbn [fst snd ret] in *. exists w7. split; [reflexivity|].
      rewrite (sm_sdtype _ _ S). reflexivity.
    + unfold bind. cbn [ret].
      destruct (Xchg_spec 0xff w3) as (_ & _ & _ & _ & S).
      destruct (Xchg 255 w3) as [r w4].
      cbn [fst snd ret] in *. exists w4. split; [reflexivity|].
      rewrite (sm_sdtype _ _ S), (sm_sdtype _ _ M58), (sm_sdtype _ _ M8).
      reflexivity.
Qed.

(** After the go-idle loop the card type is still unknown. *)
Lemma SDInit_go_idle_sdtype w :
  sdtype (snd (SDInit_go_idle w)) = SDTYPE_UNKNOWN.
Proof.
  unfold SDInit_go_idle, SDInit_power_up, bind, modify.
  destruct (Deselect_moved (set_sdtype SDTYPE_UNKNOWN w)) as ([Md _ _] & _).
  destruct (Deselect (set_sdtype SDTYPE_UNKNOWN w)) as [[] wb]. cbn [snd] in Md.
  pose proof (repeat_idle_memory 10 wb) as Mr. unfold bind in Mr.
  destruct (repeat_do 10 (fun w0 => let (_, w') := Xchg 255 w0 in ret tt w') wb)
    as [[] wc]. cbn [snd] in Mr.
  pose proof (poll_memory 10 (SD_send_command SD_GO_IDLE 0) (fun r => r =? 1)
                (SD_send_command_memory SD_GO_IDLE 0) 0 wc) as Mp.
  rewrite (sm_sdtype _ _ Mp), (sm_sdtype _ _ Mr), (sm_sdtype _ _ Md).
  reflexivity.
Qed.

(** ** ToggleState *)

Lemma byte_cases (P : Z -> bool) :
  forallb P (seqZ 0 256) = true -> forall b, is_byte b -> P b = true.
Proof.
  intros H b [H0 H1]. rewrite forallb_forall in H. apply H.
  apply list_elem_of_In. apply elem_of_seqZ. lia.
Qed.

Lemma toggle_byte_lxor b : is_byte b -> toggle_byte b = Z.lxor b LOCK_BIT_MASK.
Proof.
  intros Hb. apply Z.eqb_eq.
  apply (byte_cases (fun b => toggle_byte b =? Z.lxor b LOCK_BIT_MASK)); [|exact Hb].
  vm_compute. reflexivity.
Qed.

Lemma toggle_byte_is_byte b : is_byte (toggle_byte b).
Proof.
  unfold toggle_byte. destruct (nz (Z.land b LOCK_BIT_MASK)); apply u8_range.
Qed.

Lemma toggle_byte_involutive b : is_byte b -> toggle_byte (toggle_byte b) = b.
Proof.
  intros Hb. apply Z.eqb_eq.
  apply (byte_cases (fun b => toggle_byte (toggle_byte b) =? b)); [|exact Hb].
  vm_compute. reflexivity.
Qed.

Lemma WriteCSD_memory w : same_memory w (snd (WriteCSD w)).
Proof.
  rewrite WriteCSD_unfold.
  destruct (SD_send_command_spec SD_PROGRAM_CSD 0 w eq_refl) as (w1 & E & Mv & C).
  rewrite E. change (negb (keeps_selected SD_PROGRAM_CSD)) with false in C.
  destruct (nz (exchange_response w)).
  - exact (mv_mem _ _ _ _ Mv).
  - destruct (WriteCSD_data_phase w1 C) as (w' & Erun & Mv' & _).
    rewrite Erun. cbn [snd].
    eapply same_memory_trans; [exact (mv_mem _ _ _ _ Mv)|exact (mv_mem _ _ _ _ Mv')].
Qed.

Lemma BlinkLED_loop_csd n : forall pattern w,
  csd (snd (BlinkLED_loop n pattern w)) = csd w.
Proof.
  induction n as [|n IH]; intros pattern w; [reflexivity|].
  cbn [BlinkLED_loop]. unfold bind, _delay_ms, modify.
  destruct (nz (Z.land pattern 2147483648));
    unfold TURN_LED_ON, TURN_LED_OFF, port_set, port_clear, modify;
    (destruct (u32 (Z.shiftl pattern 1) =? 0); [reflexivity|]);
    rewrite IH; reflexivity.
Qed.

Lemma BlinkLED_csd pattern w : csd (snd (BlinkLED pattern w)) = csd w.
Proof. apply BlinkLED_loop_csd. Qed.

Lemma ToggleState_unfold w :
  ToggleState w
  = (let (r, w') := WriteCSD (toggled w) in
     if negb (r =? SDCARD_OK)
     then (BlinkLED PATTERN_WERROR ;; BlinkLED PATTERN_WERROR ;;
           BlinkLED PATTERN_WERROR) w'
     else (tt, w')).
Proof.
  unfold ToggleState, CardIsLocked, toggled, toggle_byte.
  unfold bind at 1. unfold gets at 1. unfold bind at 1.
  destruct (nz (Z.land (aget (csd w) 14) LOCK_BIT_MASK));
    unfold bind at 1; unfold gets at 1; unfold csd_write at 1, modify;
    unfold bind at 1;
    destruct (WriteCSD _) as [r w'];
    destruct (negb (r =? SDCARD_OK)); reflexivity.
Qed.

(** Whatever [WriteCSD] returns, the buffer [ToggleState] leaves is the
    one it handed to [WriteCSD]. *)
Lemma ToggleState_csd w : csd (snd (ToggleState w)) = csd (toggled w).
Proof.
  rewrite ToggleState_unfold.
  pose proof (WriteCSD_memory (toggled w)) as Mw.
  destruct (WriteCSD (toggled w)) as [r w']. cbn [snd] in Mw.
  destruct (negb (r =? SDCARD_OK)).
  - unfold bind.
    pose proof (BlinkLED_csd PATTERN_WERROR w') as B1.
    destruct (BlinkLED PATTERN_WERROR w') as [[] wa]. cbn [snd] in B1.
    pose proof (BlinkLED_csd PATTERN_WERROR wa) as B2.
    destruct (BlinkLED PATTERN_WERROR wa) as [[] wb]. cbn [snd] in B2.
    rewrite BlinkLED_csd, B2, B1. exact (sm_csd _ _ Mw).
  - exact (sm_csd _ _ Mw).
Qed.

(** ** The two example cards *)

Lemma incoming_busy_card w k : miso w = busy_card -> incoming w k = 0.
Proof. intros H. unfold incoming, rx_byte. rewrite H. reflexivity. Qed.

Lemma idle_card_bit p j :
  (p mod 8 = 0)%N -> (j < 8)%N -> idle_card (p + j) = (j =? 7)%N.
Proof.
  intros Hp Hj. unfold idle_card. f_equal.
  rewrite N.Div0.add_mod, Hp, N.add_0_l, N.Div0.mod_mod.
  apply N.mod_small. exact Hj.
Qed.

Lemma incoming_idle_card w k : at_idle_card w -> incoming w k = 1.
Proof.
  intros [Hm Hp]. unfold incoming, rx_byte. rewrite Hm.
  assert (Hq : ((pulses w + 8 * N.of_nat k) mod 8 = 0)%N).
  { rewrite N.Div0.add_mod, Hp, N.add_0_l, N.Div0.mod_mod.
    rewrite N.mul_comm. apply N.Div0.mod_mul. }
  rewrite <- (N.add_0_r (pulses w + 8 * N.of_nat k)) at 1.
  rewrite !(idle_card_bit _ _ Hq) by reflexivity. reflexivity.
Qed.

Lemma at_idle_card_moved w w' s k :
  moved w w' s k -> at_idle_card w -> at_idle_card w'.
Proof.
  intros [[Hm _ _ _ _] P _] [Hc Hp]. split; [congruence|].
  rewrite P, N.Div0.add_mod, Hp, N.add_0_l, N.Div0.mod_mod.
  rewrite N.mul_comm. apply N.Div0.mod_mul.
Qed.

(** [idle_card] answers 0x01 to every command, advanced or not. *)
Lemma idle_card_response command arg w :
  at_idle_card w ->
  fst (SD_send_command command arg w) = 1 /\
  at_idle_card (snd (SD_send_command command arg w)).
Proof.
  intros Hw. split.
  - destruct (nz (Z.land command 0x80)) eqn:A.
    + rewrite (SD_send_command_adv _ _ _ A).
      destruct (SD_send_command_spec CMD55 0 w eq_refl) as (w1 & E & Mv & _).
      rewrite E. unfold exchange_response.
      rewrite (incoming_idle_card _ _ Hw). cbn [Z.gtb Z.compare Pos.compare].
      destruct (SD_transfer_spec (Z.land command 0x7f) arg 1 w1) as (w2 & E2 & _).
      change (1 >? 1) with false. cbv iota. rewrite E2. cbn [fst].
      apply incoming_idle_card. exact (at_idle_card_moved _ _ _ _ Mv Hw).
    + destruct (SD_send_command_spec command arg w A) as (w1 & E & _).
      rewrite E. cbn [fst]. apply incoming_idle_card. exact Hw.
  - exact (at_idle_card_moved _ _ _ _ (proj1 (SD_send_command_moved command arg w)) Hw).
Qed.

(** An invariant of every pass is an invariant of the loop. *)
Lemma poll_invariant (P : world -> Prop) n step done :
  (forall w, P w -> P (snd (step w))) ->
  forall r w, P w -> P (snd (poll n step done r w)).
Proof.
  intros Hs. induction n as [|n IH]; intros r w Hw; [exact Hw|].
  cbn [poll]. unfold bind. specialize (Hs w Hw).
  destruct (step w) as [r1 w1]. cbn [snd] in Hs.
  destruct (done r1); [exact Hs|]. apply IH. exact Hs.
Qed.

Lemma repeat_idle_invariant (P : world -> Prop) n :
  (forall c w, P w -> P (snd (Xchg c w))) ->
  forall w, P w -> P (snd (repeat_do n (Xchg 0xff ;; ret tt) w)).
Proof.
  intros Hs. induction n as [|n IH]; intros w Hw; [exact Hw|].
  cbn [repeat_do]. unfold bind. specialize (Hs 0xff w Hw).
  destruct (Xchg 255 w) as [r w1]. cbn [snd ret] in *. apply IH. exact Hs.
Qed.

Lemma at_idle_card_Xchg c w : at_idle_card w -> at_idle_card (snd (Xchg c w)).
Proof.
  intros Hw. destruct (Xchg_moved c w) as (_ & Mv & _).
  exact (at_idle_card_moved _ _ _ _ Mv Hw).
Qed.

(** * Properties of the protocol engine and of the lock controller *)

(** ** SD_send_command *)

Lemma exchange_wire_tail command arg w :
  keeps_selected command = false ->
  exists pre, exchange_wire command arg w = pre ++ tx false 0xff ++ tx true 0xff.
Proof.
  intros K. unfold exchange_wire. rewrite K.
  pose proof (polls_pos 10 (fun r => Z.land r 0x80 =? 0) (incoming w) 8 ltac:(lia)) as Pp.
  fold (response_polls w) in Pp.
  destruct (response_polls w) as [|p]; [lia|].
  rewrite replicate_S_end, tx_bytes_app, tx_bytes_one.
  exists (tx true 0xff ++ tx false 0xff ++ tx_bytes false (frame_bytes command arg) ++
          tx_bytes false (replicate p 0xff)).
  rewrite <- !app_assoc. reflexivity.
Qed.

Lemma keeps_selected_In command :
  keeps_selected command = true <->
  In command [SD_READ_BLK; SD_READ_OCR; SD_SEND_CSD; SD_SEND_STATUS;
              SD_SEND_CID; SD_SEND_IF_COND; SD_LOCK_UNLOCK; SD_PROGRAM_CSD].
Proof.
  unfold keeps_selected. rewrite !orb_true_iff, !Z.eqb_eq. simpl.
  intuition congruence.
Qed.

Lemma frame_bytes_are_bytes command arg :
  is_byte command -> Forall is_byte (frame_bytes command arg).
Proof.
  intros [H0 H1]. unfold frame_bytes, frame_crc, is_byte.
  repeat constructor; try (apply Z.mod_pos_bound; lia);
    try (destruct (command =? SD_GO_IDLE), (command =? SD_SEND_IF_COND); lia).
  - apply Z.lor_nonneg. lia.
  - assert (B : Z.lor 64 command < 2 ^ 8); [|exact B].
    apply Z.log2_lt_cancel. rewrite Z.log2_pow2 by lia.
    destruct (Z.eq_dec command 0) as [->|Hz]; [reflexivity|].
    rewrite Z.log2_lor by lia.
    assert (Z.log2 command < 8) by (apply Z.log2_lt_pow2; lia).
    change (Z.log2 64) with 6. lia.
Qed.

(** The argument bytes of a frame are the argument in big-endian order. *)
Lemma frame_bytes_big_endian command arg :
  0 <= arg < 2 ^ 32 ->
  exists op b3 b2 b1 b0 crc,
    frame_bytes command arg = [op; b3; b2; b1; b0; crc] /\
    arg = b3 * 2 ^ 24 + b2 * 2 ^ 16 + b1 * 2 ^ 8 + b0.
Proof.
  intros H. unfold frame_bytes. do 6 eexists. split; [reflexivity|].
  change (2 ^ 24) with 16777216. change (2 ^ 16) with 65536.
  change (2 ^ 8) with 256. change (2 ^ 32) with 4294967296 in H.
  Z.div_mod_to_equations. lia.
Qed.

(** C4. For a command with the high bit set, [SD_send_command] first runs
    the CMD55 exchange with argument 0; if that response is above 1 it
    returns it and nothing more goes on the wire; otherwise the exchange of
    the command with its high bit stripped follows at once. *)
Theorem SD_send_command_advanced command arg w :
  Z.land command 0x80 <> 0 ->
  let r55 := fst (SD_send_command CMD55 0 w) in
  let w1 := snd (SD_send_command CMD55 0 w) in
  trace w1 = trace w ++ tx true 0xff ++ tx false 0xff ++
             tx_bytes false [0x40 + 55; 0; 0; 0; 0; 0x01] ++
             tx_bytes false (replicate (response_polls w) 0xff) ++
             tx true 0xff /\
  (r55 > 1 -> SD_send_command command arg w = (r55, w1)) /\
  (r55 <= 1 ->
   SD_send_command command arg w
   = SD_send_command (Z.land command 0x7f) arg w1 /\
   trace (snd (SD_send_command command arg w))
   = trace w1 ++ exchange_wire (Z.land command 0x7f) arg w1).
Proof.
  intros Hadv r55 w1.
  assert (A : nz (Z.land command 0x80) = true).
  { unfold nz. destruct (Z.eqb_spec (Z.land command 128) 0); [contradiction|reflexivity]. }
  destruct (SD_send_command_spec CMD55 0 w eq_refl) as (w1' & E & Mv & C).
  assert (Ew : w1 = w1') by (unfold w1; rewrite E; reflexivity).
  assert (Er : r55 = exchange_response w) by (unfold r55; rewrite E; reflexivity).
  split; [|split].
  - rewrite Ew. rewrite (mv_trace _ _ _ _ Mv). reflexivity.
  - intros Hr. rewrite (SD_send_command_adv _ _ _ A).
    fold r55 w1. rewrite (surjective_pairing (SD_send_command CMD55 0 w)).
    fold r55 w1. destruct (Z.gtb_spec r55 1); [reflexivity|lia].
  - intros Hr. rewrite (SD_send_command_adv _ _ _ A).
    rewrite (surjective_pairing (SD_send_command CMD55 0 w)).
    fold r55 w1. destruct (Z.gtb_spec r55 1); [lia|].
    rewrite (SD_send_command_plain _ _ _ (stripped_plain command)).
    split; [apply SD_transfer_entry|].
    destruct (SD_transfer_spec (Z.land command 0x7f) arg r55 w1) as (w2 & E2 & Mv2 & _).
    rewrite E2. cbn [snd]. apply (mv_trace _ _ _ _ Mv2).
Qed.

(** A card that answers 0x01 to CMD55: ACMD41 goes out right after it. *)
Lemma SD_send_command_advanced_witness :
  Z.land SD_ADV_INIT 0x80 <> 0 /\
  SD_send_command SD_ADV_INIT (Z.shiftl 1 30)
    (power_on (card_sends (replicate 8 0xff ++ [0x01])))
  = SD_send_command (0x40 + 41) (Z.shiftl 1 30)
      (snd (SD_send_command CMD55 0
              (power_on (card_sends (replicate 8 0xff ++ [0x01]))))).
Proof.
  split; [discriminate|].
  pose proof (SD_send_command_advanced SD_ADV_INIT (Z.shiftl 1 30)
                (power_on (card_sends (replicate 8 0xff ++ [0x01])))
                ltac:(discriminate)) as H.
  cbv zeta in H. destruct H as (_ & _ & H).
  refine (proj1 (H _)). vm_compute. discriminate.
Defined.

(** C5. Every command [SD_send_command] puts on the wire is a frame of
    exactly six bytes: the opcode with bit 6 set, the four argument bytes
    most significant first, and the CRC byte 0x95 for go-idle, 0x87 for
    send-interface-condition and 0x01 for any other command.  A plain
    command is one such exchange; an advanced one is the CMD55 exchange
    followed, when its response is at most 1, by that of the command. *)
Theorem SD_send_command_frame command arg w :
  trace (snd (SD_send_command command arg w))
  = trace w ++ command_wire command arg w /\
  (forall c a v,
     exchange_wire c a v
     = tx true 0xff ++ tx false 0xff ++
       tx_bytes false
         [Z.lor 0x40 c;
          (a / 2 ^ 24) mod 256; (a / 2 ^ 16) mod 256; (a / 2 ^ 8) mod 256;
          a mod 256;
          if c =? SD_GO_IDLE then 0x95
          else if c =? SD_SEND_IF_COND then 0x87 else 0x01] ++
       tx_bytes false (replicate (response_polls v) 0xff) ++
       (if keeps_selected c then [] else tx true 0xff)) /\
  command_wire command arg w
  = (if Z.land command 0x80 =? 0 then exchange_wire command arg w
     else exchange_wire CMD55 0 w ++
          (if fst (SD_send_command CMD55 0 w) >? 1 then []
           else exchange_wire (Z.land command 0x7f) arg
                  (snd (SD_send_command CMD55 0 w)))).
Proof.
  split; [|split].
  - apply (mv_trace _ _ _ _ (proj1 (SD_send_command_moved command arg w))).
  - reflexivity.
  - unfold command_wire, nz. destruct (Z.land command 128 =? 0); reflexivity.
Qed.

(** C7. When [SD_send_command] returns, the card is still selected exactly
    when the command sent last is one of read-block, read-OCR, send-CSD,
    send-status, send-CID, send-interface-condition, lock-unlock and
    program-CSD; after any other command CS is high and the last byte
    clocked out, the only one since CS was raised, is an idle 0xFF. *)
Theorem SD_send_command_select command arg w :
  let w' := snd (SD_send_command command arg w) in
  let sent := last_command command w in
  (selected w' = true <->
   In sent [SD_READ_BLK; SD_READ_OCR; SD_SEND_CSD; SD_SEND_STATUS;
            SD_SEND_CID; SD_SEND_IF_COND; SD_LOCK_UNLOCK; SD_PROGRAM_CSD]) /\
  (~ In sent [SD_READ_BLK; SD_READ_OCR; SD_SEND_CSD; SD_SEND_STATUS;
              SD_SEND_CID; SD_SEND_IF_COND; SD_LOCK_UNLOCK; SD_PROGRAM_CSD] ->
   cs_high w' = true /\
   exists pre, trace w' = pre ++ tx false 0xff ++ tx true 0xff).
Proof.
  intros w' sent.
  destruct (SD_send_command_moved command arg w) as (Mv & C).
  fold w' sent in Mv, C.
  split.
  - rewrite <- keeps_selected_In. unfold selected. rewrite C, negb_involutive.
    reflexivity.
  - intros Hn. rewrite <- keeps_selected_In in Hn.
    destruct (keeps_selected sent) eqn:K; [contradiction|].
    split; [rewrite C; reflexivity|].
    rewrite (mv_trace _ _ _ _ Mv).
    assert (T : exists pre, command_wire command arg w
                            = pre ++ tx false 0xff ++ tx true 0xff).
    { unfold command_wire. unfold sent, last_command in K.
      destruct (nz (Z.land command 0x80)).
      - destruct (fst (SD_send_command CMD55 0 w) >? 1).
        + rewrite app_nil_r. apply exchange_wire_tail. reflexivity.
        + destruct (exchange_wire_tail (Z.land command 0x7f) arg
                      (snd (SD_send_command CMD55 0 w)) K) as (pre & ->).
          exists (exchange_wire CMD55 0 w ++ pre). rewrite <- app_assoc. reflexivity.
      - apply exchange_wire_tail. exact K. }
    destruct T as (pre & ->). exists (trace w ++ pre).
    rewrite <- app_assoc. reflexivity.
Qed.

(** ** CRC7 *)

(** C1. For every byte [i], [GenerateCRCTable] leaves in [crctable[i]] the
    standard CRC7 remainder of [i] under the polynomial 0x89, obtained by
    eight XOR-shift steps; the table is the same whatever the arrays held
    before. *)
Theorem GenerateCRCTable_crc7 w :
  length (crctable w) = 256%nat ->
  (forall i, 0 <= i < 256 ->
     aget (crctable (snd (GenerateCRCTable w))) i = crc7_spec i) /\
  (forall w2, length (crctable w2) = 256%nat ->
     crctable (snd (GenerateCRCTable w2)) = crctable (snd (GenerateCRCTable w))).
Proof.
  intros Hlen. rewrite GenerateCRCTable_spec by exact Hlen.
  cbn [snd crctable set_crctable]. split.
  - intros i Hi. rewrite CRC7_TABLE_spec. unfold aget.
    change (map crc7_spec (seqZ 0 256)) with (crc7_spec <$> seqZ 0 256).
    rewrite list_lookup_fmap, lookup_seqZ_lt by lia.
    cbn [fmap option_fmap option_map default from_option id]. f_equal. lia.
  - intros w2 H2. rewrite GenerateCRCTable_spec by exact H2. reflexivity.
Qed.

Lemma GenerateCRCTable_crc7_witness :
  length (crctable (power_on (fun _ => true))) = 256%nat /\
  aget (crctable (snd (GenerateCRCTable (power_on (fun _ => true))))) 0x40
  = crc7_spec 0x40.
Proof.
  split; [reflexivity|].
  apply (proj1 (GenerateCRCTable_crc7 (power_on (fun _ => true)) eq_refl)).
  lia.
Defined.

(** Test vectors of the SD specification: the CRC bytes of CMD0 and of
    CMD8 with argument 0x1AA, folded through the generated table. *)
Example crc7_CMD0 :
  Z.lor (Z.shiftl (crc7_fold CRC7_TABLE [0x40; 0; 0; 0; 0]) 1) 1 = 0x95.
Proof. reflexivity. Qed.

Example crc7_CMD8 :
  Z.lor (Z.shiftl (crc7_fold CRC7_TABLE [0x48; 0; 0; 0x01; 0xaa]) 1) 1 = 0x87.
Proof. reflexivity. Qed.

(** ** WriteCSD *)

(** C2. [WriteCSD] returns ReadWriteFail, with nothing on the wire after
    the program-CSD command, exactly when the response to that command is
    nonzero.  Otherwise it sends 0xFE, the first 15 bytes of [csd], their
    CRC7 as [(crc << 1) | 1] and two dummy bytes; then it returns Ok at the
    first busy-wait exchange that reads a nonzero byte, and Timeout when all
    65535 exchanges of the busy-wait read zero. *)
Theorem WriteCSD_protocol w :
  wf_world w -> crctable w = CRC7_TABLE ->
  let r := fst (SD_send_command SD_PROGRAM_CSD 0 w) in
  let w1 := snd (SD_send_command SD_PROGRAM_CSD 0 w) in
  let crc := crc7_fold CRC7_TABLE (take 15 (csd w)) in
  let data := tx_bytes false ([0xfe] ++ take 15 (csd w) ++
                              [Z.lor (Z.shiftl crc 1) 1; 0xff; 0xff]) in
  let busy := fun j => incoming w1 (19 + j) in
  (fst (WriteCSD w) = SDCARD_RWFAIL <-> r <> 0) /\
  (r <> 0 -> WriteCSD w = (SDCARD_RWFAIL, w1)) /\
  (r = 0 ->
   forall m, (m < BUSY_BOUND)%nat ->
     (forall j, (j < m)%nat -> busy j = 0) -> busy m <> 0 ->
     fst (WriteCSD w) = SDCARD_OK /\
     trace (snd (WriteCSD w))
     = trace w1 ++ data ++ tx_bytes false (replicate (S m) 0xff)) /\
  (r = 0 ->
   (forall j, (j < BUSY_BOUND)%nat -> busy j = 0) ->
   fst (WriteCSD w) = SDCARD_TIMEOUT /\
   trace (snd (WriteCSD w))
   = trace w1 ++ data ++ tx_bytes false (replicate BUSY_BOUND 0xff)).
Proof.
  intros Hwf Htab.
  destruct (SD_send_command_spec SD_PROGRAM_CSD 0 w eq_refl) as (w1 & E & Mv & C).
  remember (exchange_response w) as r eqn:Er.
  rewrite E. cbn [fst snd].
  set (crc := crc7_fold CRC7_TABLE (take 15 (csd w))).
  set (data := tx_bytes false _).
  change (negb (keeps_selected SD_PROGRAM_CSD)) with false in C.
  destruct (WriteCSD_data_phase w1 C) as (w' & Erun & Mv' & C').
  cbn zeta in Erun, Mv'.
  assert (Ecsd : csd w1 = csd w) by apply (sm_csd _ _ (mv_mem _ _ _ _ Mv)).
  assert (Ecrc : crctable w1 = CRC7_TABLE)
    by (rewrite <- Htab; apply (sm_crctable _ _ (mv_mem _ _ _ _ Mv))).
  assert (Esl : csd_slice w1 0 15 = take 15 (csd w)).
  { rewrite <- Ecsd. apply csd_slice_take. rewrite Ecsd. apply (wf_csd_len _ Hwf). }
  assert (Ecf : crc_from w1 0 (csd_slice w1 0 15) = crc).
  { unfold crc_from, crc, crc7_fold. rewrite Ecrc, Esl. reflexivity. }
  assert (Edata : tx_bytes false ([0xfe] ++ csd_slice w1 0 15 ++
                    [u8 (Z.shiftl (crc_from w1 0 (csd_slice w1 0 15)) 1 + 1); 0xff; 0xff])
                  = data).
  { unfold data. rewrite Ecf, Esl.
    rewrite !tx_bytes_app, !tx_bytes_cons.
    rewrite (crc_byte_format false crc (crc7_fold_range _)). reflexivity. }
  rewrite Edata in Mv'. clear Edata.
  assert (Hnz : r <> 0 -> WriteCSD w = (SDCARD_RWFAIL, w1)).
  { intros Hr. rewrite WriteCSD_unfold, E.
    rewrite (nz_true _ Hr). reflexivity. }
  assert (Hz : r = 0 -> WriteCSD w
     = ((if nz (incoming w1 (19 + polls BUSY_BOUND nz (incoming w1) 19 - 1))
         then SDCARD_OK else SDCARD_TIMEOUT), w')).
  { intros Hr. rewrite WriteCSD_unfold, E, Hr. exact Erun. }
  split; [|split; [exact Hnz|split]].
  - split.
    + intros Hf Hr. rewrite (Hz Hr) in Hf. cbn [fst] in Hf.
      destruct (nz _) in Hf; discriminate Hf.
    + intros Hr. rewrite (Hnz Hr). reflexivity.
  - intros Hr m Hm Hbefore Hlast. rewrite (Hz Hr). cbn [fst snd].
    assert (Ep : polls BUSY_BOUND nz (incoming w1) 19 = S m).
    { apply polls_first; [exact Hm| |].
      - intros j Hj. apply nz_false. apply Hbefore. exact Hj.
      - apply nz_true. exact Hlast. }
    rewrite Ep in *. replace (19 + S m - 1)%nat with (19 + m)%nat by lia.
    rewrite (nz_true _ Hlast). split; [reflexivity|].
    exact (mv_trace _ _ _ _ Mv').
  - intros Hr Hall. rewrite (Hz Hr). cbn [fst snd].
    assert (Ep : polls BUSY_BOUND nz (incoming w1) 19 = BUSY_BOUND).
    { apply polls_none. intros j Hj. apply nz_false. apply Hall. exact Hj. }
    rewrite Ep in *.
    assert (Hl : nz (incoming w1 (19 + BUSY_BOUND - 1)) = false).
    { apply nz_false.
      pose proof BUSY_BOUND_val as Hb.
      replace (19 + BUSY_BOUND - 1)%nat with (19 + (BUSY_BOUND - 1))%nat by lia.
      apply (Hall (BUSY_BOUND - 1)%nat). lia. }
    rewrite Hl. split; [reflexivity|].
    exact (mv_trace _ _ _ _ Mv').
Qed.

(** A card that accepts the command, is busy for two bytes and then
    releases the line: the write succeeds. *)
Lemma WriteCSD_protocol_witness :
  wf_world (booted (card_sends (replicate 8 0xff ++ [0] ++ replicate 19 0xff ++ [0; 0]))) /\
  crctable (booted (card_sends (replicate 8 0xff ++ [0] ++ replicate 19 0xff ++ [0; 0])))
  = CRC7_TABLE /\
  fst (WriteCSD (booted (card_sends (replicate 8 0xff ++ [0] ++ replicate 19 0xff ++ [0; 0]))))
  = SDCARD_OK.
Proof.
  split; [apply wf_booted|]. split; [rewrite booted_eq; reflexivity|].
  pose proof (WriteCSD_protocol
                (booted (card_sends (replicate 8 0xff ++ [0] ++ replicate 19 0xff ++ [0; 0])))
                (wf_booted _) ltac:(rewrite booted_eq; reflexivity)) as H.
  cbv zeta in H. destruct H as (_ & _ & H & _).
  refine (proj1 (H _ 2%nat _ _ _)).
  - vm_compute. reflexivity.
  - pose proof BUSY_BOUND_val. lia.
  - intros j Hj. destruct j as [|[|j]]; [vm_compute; reflexivity..|lia].
  - vm_compute. discriminate.
Defined.

(** ** ReadCSD *)

(** C3. [ReadCSD] zeroes the 16 bytes of [csd] and sends the send-CSD
    command; it then polls by exchanging 0xFF, at most 100 times.  If the
    token 0xFE is not among the bytes polled it returns ReadWriteFail, the
    buffer left zeroed; otherwise it reads exactly the next 16 bytes into
    the buffer, exchanges one more byte for the CRC and returns Ok.  (The
    polling stops at the first byte that is not 0xFF.) *)
Theorem ReadCSD_protocol w :
  length (csd w) = 16%nat ->
  let wz := set_csd (replicate 16 0) w in
  let w1 := snd (SD_send_command SD_SEND_CSD 0 wz) in
  let n := data_polls w1 in
  let polled := received w1 0 n in
  (1 <= n <= 100)%nat /\
  (forall j, (S j < n)%nat -> incoming w1 j = 0xff) /\
  ((n < 100)%nat -> incoming w1 (n - 1) <> 0xff) /\
  trace w1 = trace w ++ exchange_wire SD_SEND_CSD 0 wz /\
  (~ In 0xfe polled ->
   fst (ReadCSD w) = SDCARD_RWFAIL /\
   csd (snd (ReadCSD w)) = replicate 16 0 /\
   trace (snd (ReadCSD w)) = trace w1 ++ tx_bytes false (replicate n 0xff)) /\
  (In 0xfe polled ->
   fst (ReadCSD w) = SDCARD_OK /\
   csd (snd (ReadCSD w)) = received w1 n 16 /\
   trace (snd (ReadCSD w))
   = trace w1 ++ tx_bytes false (replicate n 0xff) ++
     tx_bytes false (replicate 16 0xff) ++ tx false 0xff).
Proof.
  intros Hlen.
  destruct (ReadCSD_run w Hlen) as (w1 & E & w' & Erun & Mv).
  destruct (SD_send_command_spec SD_SEND_CSD 0 (set_csd (replicate 16 0) w) eq_refl)
    as (w1' & E' & Mv1 & _).
  rewrite E in E'. injection E' as <-.
  cbv zeta. rewrite E, Erun. cbn [fst snd]. clear E Erun.
  assert (T1 : trace w1 = trace w ++ exchange_wire SD_SEND_CSD 0 (set_csd (replicate 16 0) w))
    by exact (mv_trace _ _ _ _ Mv1).
  pose proof (token_polled w1) as Tok.
  pose proof (polls_pos 100 (fun r => negb (r =? 255)) (incoming w1) 0 ltac:(lia)) as Pp.
  pose proof (polls_le 100 (fun r => negb (r =? 255)) (incoming w1) 0) as Ple.
  fold (data_polls w1) in Pp, Ple.
  split; [lia|]. split; [|split; [|split; [exact T1|split]]].
  - intros j Hj.
    pose proof (polls_before 100 (fun r => negb (r =? 255)) (incoming w1) 0 j Hj) as B.
    cbn [Init.Nat.add] in B. apply negb_false_iff, Z.eqb_eq in B. exact B.
  - intros Hn.
    pose proof (polls_last 100 (fun r => negb (r =? 255)) (incoming w1) 0) as L.
    fold (data_polls w1) in L. cbn [Init.Nat.add] in L.
    specialize (L ltac:(lia)). apply negb_true_iff, Z.eqb_neq in L. exact L.
  - intros Hn. rewrite Tok in Hn.
    destruct (Z.eqb_spec (incoming w1 (data_polls w1 - 1)) 254) as [Ht|Ht];
      [contradiction|].
    split; [reflexivity|]. split; [reflexivity|].
    change (trace (set_csd (replicate 16 0) w')) with (trace w').
    rewrite (mv_trace _ _ _ _ Mv), T1.
    change (trace (set_csd (replicate 16 0) w)) with (trace w).
    rewrite app_nil_r, <- app_assoc. reflexivity.
  - intros Hin. rewrite Tok in Hin.
    destruct (Z.eqb_spec (incoming w1 (data_polls w1 - 1)) 254) as [Ht|Ht];
      [|contradiction].
    split; [reflexivity|]. split; [reflexivity|].
    change (trace (set_csd (received w1 (data_polls w1) 16) w')) with (trace w').
    rewrite (mv_trace _ _ _ _ Mv), T1.
    change (trace (set_csd (replicate 16 0) w)) with (trace w).
    rewrite <- !app_assoc. reflexivity.
Qed.

(** A card that answers the command, idles for one byte, then sends the
    token and the register: the read returns Ok with the bytes sent. *)
Lemma ReadCSD_protocol_witness :
  length (csd (power_on (card_sends
    (replicate 8 0xff ++ [0; 0xff; 0xfe] ++ replicate 14 0x2a ++ [0x10; 0x55])))) = 16%nat /\
  fst (ReadCSD (power_on (card_sends
    (replicate 8 0xff ++ [0; 0xff; 0xfe] ++ replicate 14 0x2a ++ [0x10; 0x55]))))
  = SDCARD_OK.
Proof.
  split; [reflexivity|].
  pose proof (ReadCSD_protocol
                (power_on (card_sends
                   (replicate 8 0xff ++ [0; 0xff; 0xfe] ++ replicate 14 0x2a ++ [0x10; 0x55])))
                eq_refl) as H.
  cbv zeta in H. destruct H as (_ & _ & _ & _ & _ & H).
  refine (proj1 (H (proj2 (token_polled _) _))).
  vm_compute. reflexivity.
Defined.

(** A byte other than 0xFF ends the polling even when it is not the
    token: here the card sends 0x00 and only then 0xFE, a single poll is
    made and the read fails. *)
Example ReadCSD_junk_before_token :
  fst (ReadCSD (power_on (card_sends (replicate 8 0xff ++ [0; 0; 0xfe]))))
  = SDCARD_RWFAIL /\
  data_polls (snd (SD_send_command SD_SEND_CSD 0
                     (power_on (card_sends (replicate 8 0xff ++ [0; 0; 0xfe])))))
  = 1%nat.
Proof. vm_compute. auto. Qed.

(** With no card on the bus every byte polled is 0xFF: ReadWriteFail after
    100 polls, the buffer zeroed. *)
Example ReadCSD_no_card :
  fst (ReadCSD (power_on (fun _ => true))) = SDCARD_RWFAIL /\
  csd (snd (ReadCSD (power_on (fun _ => true)))) = replicate 16 0 /\
  data_polls (snd (SD_send_command SD_SEND_CSD 0 (power_on (fun _ => true)))) = 100%nat.
Proof. vm_compute. auto. Qed.


(** ** SDInit *)

Lemma SDInit_go_idle_unfold w :
  SDInit_go_idle w
  = poll 10 (SD_send_command SD_GO_IDLE 0) (fun r => r =? 0x01) 0
         (snd (SDInit_power_up w)).
Proof.
  unfold SDInit_go_idle. unfold bind at 1.
  destruct (SDInit_power_up w) as [[] w0]. reflexivity.
Qed.

(** C6. [SDInit] returns NotDetected exactly when none of the (up to) 10
    go-idle commands gets the response 0x01, and Ok in every other case;
    Ok does not tell that the card type was determined: there is a run
    that returns Ok and leaves [sdtype] unknown. *)
Theorem SDInit_result w :
  let w0 := snd (SDInit_power_up w) in
  let idle := step_response (SD_send_command SD_GO_IDLE 0) w0 in
  (fst (SDInit w) = SDCARD_NOT_DETECTED <->
   forall k, (k < 10)%nat -> idle k <> 0x01) /\
  (fst (SDInit w) <> SDCARD_NOT_DETECTED -> fst (SDInit w) = SDCARD_OK) /\
  (exists v, fst (SDInit v) = SDCARD_OK /\
             sdtype (snd (SDInit v)) = SDTYPE_UNKNOWN).
Proof.
  cbv zeta.
  pose proof (poll_done_iff 10 (SD_send_command SD_GO_IDLE 0) (fun r => r =? 0x01)
                0 (snd (SDInit_power_up w)) ltac:(lia)) as P.
  rewrite <- SDInit_go_idle_unfold in P.
  rewrite SDInit_unfold.
  destruct (SDInit_go_idle w) as [response w1]. cbn [fst] in P.
  destruct (SDInit_detect_spec w1) as (w' & Ed & _).
  split; [|split].
  - destruct (response =? 1) eqn:R; cbn [negb fst].
    + rewrite Ed. cbn [fst]. split; [discriminate|].
      intros Hall. destruct (proj1 P eq_refl) as (k & Hk & Hd).
      apply Z.eqb_eq in Hd. exfalso. exact (Hall k Hk Hd).
    + split; [|reflexivity]. intros _ k Hk Hd.
      assert (F : false = true); [|discriminate F].
      apply P. exists k. split; [exact Hk|]. apply Z.eqb_eq. exact Hd.
  - destruct (response =? 1); cbn [negb fst].
    + rewrite Ed. reflexivity.
    + intros H. contradiction H. reflexivity.
  - exists (power_on (card_sends (replicate 18 0xff ++ [0x01] ++ replicate 9 0xff ++
                                  [0x05] ++ replicate 8 0xff ++ [0x05]))).
    vm_compute. split; reflexivity.
Qed.

(** C10. When the send-interface-condition command gets the response 0x01,
    [sdtype] becomes SDHC whatever the ACMD41 polls return; so after
    [SDInit] returns Ok, [sdtype] is unknown exactly when the
    interface-condition response is not 0x01 and the read-OCR response
    that follows is not 0x01 either. *)
Theorem SDInit_card_type w :
  let w1 := snd (SDInit_go_idle w) in
  let r8 := fst (SD_send_command SD_SEND_IF_COND 0x1aa w1) in
  let w2 := snd (SD_send_command SD_SEND_IF_COND 0x1aa w1) in
  let r58 := fst (SD_send_command SD_READ_OCR 0 w2) in
  fst (SDInit w) = SDCARD_OK ->
  (r8 = 0x01 -> sdtype (snd (SDInit w)) = SDTYPE_SDHC) /\
  (sdtype (snd (SDInit w)) = SDTYPE_UNKNOWN <-> r8 <> 0x01 /\ r58 <> 0x01).
Proof.
  cbv zeta. rewrite SDInit_unfold.
  pose proof (SDInit_go_idle_sdtype w) as U.
  destruct (SDInit_go_idle w) as [response w1]. cbn [fst snd] in *.
  destruct (negb (response =? 1)); [discriminate|].
  destruct (SDInit_detect_spec w1) as (w' & Ed & Et).
  rewrite Ed. cbn [fst snd]. intros _. rewrite Et, U. clear Ed Et.
  destruct (Z.eqb_spec (fst (SD_send_command SD_SEND_IF_COND 426 w1)) 1) as [H8|H8].
  - split; [reflexivity|]. split; [discriminate|]. intros [H _]. contradiction.
  - split; [contradiction|].
    destruct (Z.eqb_spec
                (fst (SD_send_command SD_READ_OCR 0
                        (snd (SD_send_command SD_SEND_IF_COND 426 w1)))) 1)
      as [H58|H58].
    + split; [discriminate|]. intros [_ H]. contradiction.
    + split; [auto|reflexivity].
Qed.

(** A card that answers go-idle and then rejects both the
    interface-condition and the read-OCR command: Ok, type unknown. *)
Lemma SDInit_card_type_witness :
  fst (SDInit (power_on (card_sends (replicate 18 0xff ++ [0x01] ++ replicate 9 0xff ++
                                     [0x05] ++ replicate 8 0xff ++ [0x05]))))
  = SDCARD_OK /\
  sdtype (snd (SDInit (power_on (card_sends (replicate 18 0xff ++ [0x01] ++
                                             replicate 9 0xff ++ [0x05] ++
                                             replicate 8 0xff ++ [0x05])))))
  = SDTYPE_UNKNOWN.
Proof.
  assert (Hok : fst (SDInit (power_on (card_sends
            (replicate 18 0xff ++ [0x01] ++ replicate 9 0xff ++
             [0x05] ++ replicate 8 0xff ++ [0x05])))) = SDCARD_OK)
    by (vm_compute; reflexivity).
  split; [exact Hok|].
  pose proof (SDInit_card_type _ Hok) as H. cbv zeta in H.
  destruct H as (_ & H). refine (proj2 H _).
  split; vm_compute; discriminate.
Defined.


(** ** The lock bit *)

(** C9. [ToggleState] flips bit 4 of [csd[14]] in the buffer, leaving
    every other bit and the other 15 bytes as they were, and only then
    calls [WriteCSD]; the buffer it leaves is the flipped one whatever
    [WriteCSD] returns, so after a failed write the lock bit in memory
    stays flipped. *)
Theorem ToggleState_flips w :
  length (csd w) = 16%nat -> Forall is_byte (csd w) ->
  let b := aget (csd w) 14 in
  let flipped := set_csd (aset (csd w) 14 (Z.lxor b LOCK_BIT_MASK)) w in
  ToggleState w
  = (let (r, w') := WriteCSD flipped in
     if negb (r =? SDCARD_OK)
     then (BlinkLED PATTERN_WERROR ;; BlinkLED PATTERN_WERROR ;;
           BlinkLED PATTERN_WERROR) w'
     else (tt, w')) /\
  (forall i, 0 <= i < 16 -> i <> 14 -> aget (csd flipped) i = aget (csd w) i) /\
  (forall k, 0 <= k ->
     Z.testbit (aget (csd flipped) 14) k
     = if k =? 4 then negb (Z.testbit b 4) else Z.testbit b k) /\
  csd (snd (ToggleState w)) = csd flipped /\
  (fst (WriteCSD flipped) <> SDCARD_OK ->
   Z.testbit (aget (csd (snd (ToggleState w))) 14) 4 = negb (Z.testbit b 4)).
Proof.
  intros Hlen Hbytes. cbv zeta.
  assert (Hb : is_byte (aget (csd w) 14)).
  { apply (aget_table_small is_byte); [exact Hbytes|unfold is_byte; lia]. }
  assert (Et : toggled w = set_csd (aset (csd w) 14 (Z.lxor (aget (csd w) 14) LOCK_BIT_MASK)) w).
  { unfold toggled. rewrite (toggle_byte_lxor _ Hb). reflexivity. }
  assert (Hbit : forall k, 0 <= k ->
    Z.testbit (aget (aset (csd w) 14 (Z.lxor (aget (csd w) 14) LOCK_BIT_MASK)) 14) k
    = if k =? 4 then negb (Z.testbit (aget (csd w) 14) 4)
      else Z.testbit (aget (csd w) 14) k).
  { intros k Hk. rewrite aget_aset_eq by (rewrite Hlen; cbn; lia).
    rewrite Z.lxor_spec. unfold LOCK_BIT_MASK. change 16 with (2 ^ 4).
    rewrite Z.pow2_bits_eqb by lia.
    destruct (Z.eqb_spec k 4) as [->|Hne].
    - cbn. apply xorb_true_r.
    - destruct (Z.eqb_spec 4 k); [lia|]. apply xorb_false_r. }
  split; [|split; [|split; [exact Hbit|split]]].
  - rewrite ToggleState_unfold, Et. reflexivity.
  - intros i Hi Hne. cbn [csd set_csd]. apply aget_aset_ne. lia.
  - rewrite ToggleState_csd, Et. reflexivity.
  - intros _. rewrite ToggleState_csd, Et. cbn [csd set_csd].
    rewrite (Hbit 4 ltac:(lia)). reflexivity.
Qed.

(** No card on the bus: the write fails, and the lock bit of a buffer
    that had it clear is set in memory all the same. *)
Lemma ToggleState_flips_witness :
  length (csd (booted (fun _ => true))) = 16%nat /\
  Forall is_byte (csd (booted (fun _ => true))) /\
  Z.testbit (aget (csd (snd (ToggleState (booted (fun _ => true))))) 14) 4
  = negb (Z.testbit (aget (csd (booted (fun _ => true))) 14) 4).
Proof.
  split; [apply (wf_csd_len _ (wf_booted _))|].
  split; [apply (wf_csd_bytes _ (wf_booted _))|].
  pose proof (ToggleState_flips (booted (fun _ => true))
                (wf_csd_len _ (wf_booted _)) (wf_csd_bytes _ (wf_booted _))) as H.
  cbv zeta in H. destruct H as (_ & _ & _ & _ & H).
  apply H. vm_compute. discriminate.
Defined.

(** C8. Whatever bytes the buffer holds, two calls of [ToggleState] in
    succession bring [csd[14]] (indeed the whole buffer) back to what it
    was. *)
Theorem ToggleState_twice w :
  length (csd w) = 16%nat -> Forall is_byte (csd w) ->
  aget (csd (snd (ToggleState (snd (ToggleState w))))) 14 = aget (csd w) 14 /\
  csd (snd (ToggleState (snd (ToggleState w)))) = csd w.
Proof.
  intros Hlen Hbytes.
  assert (Hb : is_byte (aget (csd w) 14)).
  { apply (aget_table_small is_byte); [exact Hbytes|unfold is_byte; lia]. }
  assert (E : csd (snd (ToggleState (snd (ToggleState w)))) = csd w).
  { rewrite ToggleState_csd. unfold toggled at 1. cbn [csd set_csd].
    rewrite ToggleState_csd. unfold toggled. cbn [csd set_csd].
    rewrite aget_aset_eq by (rewrite Hlen; cbn; lia).
    rewrite aset_aset, (toggle_byte_involutive _ Hb).
    unfold aset, aget.
    destruct (lookup_lt_is_Some_2 (csd w) (Z.to_nat 14) ltac:(rewrite Hlen; cbn; lia))
      as [t Ht].
    rewrite Ht. cbn [default from_option id]. apply list_insert_id. exact Ht. }
  split; [rewrite E; reflexivity|exact E].
Qed.

(** A locked buffer (byte 14 = 0x10) with a card that accepts the write. *)
Lemma ToggleState_twice_witness :
  length (csd (set_csd (<[14%nat := 0x10]> (replicate 16 0)) (booted (fun _ => false))))
  = 16%nat /\
  Forall is_byte
    (csd (set_csd (<[14%nat := 0x10]> (replicate 16 0)) (booted (fun _ => false)))) /\
  aget (csd (snd (ToggleState (snd (ToggleState
         (set_csd (<[14%nat := 0x10]> (replicate 16 0)) (booted (fun _ => false)))))))) 14
  = 0x10.
Proof.
  assert (Hl : length (csd (set_csd (<[14%nat := 0x10]> (replicate 16 0))
                                    (booted (fun _ => false)))) = 16%nat)
    by reflexivity.
  assert (Hb : Forall is_byte (csd (set_csd (<[14%nat := 0x10]> (replicate 16 0))
                                            (booted (fun _ => false)))))
    by (cbn; repeat constructor; unfold is_byte; lia).
  split; [exact Hl|]. split; [exact Hb|].
  exact (proj1 (ToggleState_twice _ Hl Hb)).
Defined.

(** ** Runs against the two example cards *)

(** A permanently busy card: the command is accepted (response 0x00), all
    65535 busy-wait exchanges read zero and the write times out, after
    9 + 19 + 65535 exchanges in all. *)
Example WriteCSD_always_busy :
  fst (WriteCSD (booted busy_card)) = SDCARD_TIMEOUT /\
  pulses (snd (WriteCSD (booted busy_card))) = (8 * (9 + 19 + 65535))%N.
Proof.
  assert (Hm : miso (booted busy_card) = busy_card)
    by (rewrite booted_eq; reflexivity).
  assert (Hp : pulses (booted busy_card) = 0%N)
    by (rewrite booted_eq; reflexivity).
  generalize dependent (booted busy_card). intros w Hm Hp.
  rewrite WriteCSD_unfold.
  destruct (SD_send_command_spec SD_PROGRAM_CSD 0 w eq_refl)
    as (w1 & E & Mv & C).
  rewrite E. unfold exchange_response.
  rewrite (incoming_busy_card w _ Hm). change (nz 0) with false. cbv iota.
  change (negb (keeps_selected SD_PROGRAM_CSD)) with false in C.
  destruct (WriteCSD_data_phase w1 C) as (w' & Erun & Mv' & _).
  cbn zeta in Erun, Mv'. rewrite Erun. cbn [fst snd].
  assert (Hm1 : miso w1 = busy_card)
    by (rewrite (sm_miso _ _ (mv_mem _ _ _ _ Mv)); exact Hm).
  rewrite (incoming_busy_card w1 _ Hm1). change (nz 0) with false. cbv iota.
  split; [reflexivity|].
  assert (Ep : polls BUSY_BOUND nz (incoming w1) 19 = BUSY_BOUND).
  { apply polls_none. intros j _. rewrite (incoming_busy_card w1 _ Hm1). reflexivity. }
  assert (Er : response_polls w = 1%nat).
  { unfold response_polls.
    change 10%nat with (S 9). cbn [polls].
    rewrite (incoming_busy_card w 8%nat Hm). reflexivity. }
  rewrite (mv_pulses _ _ _ _ Mv'), (mv_pulses _ _ _ _ Mv), Ep, Hp.
  unfold exchange_len. rewrite Er.
  change (keeps_selected SD_PROGRAM_CSD) with true. cbv iota.
  pose proof BUSY_BOUND_val. lia.
Qed.

(** A card that stays in idle state for ever answers 0x01 to every
    command: every pass of the ACMD41 loop fails, and [SDInit] still
    returns Ok with [sdtype] set to SDHC. *)
Example SDInit_stuck_in_idle :
  fst (SDInit (power_on idle_card)) = SDCARD_OK /\
  sdtype (snd (SDInit (power_on idle_card))) = SDTYPE_SDHC /\
  (forall w k, at_idle_card w ->
     step_response (SD_send_command SD_ADV_INIT (Z.shiftl 1 30)) w k = 0x01).
Proof.
  assert (H0 : at_idle_card (snd (SDInit_power_up (power_on idle_card)))).
  { unfold SDInit_power_up, bind, modify.
    assert (Hs : at_idle_card (set_sdtype SDTYPE_UNKNOWN (power_on idle_card)))
      by (split; reflexivity).
    destruct (Deselect_moved (set_sdtype SDTYPE_UNKNOWN (power_on idle_card)))
      as (Md & _).
    pose proof (at_idle_card_moved _ _ _ _ Md Hs) as Hd.
    destruct (Deselect (set_sdtype SDTYPE_UNKNOWN (power_on idle_card))) as [[] wb].
    cbn [snd] in Hd.
    exact (repeat_idle_invariant at_idle_card 10 at_idle_card_Xchg wb Hd). }
  assert (Hstep : forall c a v, at_idle_card v ->
                    at_idle_card (snd (SD_send_command c a v)))
    by (intros c a v Hv; apply (idle_card_response c a v Hv)).
  assert (H1 : at_idle_card (snd (SDInit_go_idle (power_on idle_card)))).
  { rewrite SDInit_go_idle_unfold.
    apply (poll_invariant at_idle_card); [apply Hstep|exact H0]. }
  assert (R : (fst (SDInit_go_idle (power_on idle_card)) =? 1) = true).
  { rewrite SDInit_go_idle_unfold.
    apply (poll_done_iff 10 (SD_send_command SD_GO_IDLE 0) (fun r => r =? 1));
      [lia|].
    exists 0%nat. split; [lia|]. unfold step_response, step_world. cbn [Nat.iter nat_rect].
    rewrite (proj1 (idle_card_response SD_GO_IDLE 0 _ H0)). reflexivity. }
  assert (E : SDInit (power_on idle_card)
              = SDInit_detect (snd (SDInit_go_idle (power_on idle_card)))).
  { rewrite SDInit_unfold.
    destruct (SDInit_go_idle (power_on idle_card)) as [response w1].
    cbn [fst snd] in *. rewrite R. reflexivity. }
  destruct (SDInit_detect_spec (snd (SDInit_go_idle (power_on idle_card))))
    as (w' & Ed & Et).
  rewrite (proj1 (idle_card_response SD_SEND_IF_COND 0x1aa _ H1)) in Et.
  rewrite E, Ed. cbn [fst snd]. split; [reflexivity|]. split; [exact Et|].
  intros w k Hw. unfold step_response.
  apply idle_card_response. unfold step_world.
  induction k as [|k IH]; [exact Hw|]. cbn [Nat.iter nat_rect].
  apply Hstep. exact IH.
Qed.

(** * The rest of the firmware: lemmas *)

(** ** BlinkLED *)

Lemma nz_land_pow2 c k : 0 <= k -> nz (Z.land c (2 ^ k)) = Z.testbit c k.
Proof.
  intros Hk. unfold nz. destruct (Z.testbit c k) eqn:E.
  - destruct (Z.eqb_spec (Z.land c (2 ^ k)) 0) as [H|H]; [|reflexivity].
    assert (F : Z.testbit (Z.land c (2 ^ k)) k = true)
      by (rewrite Z.land_spec, E, Z.pow2_bits_true by lia; reflexivity).
    rewrite H, Z.bits_0 in F. discriminate.
  - assert (H : Z.land c (2 ^ k) = 0).
    { apply Z.bits_inj'. intros n Hn. rewrite Z.land_spec, Z.bits_0.
      rewrite Z.pow2_bits_eqb by lia.
      destruct (Z.eqb_spec k n) as [<-|]; [rewrite E|]; auto using andb_false_r. }
    rewrite H. reflexivity.
Qed.

Lemma only_led_refl w : only_led w w.
Proof. split; reflexivity. Qed.

Lemma only_led_trans w1 w2 w3 :
  only_led w1 w2 -> only_led w2 w3 -> only_led w1 w3.
Proof.
  intros [B1 ? ? ? ? ? ?] [B2 ? ? ? ? ? ?]. split; try congruence.
  intros k Hk Hne. rewrite B2, B1 by assumption. reflexivity.
Qed.

Lemma TURN_LED_ON_spec w :
  only_led w (snd (TURN_LED_ON w)) /\ led_on (snd (TURN_LED_ON w)) = true /\
  elapsed_ms (snd (TURN_LED_ON w)) = elapsed_ms w.
Proof.
  unfold TURN_LED_ON, port_clear, modify, led_on, LEDSW_MASK, LEDSW_BIT.
  cbn [snd PORTB set_PORTB]. split; [split; try reflexivity|split; [|reflexivity]].
  - intros k Hk Hne. unfold LEDSW_BIT in Hne. cbn [PORTB set_PORTB].
    rewrite u8_testbit, Z.land_spec, Z.lnot_spec by lia.
    change (Z.shiftl 1 4) with (2 ^ 4). rewrite Z.pow2_bits_eqb by lia.
    destruct (Z.eqb_spec 4 k); [lia|]. apply andb_true_r.
  - rewrite u8_testbit, Z.land_spec by lia. cbn. rewrite andb_false_r. reflexivity.
Qed.

Lemma TURN_LED_OFF_spec w :
  only_led w (snd (TURN_LED_OFF w)) /\ led_on (snd (TURN_LED_OFF w)) = false /\
  elapsed_ms (snd (TURN_LED_OFF w)) = elapsed_ms w.
Proof.
  unfold TURN_LED_OFF, port_set, modify, led_on, LEDSW_MASK, LEDSW_BIT.
  cbn [snd PORTB set_PORTB]. split; [split; try reflexivity|split; [|reflexivity]].
  - intros k Hk Hne. unfold LEDSW_BIT in Hne. cbn [PORTB set_PORTB].
    rewrite u8_testbit, Z.lor_spec by lia.
    change (Z.shiftl 1 4) with (2 ^ 4). rewrite Z.pow2_bits_eqb by lia.
    destruct (Z.eqb_spec 4 k); [lia|]. apply orb_false_r.
  - rewrite u8_testbit, Z.lor_spec by lia. cbn. rewrite orb_true_r. reflexivity.
Qed.

(** One pass of the loop of [BlinkLED], up to the test that ends it. *)
Lemma BlinkLED_pass pattern w :
  exists w1,
    ((if nz (Z.land pattern 0x80000000) then TURN_LED_ON else TURN_LED_OFF) ;;
     _delay_ms 35) w = (tt, w1) /\
    only_led w w1 /\
    led_on w1 = Z.testbit pattern 31 /\
    elapsed_ms w1 = elapsed_ms w + 35.
Proof.
  change 0x80000000 with (2 ^ 31). rewrite nz_land_pow2 by lia.
  unfold bind, _delay_ms, modify.
  destruct (Z.testbit pattern 31).
  - destruct (TURN_LED_ON_spec w) as (O & L & T).
    destruct (TURN_LED_ON w) as [[] w1]. cbn [snd] in *.
    eexists. split; [reflexivity|]. split; [|split].
    + destruct O. split; assumption.
    + exact L.
    + cbn. lia.
  - destruct (TURN_LED_OFF_spec w) as (O & L & T).
    destruct (TURN_LED_OFF w) as [[] w1]. cbn [snd] in *.
    eexists. split; [reflexivity|]. split; [|split].
    + destruct O. split; assumption.
    + exact L.
    + cbn. lia.
Qed.

Lemma BlinkLED_loop_unfold n pattern w :
  BlinkLED_loop (S n) pattern w
  = (let (_, w1) := ((if nz (Z.land pattern 0x80000000)
                      then TURN_LED_ON else TURN_LED_OFF) ;; _delay_ms 35) w in
     if u32 (Z.shiftl pattern 1) =? 0 then (tt, w1)
     else BlinkLED_loop n (u32 (Z.shiftl pattern 1)) w1).
Proof.
  cbn [BlinkLED_loop]. unfold bind.
  destruct (nz (Z.land pattern 2147483648)).
  - destruct (TURN_LED_ON w) as [[] wa]. destruct (_delay_ms 35 wa) as [[] wb].
    destruct (u32 (Z.shiftl pattern 1) =? 0); reflexivity.
  - destruct (TURN_LED_OFF w) as [[] wa]. destruct (_delay_ms 35 wa) as [[] wb].
    destruct (u32 (Z.shiftl pattern 1) =? 0); reflexivity.
Qed.

Lemma BlinkLED_loop_frame n : forall pattern w,
  only_led w (snd (BlinkLED_loop n pattern w)).
Proof.
  induction n as [|n IH]; intros pattern w; [apply only_led_refl|].
  rewrite BlinkLED_loop_unfold.
  destruct (BlinkLED_pass pattern w) as (w1 & E & O & _).
  rewrite E. destruct (u32 (Z.shiftl pattern 1) =? 0); [exact O|].
  eapply only_led_trans; [exact O|apply IH].
Qed.

Lemma shifted_pattern_bit p j :
  0 <= j < 31 -> Z.testbit (u32 (Z.shiftl p 1)) (j + 1) = Z.testbit p j.
Proof.
  intros Hj. unfold u32. change 4294967296 with (2 ^ 32).
  rewrite Z.mod_pow2_bits_low by lia.
  rewrite Z.shiftl_spec by lia. f_equal. lia.
Qed.

Lemma shifted_pattern_low p j :
  0 <= j < 31 -> p mod 2 ^ j = 0 -> u32 (Z.shiftl p 1) mod 2 ^ (j + 1) = 0.
Proof.
  intros Hj Hp. unfold u32. change 4294967296 with (2 ^ 32).
  rewrite Z.mod_mod_divide.
  - rewrite Z.shiftl_mul_pow2 by lia. change (2 ^ 1) with 2.
    rewrite Z.pow_add_r by lia. change (2 ^ 1) with 2.
    rewrite Z.mul_mod_distr_r by lia. rewrite Hp. reflexivity.
  - exists (2 ^ (32 - (j + 1))). rewrite <- Z.pow_add_r by lia. f_equal. lia.
Qed.

(** The loop ends right after showing the lowest bit that is set. *)
Lemma BlinkLED_loop_run n : forall p j w,
  0 <= p < 2 ^ 32 -> 0 <= j < 32 ->
  Z.testbit p j = true -> p mod 2 ^ j = 0 ->
  32 - j <= Z.of_nat n ->
  elapsed_ms (snd (BlinkLED_loop n p w)) = elapsed_ms w + 35 * (32 - j) /\
  led_on (snd (BlinkLED_loop n p w)) = true.
Proof.
  induction n as [|n IH]; intros p j w Hp Hj Hb Hlow Hn; [lia|].
  rewrite BlinkLED_loop_unfold.
  destruct (BlinkLED_pass p w) as (w1 & E & O & L & T).
  rewrite E.
  destruct (Z.eq_dec j 31) as [->|Hne].
  - assert (Ep : p = 2 ^ 31).
    { apply Z.mod_divide in Hlow; [|lia]. destruct Hlow as [q Hq].
      assert (q = 1); [|subst; lia].
      assert (q <> 0) by (intros ->; rewrite Z.mul_0_l in Hq; subst p;
                          rewrite Z.bits_0 in Hb; discriminate).
      change (2 ^ 32) with (2 * 2 ^ 31) in Hp.
      assert (0 < 2 ^ 31) by lia. nia. }
    subst p. change (u32 (Z.shiftl (2 ^ 31) 1) =? 0) with true. cbv iota.
    cbn [snd]. rewrite T, L. split; [lia|reflexivity].
  - assert (Hb' : Z.testbit (u32 (Z.shiftl p 1)) (j + 1) = true)
      by (rewrite shifted_pattern_bit by lia; exact Hb).
    destruct (Z.eqb_spec (u32 (Z.shiftl p 1)) 0) as [Hz|Hz].
    + rewrite Hz, Z.bits_0 in Hb'. discriminate.
    + destruct (IH (u32 (Z.shiftl p 1)) (j + 1) w1) as (T' & L').
      * unfold u32. change (2 ^ 32) with 4294967296.
        apply Z.mod_pos_bound. lia.
      * lia.
      * exact Hb'.
      * apply shifted_pattern_low; [lia|exact Hlow].
      * lia.
      * rewrite T', T. split; [lia|exact L'].
Qed.

Lemma BlinkLED_loop_time n : forall pattern w,
  (0 < n)%nat ->
  elapsed_ms w + 35 <= elapsed_ms (snd (BlinkLED_loop n pattern w))
  <= elapsed_ms w + 35 * Z.of_nat n.
Proof.
  induction n as [|n IH]; intros pattern w Hn; [lia|].
  rewrite BlinkLED_loop_unfold.
  destruct (BlinkLED_pass pattern w) as (w1 & E & _ & _ & T).
  rewrite E. destruct (u32 (Z.shiftl pattern 1) =? 0).
  - cbn [snd]. lia.
  - destruct n as [|n].
    + cbn [BlinkLED_loop ret snd]. lia.
    + specialize (IH (u32 (Z.shiftl pattern 1)) w1 ltac:(lia)). lia.
Qed.

(** ** Bytes read from the bus *)

Lemma incoming_range w k : 0 <= incoming w k < 256.
Proof.
  unfold incoming, rx_byte.
  repeat match goal with |- context [Z.b2z ?b] =>
    let v := fresh "b" in
    assert (0 <= Z.b2z b <= 1) by (destruct b; simpl; lia);
    generalize dependent (Z.b2z b); intros v; intros end.
  lia.
Qed.

Lemma incoming_no_card w k : miso w = no_card -> incoming w k = 0xff.
Proof. intros H. unfold incoming, rx_byte. rewrite H. reflexivity. Qed.

Lemma response_done_bit r : (Z.land r 0x80 =? 0) = negb (Z.testbit r 7).
Proof. rewrite <- nz_bit7. unfold nz. rewrite negb_involutive. reflexivity. Qed.

(** ** Worlds that keep their buffers *)

Lemma same_buffers_refl w : same_buffers w w.
Proof. split; reflexivity. Qed.

Lemma same_buffers_trans w1 w2 w3 :
  same_buffers w1 w2 -> same_buffers w2 w3 -> same_buffers w1 w3.
Proof. intros [] []. split; congruence. Qed.

Lemma same_memory_buffers w w' : same_memory w w' -> same_buffers w w'.
Proof. intros []. split; assumption. Qed.

Lemma only_led_buffers w w' : only_led w w' -> same_buffers w w'.
Proof. intros []. split; assumption. Qed.

Lemma SDInit_power_up_buffers w : same_buffers w (snd (SDInit_power_up w)).
Proof.
  unfold SDInit_power_up, bind, modify.
  destruct (Deselect_moved (set_sdtype SDTYPE_UNKNOWN w)) as ([Md _ _] & _).
  destruct (Deselect (set_sdtype SDTYPE_UNKNOWN w)) as [[] wb]. cbn [snd] in Md.
  pose proof (repeat_idle_memory 10 wb) as Mr. unfold bind in Mr.
  destruct (repeat_do 10 (fun w0 => let (_, w') := Xchg 255 w0 in ret tt w') wb)
    as [[] wc]. cbn [snd] in *.
  apply same_memory_buffers in Md, Mr.
  eapply same_buffers_trans; [|exact Mr].
  eapply same_buffers_trans; [|exact Md].
  split; reflexivity.
Qed.

Lemma SDInit_go_idle_buffers w : same_buffers w (snd (SDInit_go_idle w)).
Proof.
  rewrite SDInit_go_idle_unfold.
  eapply same_buffers_trans; [apply SDInit_power_up_buffers|].
  apply same_memory_buffers.
  apply poll_memory. apply SD_send_command_memory.
Qed.

Lemma SDInit_detect_buffers w1 : same_buffers w1 (snd (SDInit_detect w1)).
Proof.
  unfold SDInit_detect. unfold bind at 1.
  pose proof (SD_send_command_memory SD_SEND_IF_COND 0x1aa w1) as M8.
  destruct (SD_send_command SD_SEND_IF_COND 0x1aa w1) as [r8 w2].
  cbn [fst snd] in *. apply same_memory_buffers in M8.
  destruct (r8 =? 1).
  - unfold bind.
    pose proof (repeat_idle_memory 4 w2) as Mr. unfold bind in Mr.
    destruct (repeat_do 4 (fun w => let (_, w') := Xchg 255 w in ret tt w') w2)
      as [[] w3].
    pose proof (poll_memory (Z.to_nat 20000)
                  (SD_send_command SD_ADV_INIT (Z.shiftl 1 30)) (fun r => r =? 0)
                  (SD_send_command_memory SD_ADV_INIT (Z.shiftl 1 30)) r8 w3) as Mp.
    destruct (poll (Z.to_nat 20000) (SD_send_command SD_ADV_INIT (Z.shiftl 1 30))
                (fun r => r =? 0) r8 w3) as [r41 w4].
    unfold modify.
    destruct (Xchg_spec 0xff (set_sdtype SDTYPE_SDHC w4)) as (_ & _ & _ & _ & S).
    destruct (Xchg 255 (set_sdtype SDTYPE_SDHC w4)) as [r w5].
    cbn [fst snd ret] in *.
    apply same_memory_buffers in Mr, Mp, S.
    eapply same_buffers_trans; [exact M8|].
    eapply same_buffers_trans; [exact Mr|].
    eapply same_buffers_trans; [exact Mp|].
    eapply same_buffers_trans; [|exact S]. split; reflexivity.
  - unfold bind at 1. unfold bind at 1.
    pose proof (SD_send_command_memory SD_READ_OCR 0 w2) as M58.
    destruct (SD_send_command SD_READ_OCR 0 w2) as [r58 w3].
    cbn [fst snd] in *. apply same_memory_buffers in M58.
    destruct (r58 =? 1).
    + unfold bind.
      pose proof (repeat_idle_memory 4 w3) as Mr. unfold bind in Mr.
      destruct (repeat_do 4 (fun w => let (_, w') := Xchg 255 w in ret tt w') w3)
        as [[] w4].
      pose proof (poll_memory (Z.to_nat 20000) (SD_send_command SD_INIT 0)
                    (fun r => r =? 0) (SD_send_command_memory SD_INIT 0) r58 w4) as Mp.
      destruct (poll (Z.to_nat 20000) (SD_send_command SD_INIT 0)
                  (fun r => r =? 0) r58 w4) as [r1 w5].
      pose proof (SD_send_command_memory SD_SET_BLK_LEN 512 w5) as M16.
      destruct (SD_send_command SD_SET_BLK_LEN 512 w5) as [r16 w6].
      unfold modify.
      destruct (Xchg_spec 0xff (set_sdtype SDTYPE_SD w6)) as (_ & _ & _ & _ & S).
      destruct (Xchg 255 (set_sdtype SDTYPE_SD w6)) as [r w7].
      cbn [fst snd ret] in *.
      apply same_memory_buffers in Mr, Mp, M16, S.
      eapply same_buffers_trans; [exact M8|].
      eapply same_buffers_trans; [exact M58|].
      eapply same_buffers_trans; [exact Mr|].
      eapply same_buffers_trans; [exact Mp|].
      eapply same_buffers_trans; [exact M16|].
      eapply same_buffers_trans; [|exact S]. split; reflexivity.
    + unfold bind. cbn [ret].
      destruct (Xchg_spec 0xff w3) as (_ & _ & _ & _ & S).
      destruct (Xchg 255 w3) as [r w4].
      cbn [fst snd ret] in *. apply same_memory_buffers in S.
      eapply same_buffers_trans; [exact M8|].
      eapply same_buffers_trans; [exact M58|exact S].
Qed.

Lemma SDInit_buffers w : same_buffers w (snd (SDInit w)).
Proof.
  rewrite SDInit_unfold.
  pose proof (SDInit_go_idle_buffers w) as G.
  destruct (SDInit_go_idle w) as [response w1]. cbn [snd] in G.
  destruct (negb (response =? 1)); [exact G|].
  eapply same_buffers_trans; [exact G|apply SDInit_detect_buffers].
Qed.

(** ** No card on the bus *)

Lemma no_card_response command arg w :
  miso w = no_card ->
  fst (SD_send_command command arg w) = 0xff /\
  miso (snd (SD_send_command command arg w)) = no_card.
Proof.
  intros Hw. split.
  - destruct (nz (Z.land command 0x80)) eqn:A.
    + rewrite (SD_send_command_adv _ _ _ A).
      destruct (SD_send_command_spec CMD55 0 w eq_refl) as (w1 & E & _).
      rewrite E. unfold exchange_response.
      rewrite (incoming_no_card _ _ Hw). reflexivity.
    + destruct (SD_send_command_spec command arg w A) as (w1 & E & _).
      rewrite E. cbn [fst]. apply incoming_no_card. exact Hw.
  - rewrite (sm_miso _ _ (SD_send_command_memory command arg w)). exact Hw.
Qed.

Lemma SDInit_no_card w :
  miso w = no_card -> fst (SDInit w) = SDCARD_NOT_DETECTED.
Proof.
  intros Hw. rewrite SDInit_unfold.
  assert (H0 : miso (snd (SDInit_power_up w)) = no_card)
    by (rewrite (sb_miso _ _ (SDInit_power_up_buffers w)); exact Hw).
  pose proof (poll_done_iff 10 (SD_send_command SD_GO_IDLE 0) (fun r => r =? 0x01)
                0 (snd (SDInit_power_up w)) ltac:(lia)) as P.
  rewrite <- SDInit_go_idle_unfold in P.
  destruct (SDInit_go_idle w) as [response w1]. cbn [fst] in P.
  destruct (response =? 1) eqn:R; [|reflexivity].
  destruct (proj1 P eq_refl) as (k & _ & Hd).
  assert (Hk : miso (step_world (SD_send_command SD_GO_IDLE 0)
                       (snd (SDInit_power_up w)) k) = no_card).
  { unfold step_world. clear Hd. induction k as [|k IH]; [exact H0|].
    cbn [Nat.iter nat_rect]. apply no_card_response. exact IH. }
  unfold step_response in Hd.
  rewrite (proj1 (no_card_response SD_GO_IDLE 0 _ Hk)) in Hd. discriminate Hd.
Qed.

(** ** ReadCSD and WriteCSD leave the card selected *)

Lemma WriteCSD_selected w : cs_high (snd (WriteCSD w)) = false.
Proof.
  rewrite WriteCSD_unfold.
  destruct (SD_send_command_spec SD_PROGRAM_CSD 0 w eq_refl) as (w1 & E & Mv & C).
  rewrite E. change (negb (keeps_selected SD_PROGRAM_CSD)) with false in C.
  destruct (nz (exchange_response w)); [exact C|].
  destruct (WriteCSD_data_phase w1 C) as (w' & Erun & _ & C').
  rewrite Erun. exact C'.
Qed.

Lemma ReadCSD_selected_run w :
  exists r w',
    ReadCSD w = (r, w') /\
    cs_high w' = false /\
    sdtype w' = sdtype w /\
    crctable w' = crctable w /\
    miso w' = miso w /\
    elapsed_ms w' = elapsed_ms w.
Proof.
  unfold ReadCSD. unfold bind at 1. rewrite zero_loop_spec.
  set (wz := set_csd (store_bytes (csd w) 0 (replicate 16 0)) w).
  destruct (SD_send_command_spec SD_SEND_CSD 0 wz eq_refl) as (w1 & E & Mv & C).
  change (negb (keeps_selected SD_SEND_CSD)) with false in C.
  unfold bind at 1. rewrite E.
  unfold bind at 1. unfold SD_wait_for_data.
  destruct (poll_chain wz w1 _ _ false Mv C 100 0xff
              (fun r => negb (r =? 0xff)) 0) as (w2 & E2 & Mv2 & C2).
  cbn zeta in E2, Mv2. rewrite E2. clear E2.
  match goal with |- context [negb (?t =? 254)] => destruct (t =? 254) end;
    cbn [negb].
  - destruct (read_loop_chain wz 16 0 (csd w2) w2 _ _ false Mv2 C2)
      as (w3 & E3 & Mv3 & C3).
    rewrite set_csd_id in E3.
    unfold bind at 1. rewrite E3.
    unfold bind at 1. rewrite Xchg_set_csd.
    destruct (Xchg_chain wz w3 _ _ false Mv3 C3 0xff) as (w4 & E4 & Mv4 & C4).
    rewrite E4. cbn [fst snd ret].
    destruct (mv_mem _ _ _ _ Mv4) as [Hmi Hel Hsd _ Hcr].
    do 2 eexists. split; [reflexivity|].
    split; [exact C4|]. split; [exact Hsd|]. split; [exact Hcr|].
    split; [exact Hmi|exact Hel].
  - cbn [ret snd].
    destruct (mv_mem _ _ _ _ Mv2) as [Hmi Hel Hsd _ Hcr].
    do 2 eexists. split; [reflexivity|].
    split; [exact C2|]. split; [exact Hsd|]. split; [exact Hcr|].
    split; [exact Hmi|exact Hel].
Qed.

Lemma ReadCSD_selected w :
  cs_high (snd (ReadCSD w)) = false /\
  sdtype (snd (ReadCSD w)) = sdtype w /\
  crctable (snd (ReadCSD w)) = crctable w /\
  miso (snd (ReadCSD w)) = miso w /\
  elapsed_ms (snd (ReadCSD w)) = elapsed_ms w.
Proof.
  destruct (ReadCSD_selected_run w) as (r & w' & E & H). rewrite E. exact H.
Qed.

(** What [ReadCSD] stores are bytes, whatever the card sends. *)
Lemma received_bytes w k n : Forall is_byte (received w k n).
Proof.
  revert k. induction n as [|n IH]; intros k; cbn [received]; constructor.
  - apply incoming_range.
  - apply IH.
Qed.

Lemma ReadCSD_csd w :
  length (csd w) = 16%nat ->
  length (csd (snd (ReadCSD w))) = 16%nat /\
  Forall is_byte (csd (snd (ReadCSD w))).
Proof.
  intros Hlen.
  destruct (ReadCSD_run w Hlen) as (w1 & _ & w' & Erun & _).
  rewrite Erun. cbn [snd csd set_csd].
  destruct (incoming w1 (data_polls w1 - 1) =? 254).
  - split; [apply length_received|apply received_bytes].
  - split; [apply length_replicate|].
    apply Forall_replicate. unfold is_byte. lia.
Qed.

(** ** The retry loops of ReadState *)

Lemma retry_loop_mono pattern op fuel : forall r w w',
  retry_loop fuel pattern op r w = Some w' ->
  forall fuel', (fuel <= fuel')%nat -> retry_loop fuel' pattern op r w = Some w'.
Proof.
  induction fuel as [|fuel IH]; intros r w w' H fuel' Hle.
  - cbn [retry_loop] in H. destruct (r =? SDCARD_OK) eqn:R; [|discriminate].
    destruct fuel'; cbn [retry_loop]; rewrite R; exact H.
  - destruct fuel' as [|fuel']; [lia|]. cbn [retry_loop] in *.
    destruct (r =? SDCARD_OK); [exact H|].
    destruct (BlinkLED pattern w) as [[] w1]. destruct (op w1) as [r' w2].
    apply IH; [exact H|lia].
Qed.

(** A loop whose operation cannot succeed never ends. *)
Lemma retry_loop_stuck (P : world -> Prop) pattern op :
  (forall v, P v -> P (snd (BlinkLED pattern v))) ->
  (forall v, P v -> fst (op v) <> SDCARD_OK /\ P (snd (op v))) ->
  forall fuel r w, r <> SDCARD_OK -> P w -> retry_loop fuel pattern op r w = None.
Proof.
  intros Hb Hop. induction fuel as [|fuel IH]; intros r w Hr Hw; cbn [retry_loop];
    (destruct (Z.eqb_spec r SDCARD_OK); [contradiction|]); [reflexivity|].
  specialize (Hb w Hw). destruct (BlinkLED pattern w) as [[] w1]. cbn [snd] in Hb.
  specialize (Hop w1 Hb). destruct (op w1) as [r' w2]. cbn [fst snd] in Hop.
  apply IH; tauto.
Qed.

(** When the loop ends, it ends on the operation's success. *)
Lemma retry_loop_last (P : world -> Prop) pattern op :
  (forall v, P v -> P (snd (BlinkLED pattern v))) ->
  (forall v, P v -> P (snd (op v))) ->
  forall fuel r w w',
    P w -> retry_loop fuel pattern op r w = Some w' ->
    (r = SDCARD_OK /\ w' = w) \/ (exists v, P v /\ op v = (SDCARD_OK, w')).
Proof.
  intros Hb Hop. induction fuel as [|fuel IH]; intros r w w' Hw H;
    cbn [retry_loop] in H;
    (destruct (Z.eqb_spec r SDCARD_OK) as [Hr|Hr];
       [left; split; [exact Hr|congruence]|]); [discriminate|].
  specialize (Hb w Hw). destruct (BlinkLED pattern w) as [[] w1]. cbn [snd] in Hb.
  pose proof (Hop w1 Hb) as Hop1.
  destruct (op w1) as [r' w2] eqn:E. cbn [snd] in Hop1.
  destruct (IH r' w2 w' Hop1 H) as [[-> ->]|Hex].
  - right. exists w1. split; [exact Hb|exact E].
  - right. exact Hex.
Qed.

Lemma BlinkLED_frame pattern w : only_led w (snd (BlinkLED pattern w)).
Proof. apply BlinkLED_loop_frame. Qed.

Lemma BlinkLED_sdtype pattern w : sdtype (snd (BlinkLED pattern w)) = sdtype w.
Proof. apply (ol_sdtype _ _ (BlinkLED_frame pattern w)). Qed.

Lemma BlinkLED_cs pattern w : cs_high (snd (BlinkLED pattern w)) = cs_high w.
Proof.
  unfold cs_high. apply (ol_bits _ _ (BlinkLED_frame pattern w));
    unfold CS_BIT, LEDSW_BIT; lia.
Qed.

(** ** The port during an exchange *)

Lemma Xchg_bit_port c w :
  Z.testbit (PORTB (snd (Xchg_bit c w))) SCK_BIT = false /\
  Z.testbit (PORTB (snd (Xchg_bit c w))) MOSI_BIT = Z.testbit c 7 /\
  (forall k, 0 <= k < 8 -> k <> MOSI_BIT -> k <> SCK_BIT ->
     Z.testbit (PORTB (snd (Xchg_bit c w))) k = Z.testbit (PORTB w) k).
Proof.
  unfold Xchg_bit, bind, sck_high, sck_low, read_MISO, gets, ret, bind.
  rewrite nz_bit7. unfold SCK_BIT, MOSI_BIT.
  destruct (Z.testbit c 7);
    unfold port_set, port_clear, modify; cbn [fst snd];
    cbn [PORTB miso pulses wire elapsed_ms sdtype csd crctable
         set_PORTB set_pulses set_wire].
  all: split; [|split; [|intros k Hk H0 H2]].
  all: repeat (rewrite ?u8_testbit by lia;
               rewrite ?Z.lor_spec, ?Z.land_spec, ?Z.lnot_spec by lia).
  all: try (cbn; rewrite ?orb_false_r, ?andb_true_r, ?orb_true_r, ?andb_false_r;
            reflexivity).
  all: change (Z.shiftl 1 2) with (2 ^ 2); change (Z.shiftl 1 0) with (2 ^ 0);
       rewrite !Z.pow2_bits_eqb by lia;
       destruct (Z.eqb_spec 2 k); [lia|]; destruct (Z.eqb_spec 0 k); [lia|];
       cbn; rewrite ?orb_false_r, ?andb_true_r; reflexivity.
Qed.

Lemma Xchg_loop_port n : forall c w,
  (forall k, 0 <= k < 8 -> k <> MOSI_BIT -> k <> SCK_BIT ->
     Z.testbit (PORTB (snd (Xchg_loop n c w))) k = Z.testbit (PORTB w) k) /\
  ((0 < n)%nat -> Z.testbit (PORTB (snd (Xchg_loop n c w))) SCK_BIT = false).
Proof.
  induction n as [|n IH]; intros c w.
  - split; [reflexivity|lia].
  - cbn [Xchg_loop]. unfold bind.
    destruct (Xchg_bit_port c w) as (S & _ & O).
    destruct (Xchg_bit c w) as [c1 w1]. cbn [snd] in *.
    destruct (IH c1 w1) as (O' & S'). split.
    + intros k Hk H0 H2. rewrite O', O by assumption. reflexivity.
    + intros _. destruct n as [|n]; [exact S|]. apply S'. lia.
Qed.

(** ** The block [ToggleState] sends *)




(** ** The shared pin *)

Lemma ddr_bit_cleared d : Z.testbit (u8 (Z.land d (Z.lnot LEDSW_MASK))) LEDSW_BIT = false.
Proof.
  unfold LEDSW_MASK, LEDSW_BIT. rewrite u8_testbit, Z.land_spec by lia.
  cbn. apply andb_false_r.
Qed.

Lemma ddr_bit_set d : Z.testbit (u8 (Z.lor d LEDSW_MASK)) LEDSW_BIT = true.
Proof.
  unfold LEDSW_MASK, LEDSW_BIT. rewrite u8_testbit, Z.lor_spec by lia.
  cbn. apply orb_true_r.
Qed.

Lemma ddr_bits_kept d k :
  0 <= k < 8 -> k <> LEDSW_BIT ->
  Z.testbit (u8 (Z.lor (u8 (Z.land d (Z.lnot LEDSW_MASK))) LEDSW_MASK)) k
  = Z.testbit d k.
Proof.
  unfold LEDSW_MASK, LEDSW_BIT. intros Hk Hne.
  rewrite u8_testbit, Z.lor_spec, u8_testbit, Z.land_spec, Z.lnot_spec by lia.
  change (Z.shiftl 1 4) with (2 ^ 4). rewrite Z.pow2_bits_eqb by lia.
  destruct (Z.eqb_spec 4 k); [lia|]. cbn [negb].
  rewrite andb_true_r, orb_false_r. reflexivity.
Qed.

Lemma ReadSwitchOnce_spec b :
  exists b',
    ReadSwitchOnce b = (sample b 0, b') /\
    switch_read b b' 1 /\ shows_lock b' /\
    elapsed_ms (core b') = elapsed_ms (core b).
Proof.
  unfold ReadSwitchOnce, SW_PULLUP, SW_GET_STATE, LEDSW_AS_SW, LEDSW_AS_LED,
    ddr_clear, ddr_set, read_LEDSW_PIN, CardIsLocked.
  unfold bindB, on_core, retB, gets.
  destruct (TURN_LED_OFF_spec (core b)) as (O1 & _ & T1).
  destruct (TURN_LED_OFF (core b)) as [[] w1]. cbn [snd] in O1, T1.
  cbn [core set_core set_DDRB set_reads DDRB ledsw reads].
  destruct (TURN_LED_OFF_spec w1) as (O2 & L2 & T2).
  destruct (TURN_LED_OFF w1) as [[] w2]. cbn [snd] in O2, L2, T2.
  cbn [core set_core set_DDRB set_reads DDRB ledsw reads].
  rewrite ddr_bit_cleared.
  pose proof (only_led_trans _ _ _ O1 O2) as O.
  change LOCK_BIT_MASK with (2 ^ 4). rewrite nz_land_pow2 by lia.
  rewrite (ol_csd _ _ O).
  assert (Hs : (if ledsw b (reads b) then 0 else 1) = sample b 0).
  { unfold sample. rewrite N.add_0_r. reflexivity. }
  rewrite Hs. clear Hs.
  destruct (Z.testbit (aget (csd (core b)) 14) 4) eqn:Lk.
  - destruct (TURN_LED_ON_spec w2) as (O3 & L3 & T3).
    cbn [core set_core set_DDRB set_reads DDRB ledsw reads].
    destruct (TURN_LED_ON w2) as [[] w3]. cbn [snd] in O3, L3, T3.
    eexists. split; [reflexivity|].
    pose proof (only_led_trans _ _ _ O O3) as O'.
    split; [|split].
    + split; cbn [core set_core set_DDRB set_reads DDRB ledsw reads].
      * exact O'.
      * reflexivity.
      * lia.
      * intros k Hk Hne. apply ddr_bits_kept; assumption.
    + split; cbn [core set_core set_DDRB set_reads DDRB ledsw reads].
      * apply ddr_bit_set.
      * rewrite (ol_csd _ _ O'), Lk. exact L3.
    + cbn [core set_core]. congruence.
  - eexists. split; [reflexivity|].
    split; [|split].
    + split; cbn [core set_core set_DDRB set_reads DDRB ledsw reads].
      * exact O.
      * reflexivity.
      * lia.
      * intros k Hk Hne. apply ddr_bits_kept; assumption.
    + split; cbn [core set_core set_DDRB set_reads DDRB ledsw reads].
      * apply ddr_bit_set.
      * rewrite (ol_csd _ _ O), Lk. exact L2.
    + cbn [core set_core]. congruence.
Qed.

Lemma switch_read_trans b1 b2 b3 n m :
  switch_read b1 b2 n -> switch_read b2 b3 m -> switch_read b1 b3 (n + m).
Proof.
  intros [C1 S1 R1 D1] [C2 S2 R2 D2]. split.
  - eapply only_led_trans; eassumption.
  - congruence.
  - rewrite R2, R1. lia.
  - intros k Hk Hne. rewrite D2, D1 by assumption. reflexivity.
Qed.

Lemma switch_read_refl b : switch_read b b 0.
Proof.
  split; [apply only_led_refl|reflexivity|symmetry; apply N.add_0_r|reflexivity].
Qed.

Lemma sample_shift b b' n k :
  switch_read b b' n -> sample b' k = sample b (n + k).
Proof.
  intros [_ S R _]. unfold sample. rewrite S, R.
  replace (reads b + N.of_nat n + N.of_nat k)%N
    with (reads b + N.of_nat (n + k))%N by lia.
  reflexivity.
Qed.

(** A delay on the board moves the clock only. *)
Lemma delay_board ms b :
  switch_read b (snd (on_core (_delay_ms ms) b)) 0 /\
  elapsed_ms (core (snd (on_core (_delay_ms ms) b))) = elapsed_ms (core b) + ms /\
  (shows_lock b -> shows_lock (snd (on_core (_delay_ms ms) b))).
Proof.
  unfold on_core, _delay_ms, modify. cbn [snd core set_core].
  split; [|split; [reflexivity|]].
  - split; [split; reflexivity|reflexivity|symmetry; apply N.add_0_r|reflexivity].
  - intros H. exact H.
Qed.

Lemma debounce_spec n state : forall b,
  shows_lock b ->
  exists r b' m,
    debounce n state b = (r, b') /\
    (m <= n)%nat /\
    switch_read b b' m /\ shows_lock b' /\
    elapsed_ms (core b') = elapsed_ms (core b) + 100 * Z.of_nat m /\
    (r = 0 \/ r = 1) /\
    (r = 1 <-> forall k, (k < n)%nat -> sample b k = state) /\
    (r = 1 -> m = n) /\
    (forall k, (S k < m)%nat -> sample b k = state) /\
    (r = 0 -> (0 < m)%nat /\ sample b (m - 1) <> state).
Proof.
  induction n as [|n IH]; intros b Hb.
  - exists 1, b, 0%nat. cbn [debounce]. unfold retB.
    split; [reflexivity|]. split; [lia|]. split; [apply switch_read_refl|].
    split; [exact Hb|]. split; [lia|]. split; [right; reflexivity|].
    split; [split; [intros _ k Hk; lia|reflexivity]|].
    split; [reflexivity|]. split; [intros k Hk; lia|discriminate].
  - cbn [debounce]. unfold bindB at 1.
    destruct (delay_board 100 b) as (D & T & _).
    destruct (on_core (_delay_ms 100) b) as [[] b1]. cbn [snd] in D, T.
    unfold bindB at 1.
    destruct (ReadSwitchOnce_spec b1) as (b2 & E & R & L & T2).
    rewrite E.
    pose proof (switch_read_trans _ _ _ _ _ D R) as R2. cbn [Init.Nat.add] in R2.
    assert (Hs : sample b1 0 = sample b 0)
      by (rewrite (sample_shift _ _ _ _ D); reflexivity).
    rewrite Hs.
    destruct (Z.eqb_spec (sample b 0) state) as [Hm|Hm]; cbn [negb].
    + destruct (IH b2 L)
        as (r & b' & m & E' & Hle & R' & L' & T' & Hr & Hall & Hn & Hbefore & Hz).
      exists r, b', (S m). split; [exact E'|]. split; [lia|].
      split; [exact (switch_read_trans _ _ _ _ _ R2 R')|]. split; [exact L'|].
      split; [lia|]. split; [exact Hr|].
      split; [|split; [|split]].
      * rewrite Hall. split.
        -- intros H k Hk. destruct k as [|k]; [exact Hm|].
           rewrite <- (sample_shift _ _ _ _ R2). apply H. lia.
        -- intros H k Hk. rewrite (sample_shift _ _ _ _ R2). apply H. lia.
      * intros H. rewrite (Hn H). reflexivity.
      * intros k Hk. destruct k as [|k]; [exact Hm|].
        rewrite <- (sample_shift _ _ _ _ R2). apply Hbefore. lia.
      * intros H0. destruct (Hz H0) as (Hpos & Hlast). split; [lia|].
        rewrite (sample_shift _ _ _ _ R2) in Hlast.
        replace (S m - 1)%nat with (1 + (m - 1))%nat by lia. exact Hlast.
    + exists 0, b2, 1%nat. unfold retB. split; [reflexivity|]. split; [lia|].
      split; [exact R2|]. split; [exact L|]. split; [lia|].
      split; [left; reflexivity|].
      split; [split; [discriminate|intros H; contradiction Hm; apply H; lia]|].
      split; [discriminate|]. split; [intros k Hk; lia|].
      intros _. split; [lia|exact Hm].
Qed.

Lemma ButtonIs_spec state b :
  exists r b' n,
    ButtonIs state b = (r, b') /\
    (1 <= n <= 6)%nat /\
    switch_read b b' n /\ shows_lock b' /\
    elapsed_ms (core b') = elapsed_ms (core b) + 100 * (Z.of_nat n - 1) /\
    (r = 0 \/ r = 1) /\
    (r = 1 <-> forall k, (k < 6)%nat -> sample b k = state) /\
    (r = 1 -> n = 6%nat) /\
    (forall k, (S k < n)%nat -> sample b k = state) /\
    (r = 0 -> sample b (n - 1) <> state).
Proof.
  unfold ButtonIs, bindB.
  destruct (ReadSwitchOnce_spec b) as (b1 & E & R & L & T). rewrite E.
  destruct (Z.eqb_spec (sample b 0) state) as [Hm|Hm].
  - destruct (debounce_spec 5 state b1 L)
      as (r & b' & m & E' & Hle & R' & L' & T' & Hr & Hall & Hn & Hbefore & Hz).
    exists r, b', (S m). split; [exact E'|]. split; [lia|].
    split; [exact (switch_read_trans _ _ _ _ _ R R')|]. split; [exact L'|].
    split; [lia|]. split; [exact Hr|]. split; [|split; [|split]].
    + rewrite Hall. split.
      * intros H k Hk. destruct k as [|k]; [exact Hm|].
        rewrite <- (sample_shift _ _ _ _ R). apply H. lia.
      * intros H k Hk. rewrite (sample_shift _ _ _ _ R). apply H. lia.
    + intros H. rewrite (Hn H). reflexivity.
    + intros k Hk. destruct k as [|k]; [exact Hm|].
      rewrite <- (sample_shift _ _ _ _ R). apply Hbefore. lia.
    + intros H0. destruct (Hz H0) as (Hpos & Hs).
      rewrite (sample_shift _ _ _ _ R) in Hs.
      replace (S m - 1)%nat with (1 + (m - 1))%nat by lia. exact Hs.
  - exists 0, b1, 1%nat. unfold retB. split; [reflexivity|]. split; [lia|].
    split; [exact R|]. split; [exact L|]. split; [lia|].
    split; [left; reflexivity|].
    split; [split; [discriminate|intros H; contradiction Hm; apply H; lia]|].
    split; [discriminate|]. split; [intros k Hk; lia|].
    intros _. exact Hm.
Qed.

(** [wait_release] ends on six released samples in a row. *)
Lemma wait_release_spec fuel : forall b b',
  wait_release fuel b = Some b' ->
  exists m,
    switch_read b b' (m + 6) /\ shows_lock b' /\
    (forall k, (k < 6)%nat -> sample b (m + k) = SW_RELEASED).
Proof.
  induction fuel as [|fuel IH]; intros b b' H; cbn [wait_release] in H;
    destruct (ButtonIs_spec SW_RELEASED b)
      as (r & b1 & n & E & Hn & R & L & _ & Hr & Hall & H6 & _);
    rewrite E in H; unfold nz in H;
    (destruct (Z.eqb_spec r 0) as [H0|H0]; cbn [negb] in H;
     [|assert (H1 : r = 1) by (destruct Hr; [contradiction|assumption]);
       injection H as <-; exists 0%nat; rewrite (H6 H1) in R;
       split; [exact R|]; split; [exact L|]; exact (proj1 Hall H1)]).
  - discriminate H.
  - destruct (delay_board 25 b1) as (D & _ & Dl).
    destruct (IH _ _ H) as (m & R' & L' & Hrel).
    pose proof (switch_read_trans _ _ _ _ _ R D) as R1.
    pose proof (switch_read_trans _ _ _ _ _ R1 R') as R2.
    exists (n + 0 + m)%nat. split; [|split; [exact L'|]].
    + replace (n + 0 + m + 6)%nat with (n + 0 + (m + 6))%nat by lia. exact R2.
    + intros k Hk. specialize (Hrel k Hk).
      rewrite (sample_shift _ _ _ _ R1) in Hrel.
      replace (n + 0 + m + k)%nat with (n + 0 + (m + k))%nat by lia. exact Hrel.
Qed.

Lemma ShowState_frame w :
  only_led w (snd (ShowState w)).
Proof.
  unfold ShowState, CardIsLocked, bind, gets.
  destruct (nz _); apply BlinkLED_frame.
Qed.

Lemma on_core_frame {A} (m : M A) b :
  (forall w, only_led w (snd (m w))) ->
  switch_read b (snd (on_core m b)) 0.
Proof.
  intros H. unfold on_core. specialize (H (core b)).
  destruct (m (core b)) as [a w]. cbn [snd] in *.
  split; cbn [core set_core DDRB ledsw reads];
    [exact H|reflexivity|symmetry; apply N.add_0_r|reflexivity].
Qed.


(** ** Passes of [main] *)

Lemma board_kept_refl b : board_kept b b.
Proof. split; [reflexivity..|lia]. Qed.

Lemma board_kept_trans b1 b2 b3 :
  board_kept b1 b2 -> board_kept b2 b3 -> board_kept b1 b3.
Proof.
  intros [S1 M1 C1 D1 R1] [S2 M2 C2 D2 R2].
  split; [congruence..| |lia].
  intros k Hk Hne. rewrite D2, D1 by assumption. reflexivity.
Qed.

Lemma switch_read_kept b b' n : switch_read b b' n -> board_kept b b'.
Proof.
  intros [O S R D]. split; [exact S|exact (ol_miso _ _ O)|exact (ol_crctable _ _ O)|exact D|lia].
Qed.

Lemma card_run_refl b : card_run b b.
Proof. split; reflexivity. Qed.

Lemma card_run_trans b1 b2 b3 : card_run b1 b2 -> card_run b2 b3 -> card_run b1 b3.
Proof. intros [] []. split; congruence. Qed.

Lemma card_run_kept b b' : card_run b b' -> board_kept b b'.
Proof.
  intros [D S R M C]. split; [exact S|exact M|exact C| |lia].
  intros k _ _. rewrite D. reflexivity.
Qed.

Lemma card_run_sample b b' k : card_run b b' -> sample b' k = sample b k.
Proof. intros [_ S R _ _]. unfold sample. rewrite S, R. reflexivity. Qed.

Lemma on_core_run {A} (m : M A) b :
  miso (snd (m (core b))) = miso (core b) ->
  crctable (snd (m (core b))) = crctable (core b) ->
  card_run b (snd (on_core m b)) /\
  on_core m b = (fst (m (core b)), set_core (snd (m (core b))) b).
Proof.
  intros Hm Hc. unfold on_core.
  destruct (m (core b)) as [a w]. cbn [fst snd] in *.
  split; [|reflexivity].
  split; cbn [core set_core DDRB ledsw reads]; [reflexivity..|exact Hm|exact Hc].
Qed.

Lemma on_core_led {A} (m : M A) b :
  only_led (core b) (snd (m (core b))) -> card_run b (snd (on_core m b)).
Proof.
  intros O. apply on_core_run; [exact (ol_miso _ _ O)|exact (ol_crctable _ _ O)].
Qed.

Lemma ToggleState_buffers w :
  miso (snd (ToggleState w)) = miso w /\
  crctable (snd (ToggleState w)) = crctable w.
Proof.
  rewrite ToggleState_unfold.
  pose proof (WriteCSD_memory (toggled w)) as Mw.
  destruct (WriteCSD (toggled w)) as [r w']. cbn [snd] in Mw.
  assert (H : miso w' = miso w /\ crctable w' = crctable w).
  { split; [exact (sm_miso _ _ Mw)|exact (sm_crctable _ _ Mw)]. }
  destruct (negb (r =? SDCARD_OK)); [|exact H].
  unfold bind.
  pose proof (BlinkLED_frame PATTERN_WERROR w') as B1.
  destruct (BlinkLED PATTERN_WERROR w') as [[] wa]. cbn [snd] in B1.
  pose proof (BlinkLED_frame PATTERN_WERROR wa) as B2.
  destruct (BlinkLED PATTERN_WERROR wa) as [[] wb]. cbn [snd] in B2.
  pose proof (BlinkLED_frame PATTERN_WERROR wb) as B3.
  rewrite (ol_miso _ _ B3), (ol_miso _ _ B2), (ol_miso _ _ B1).
  rewrite (ol_crctable _ _ B3), (ol_crctable _ _ B2), (ol_crctable _ _ B1).
  exact H.
Qed.

(** When [ReadState] returns it has just had Ok from [ReadCSD]; the card's
    line and the CRC table are as they were. *)
Lemma ReadState_frame fuel w w' :
  ReadState fuel w = Some w' ->
  (exists v, ReadCSD v = (SDCARD_OK, w')) /\
  cs_high w' = false /\
  crctable w' = crctable w /\
  miso w' = miso w.
Proof.
  unfold ReadState. intros H.
  set (P := fun v => crctable v = crctable w /\ miso v = miso w).
  assert (Hblink : forall pattern v, P v -> P (snd (BlinkLED pattern v))).
  { intros pattern v (Hc & Hm). split.
    - rewrite (ol_crctable _ _ (BlinkLED_frame pattern v)). exact Hc.
    - rewrite (ol_miso _ _ (BlinkLED_frame pattern v)). exact Hm. }
  assert (Hinit : forall v, P v -> P (snd (SDInit v))).
  { intros v (Hc & Hm). pose proof (SDInit_buffers v) as B. split.
    - rewrite (sb_crctable _ _ B). exact Hc.
    - rewrite (sb_miso _ _ B). exact Hm. }
  assert (Hread : forall v, P v -> P (snd (ReadCSD v))).
  { intros v (Hc & Hm). destruct (ReadCSD_selected v) as (_ & _ & T & M & _). split.
    - rewrite T. exact Hc.
    - rewrite M. exact Hm. }
  assert (Pw : P w) by (split; reflexivity).
  pose proof (Hinit w Pw) as P1.
  destruct (SDInit w) as [r w1]. cbn [snd] in P1.
  destruct (retry_loop fuel PATTERN_LOADING SDInit r w1) as [w2|] eqn:E1;
    [|discriminate H].
  assert (P2 : P w2).
  { destruct (retry_loop_last P PATTERN_LOADING SDInit (Hblink _) Hinit
                fuel r w1 w2 P1 E1) as [(_ & ->)|(v & Pv & Ev)]; [exact P1|].
    specialize (Hinit v Pv). rewrite Ev in Hinit. exact Hinit. }
  pose proof (Hread w2 P2) as P3.
  destruct (ReadCSD w2) as [r' w3] eqn:E2. cbn [snd] in P3.
  assert (Hlast : exists v, P v /\ ReadCSD v = (SDCARD_OK, w')).
  { destruct (retry_loop_last P PATTERN_READING ReadCSD (Hblink _) Hread
                fuel r' w3 w' P3 H) as [(-> & ->)|(v & Pv & Ev)].
    - exists w2. split; [exact P2|exact E2].
    - exists v. split; [exact Pv|exact Ev]. }
  destruct Hlast as (v & Pv & Ev).
  split; [exists v; exact Ev|].
  pose proof (Hread v Pv) as (Hc & Hm).
  pose proof (proj1 (ReadCSD_selected v)) as Hs.
  rewrite Ev in Hc, Hm, Hs. cbn [snd] in Hc, Hm, Hs.
  split; [exact Hs|]. split; [exact Hc|exact Hm].
Qed.

Lemma ReadState_board_run fuel b b' :
  ReadState_board fuel b = Some b' ->
  card_run b b' /\ cs_high (core b') = false /\
  (exists v, ReadCSD v = (SDCARD_OK, core b')).
Proof.
  unfold ReadState_board. intros H.
  destruct (ReadState fuel (core b)) as [w|] eqn:E; [|discriminate H].
  injection H as <-.
  destruct (ReadState_frame _ _ _ E) as (Hlast & Hs & Hc & Hm).
  split; [|split; [exact Hs|exact Hlast]].
  split; cbn [core set_core DDRB ledsw reads]; [reflexivity..|exact Hm|exact Hc].
Qed.

Lemma on_core_core {A} (m : M A) b : core (snd (on_core m b)) = snd (m (core b)).
Proof. unfold on_core. destruct (m (core b)) as [a w]. reflexivity. Qed.

Lemma main_pressed_spec fuel b b' :
  main_pressed fuel b = Some b' ->
  board_kept b b' /\ shows_lock b' /\
  (exists m,
     reads b' = (reads b + N.of_nat (m + 6))%N /\
     (forall k, (k < 6)%nat -> sample b (m + k) = SW_RELEASED)) /\
  (exists v w, ReadCSD v = (SDCARD_OK, w) /\ csd (core b') = csd w).
Proof.
  unfold main_pressed. intros H.
  pose proof (proj1 (on_core_run CardIsLocked b eq_refl eq_refl)) as K1.
  destruct (on_core CardIsLocked b) as [prevState b1]. cbn [snd] in K1.
  destruct (ToggleState_buffers (core b1)) as (Tm & Tc).
  pose proof (proj1 (on_core_run ToggleState b1 Tm Tc)) as K2.
  destruct (on_core ToggleState b1) as [[] b2]. cbn [snd] in K2.
  destruct (ReadState_board fuel b2) as [b3|] eqn:E3; [|discriminate H].
  destruct (ReadState_board_run _ _ _ E3) as (K3 & _ & v & Ev).
  pose proof (proj1 (on_core_run CardIsLocked b3 eq_refl eq_refl)) as K4.
  pose proof (on_core_core CardIsLocked b3) as C4.
  destruct (on_core CardIsLocked b3) as [locked b4]. cbn [snd] in K4, C4.
  unfold CardIsLocked, gets in C4. cbn [snd] in C4.
  assert (K5 : card_run b4
                 (snd ((if locked =? prevState
                        then bindB (on_core (BlinkLED PATTERN_FAILED))
                               (fun _ => bindB (on_core (BlinkLED PATTERN_FAILED))
                                  (fun _ => on_core (BlinkLED PATTERN_FAILED)))
                        else retB tt) b4)) /\
               csd (core (snd ((if locked =? prevState
                        then bindB (on_core (BlinkLED PATTERN_FAILED))
                               (fun _ => bindB (on_core (BlinkLED PATTERN_FAILED))
                                  (fun _ => on_core (BlinkLED PATTERN_FAILED)))
                        else retB tt) b4))) = csd (core b4)).
  { destruct (locked =? prevState); [|split; [apply card_run_refl|reflexivity]].
    unfold bindB.
    pose proof (on_core_led (BlinkLED PATTERN_FAILED) b4 (BlinkLED_frame _ _)) as B1.
    pose proof (on_core_core (BlinkLED PATTERN_FAILED) b4) as D1.
    destruct (on_core (BlinkLED PATTERN_FAILED) b4) as [[] ba]. cbn [snd] in B1, D1.
    pose proof (on_core_led (BlinkLED PATTERN_FAILED) ba (BlinkLED_frame _ _)) as B2.
    pose proof (on_core_core (BlinkLED PATTERN_FAILED) ba) as D2.
    destruct (on_core (BlinkLED PATTERN_FAILED) ba) as [[] bb]. cbn [snd] in B2, D2.
    pose proof (on_core_led (BlinkLED PATTERN_FAILED) bb (BlinkLED_frame _ _)) as B3.
    split; [exact (card_run_trans _ _ _ B1 (card_run_trans _ _ _ B2 B3))|].
    rewrite on_core_core, BlinkLED_csd, D2, BlinkLED_csd, D1, BlinkLED_csd.
    reflexivity. }
  match type of K5 with card_run _ (snd ?t) /\ _ => destruct t as [[] b5] end.
  cbn [snd] in K5. destruct K5 as (K5 & C5).
  pose proof (on_core_led ShowState b5 (ShowState_frame _)) as K6.
  pose proof (on_core_core ShowState b5) as C6.
  destruct (on_core ShowState b5) as [[] b6]. cbn [snd] in K6, C6.
  assert (K : card_run b b6).
  { exact (card_run_trans _ _ _ K1 (card_run_trans _ _ _ K2 (card_run_trans _ _ _ K3
             (card_run_trans _ _ _ K4 (card_run_trans _ _ _ K5 K6))))). }
  destruct (wait_release_spec _ _ _ H) as (m & R & L & Hrel).
  split; [|split; [exact L|split]].
  - exact (board_kept_trans _ _ _ (card_run_kept _ _ K) (switch_read_kept _ _ _ R)).
  - exists m. split.
    + rewrite (sr_reads _ _ _ R), (cr_reads _ _ K). reflexivity.
    + intros k Hk. rewrite <- (card_run_sample _ _ (m + k) K). apply Hrel. exact Hk.
  - exists v, (core b3). split; [exact Ev|].
    rewrite (ol_csd _ _ (sr_core _ _ _ R)), C6, (ol_csd _ _ (ShowState_frame _)).
    rewrite C5, C4. reflexivity.
Qed.

(** One pass of [main]: the LED shows the lock bit at its end; a pass
    that found the button pressed ends on six released samples, with the
    buffer as [ReadCSD] last filled it. *)
Lemma main_pass_spec fuel b b' :
  main_pass fuel b = Some b' ->
  board_kept b b' /\ shows_lock b' /\
  ((exists k, (k < 6)%nat /\ sample b k <> SW_PRESSED) ->
   exists n, (1 <= n <= 6)%nat /\ switch_read b b' n) /\
  ((forall k, (k < 6)%nat -> sample b k = SW_PRESSED) ->
   (exists m,
      reads b' = (reads b + N.of_nat (6 + m + 6))%N /\
      (forall k, (k < 6)%nat -> sample b (6 + m + k) = SW_RELEASED)) /\
   (exists v w, ReadCSD v = (SDCARD_OK, w) /\ csd (core b') = csd w)).
Proof.
  unfold main_pass. intros H.
  pose proof (on_core_frame ShowState b ShowState_frame) as K1.
  destruct (on_core ShowState b) as [[] b1]. cbn [snd] in K1.
  destruct (ButtonIs_spec SW_PRESSED b1)
    as (r & b2 & n & E & Hn & R & L & _ & Hr & Hall & H6 & _).
  rewrite E in H. unfold nz in H.
  pose proof (switch_read_trans _ _ _ _ _ K1 R) as R2. cbn [Init.Nat.add] in R2.
  assert (Hs : forall k, sample b1 k = sample b k)
    by (intros k; apply (sample_shift _ _ _ _ K1)).
  destruct (Z.eqb_spec r 0) as [H0|H0]; cbn [negb] in H.
  - injection H as <-. split; [exact (switch_read_kept _ _ _ R2)|].
    split; [exact L|]. split.
    + intros _. exists n. split; [exact Hn|exact R2].
    + intros Hp. assert (H1 : r = 1); [|lia].
      apply Hall. intros k Hk. rewrite Hs. apply Hp. exact Hk.
  - assert (H1 : r = 1) by (destruct Hr; [contradiction|assumption]).
    rewrite (H6 H1) in R2.
    destruct (main_pressed_spec _ _ _ H) as (K & L' & (m & Hreads & Hrel) & Hread).
    split; [exact (board_kept_trans _ _ _ (switch_read_kept _ _ _ R2) K)|].
    split; [exact L'|]. split.
    + intros (k & Hk & Hne). contradiction Hne.
      rewrite <- Hs. apply (proj1 Hall H1). exact Hk.
    + intros _. split; [|exact Hread]. exists m. split.
      * rewrite Hreads, (sr_reads _ _ _ R2). lia.
      * intros k Hk. specialize (Hrel k Hk).
        rewrite (sample_shift _ _ _ _ R2) in Hrel.
        replace (6 + m + k)%nat with (6 + (m + k))%nat by lia. exact Hrel.
Qed.

(** A pass that does not find the button pressed ends, having read the
    button and nothing else. *)
Lemma main_pass_idle_run fuel b :
  (exists k, (k < 6)%nat /\ sample b k <> SW_PRESSED) ->
  exists b' n,
    main_pass fuel b = Some b' /\ (1 <= n <= 6)%nat /\
    switch_read b b' n /\ shows_lock b'.
Proof.
  intros (k & Hk & Hne). unfold main_pass.
  pose proof (on_core_frame ShowState b ShowState_frame) as K1.
  destruct (on_core ShowState b) as [[] b1]. cbn [snd] in K1.
  destruct (ButtonIs_spec SW_PRESSED b1)
    as (r & b2 & n & E & Hn & R & L & _ & Hr & Hall & _).
  rewrite E.
  pose proof (switch_read_trans _ _ _ _ _ K1 R) as R2. cbn [Init.Nat.add] in R2.
  assert (H0 : r = 0).
  { destruct Hr as [H0|H1]; [exact H0|]. contradiction Hne.
    rewrite <- (sample_shift _ _ _ _ K1 : sample b1 k = sample b k).
    apply (proj1 Hall H1). exact Hk. }
  rewrite H0. change (nz 0) with false. cbv iota.
  exists b2, n. split; [reflexivity|]. split; [exact Hn|]. split; [exact R2|exact L].
Qed.

Lemma main_loop_spec passes fuel : forall b b',
  main_loop passes fuel b = Some b' ->
  board_kept b b' /\ ((0 < passes)%nat -> shows_lock b').
Proof.
  induction passes as [|n IH]; intros b b' H; cbn [main_loop] in H.
  - injection H as <-. split; [apply board_kept_refl|lia].
  - destruct (main_pass fuel b) as [b1|] eqn:E; [|discriminate H].
    destruct (main_pass_spec _ _ _ E) as (K1 & L1 & _).
    destruct (IH _ _ H) as (K2 & L2).
    split; [exact (board_kept_trans _ _ _ K1 K2)|]. intros _.
    destruct n as [|n]; [|apply L2; lia].
    cbn [main_loop] in H. injection H as <-. exact L1.
Qed.

Lemma setup_ddr d k :
  0 <= k < 8 ->
  Z.testbit
    (u8 (Z.lor (u8 (Z.lor d (Z.lor (Z.lor (Z.shiftl 1 CS_BIT) (Z.shiftl 1 MOSI_BIT))
                                  (Z.shiftl 1 SCK_BIT)))) LEDSW_MASK)) k
  = (Z.testbit d k || (k =? CS_BIT) || (k =? MOSI_BIT) || (k =? SCK_BIT)
     || (k =? LEDSW_BIT)).
Proof.
  intros Hk. unfold LEDSW_MASK, CS_BIT, MOSI_BIT, SCK_BIT, LEDSW_BIT.
  rewrite u8_testbit, Z.lor_spec, u8_testbit, !Z.lor_spec by lia.
  change (Z.shiftl 1 3) with (2 ^ 3). change (Z.shiftl 1 0) with (2 ^ 0).
  change (Z.shiftl 1 2) with (2 ^ 2). change (Z.shiftl 1 4) with (2 ^ 4).
  rewrite !Z.pow2_bits_eqb by lia.
  rewrite (Z.eqb_sym 3), (Z.eqb_sym 0), (Z.eqb_sym 2), (Z.eqb_sym 4).
  rewrite !orb_assoc. reflexivity.
Qed.

Lemma main_setup_spec b :
  length (crctable (core b)) = 256%nat ->
  exists b1,
    main_setup b = (tt, b1) /\
    crctable (core b1) = CRC7_TABLE /\
    miso (core b1) = miso (core b) /\
    csd (core b1) = csd (core b) /\
    trace (core b1) = trace (core b) /\
    ledsw b1 = ledsw b /\ reads b1 = reads b /\
    (forall k, 0 <= k < 8 ->
       Z.testbit (DDRB b1) k
       = (Z.testbit (DDRB b) k || (k =? CS_BIT) || (k =? MOSI_BIT) || (k =? SCK_BIT)
          || (k =? LEDSW_BIT))).
Proof.
  intros Hlen. unfold main_setup, LEDSW_AS_LED, ddr_set.
  unfold bindB, on_core, port_set, Deselect, port_set, modify.
  cbn [core set_core DDRB ledsw reads set_DDRB].
  rewrite GenerateCRCTable_spec by exact Hlen.
  cbn [core set_core DDRB ledsw reads set_DDRB].
  match goal with
  | |- context [BlinkLED PATTERN_BOOTING ?w] =>
      pose proof (BlinkLED_frame PATTERN_BOOTING w) as B;
      destruct (BlinkLED PATTERN_BOOTING w) as [[] w1]
  end.
  cbn [snd] in B.
  eexists. split; [reflexivity|].
  cbn [core set_core DDRB ledsw reads set_DDRB].
  rewrite (ol_crctable _ _ B), (ol_miso _ _ B), (ol_csd _ _ B).
  unfold trace. rewrite (ol_wire _ _ B).
  cbn [crctable miso csd wire set_crctable set_PORTB].
  repeat (split; [reflexivity|]).
  intros k Hk. apply setup_ddr. exact Hk.
Qed.

Lemma main_init_spec fuel b b' :
  length (crctable (core b)) = 256%nat ->
  main_init fuel b = Some b' ->
  crctable (core b') = CRC7_TABLE /\
  miso (core b') = miso (core b) /\
  ledsw b' = ledsw b /\ reads b' = reads b /\
  (forall k, 0 <= k < 8 ->
     Z.testbit (DDRB b') k
     = (Z.testbit (DDRB b) k || (k =? CS_BIT) || (k =? MOSI_BIT) || (k =? SCK_BIT)
        || (k =? LEDSW_BIT))) /\
  cs_high (core b') = false /\
  (exists v, ReadCSD v = (SDCARD_OK, core b')).
Proof.
  intros Hlen H. unfold main_init in H.
  destruct (main_setup_spec b Hlen) as (b1 & E & Hc & Hm & _ & _ & Hs & Hr & Hd).
  rewrite E in H.
  destruct (ReadState_board_run _ _ _ H) as ([D S R M C] & Hcs & Hlast).
  split; [congruence|]. split; [congruence|]. split; [congruence|].
  split; [congruence|]. split; [|split; [exact Hcs|exact Hlast]].
  intros k Hk. rewrite D. apply Hd. exact Hk.
Qed.

(** With no card the first loop of [ReadState] does not end. *)
Lemma SDInit_retry_no_card fuel r w :
  r <> SDCARD_OK -> miso w = no_card ->
  retry_loop fuel PATTERN_LOADING SDInit r w = None.
Proof.
  intros Hr Hw.
  apply (retry_loop_stuck (fun v => miso v = no_card) PATTERN_LOADING SDInit).
  - intros v Hv. rewrite (ol_miso _ _ (BlinkLED_frame PATTERN_LOADING v)). exact Hv.
  - intros v Hv. split.
    + rewrite (SDInit_no_card v Hv). discriminate.
    + rewrite (sb_miso _ _ (SDInit_buffers v)). exact Hv.
  - exact Hr.
  - exact Hw.
Qed.

(** * Further properties of the firmware *)

(** ** The bus primitives *)

(** X1. [Xchg] clocks exactly eight pulses.  The byte it returns is made
    of the eight levels read on MISO, first level in bit 7, whatever [c]
    was; the card sees the low eight bits of [c], bit 7 first, with CS
    held where it was.  On return SCK is low, and no port line other than
    MOSI and SCK has moved (the LED in particular); no memory is touched. *)
Theorem Xchg_exchanges_a_byte c w :
  fst (Xchg c w) = rx_byte (miso w) (pulses w) /\
  0 <= fst (Xchg c w) < 256 /\
  trace (snd (Xchg c w)) = trace w ++ tx (cs_high w) c /\
  tx (cs_high w) c = tx (cs_high w) (c mod 256) /\
  pulses (snd (Xchg c w)) = (pulses w + 8)%N /\
  Z.testbit (PORTB (snd (Xchg c w))) SCK_BIT = false /\
  (forall k, 0 <= k < 8 -> k <> MOSI_BIT -> k <> SCK_BIT ->
     Z.testbit (PORTB (snd (Xchg c w))) k = Z.testbit (PORTB w) k) /\
  same_memory w (snd (Xchg c w)).
Proof.
  destruct (Xchg_spec c w) as (R & _ & P & _ & S).
  destruct (Xchg_moved c w) as (_ & Mv & _).
  destruct (Xchg_loop_port 8 c w) as (O & K).
  split; [|split; [|split; [|split; [|split; [|split; [|split]]]]]].
  - rewrite R. unfold incoming. f_equal. lia.
  - rewrite R. apply incoming_range.
  - exact (mv_trace _ _ _ _ Mv).
  - symmetry. apply tx_mod.
  - exact P.
  - apply K. lia.
  - exact O.
  - exact S.
Qed.

(** X2. [Select] and [Deselect] move the CS line only (low to select, high
    to deselect): every other line of port B keeps its level, nothing is
    clocked and no memory is touched. *)
Theorem Select_Deselect_only_CS w :
  (cs_high (snd (Select w)) = false /\
   cs_high (snd (Deselect w)) = true) /\
  (forall k, 0 <= k < 8 -> k <> CS_BIT ->
     Z.testbit (PORTB (snd (Select w))) k = Z.testbit (PORTB w) k /\
     Z.testbit (PORTB (snd (Deselect w))) k = Z.testbit (PORTB w) k) /\
  moved w (snd (Select w)) [] 0 /\
  moved w (snd (Deselect w)) [] 0.
Proof.
  destruct (Select_moved w) as (Ms & Cs).
  destruct (Deselect_moved w) as (Md & Cd).
  split; [split; assumption|]. split; [|split; assumption].
  intros k Hk Hne. unfold CS_BIT in Hne.
  unfold Select, Deselect, port_clear, port_set, modify, CS_BIT.
  cbn [snd PORTB set_PORTB].
  rewrite !u8_testbit, Z.land_spec, Z.lor_spec, Z.lnot_spec by lia.
  change (Z.shiftl 1 3) with (2 ^ 3). rewrite Z.pow2_bits_eqb by lia.
  destruct (Z.eqb_spec 3 k); [lia|]. cbn.
  rewrite andb_true_r, orb_false_r. split; reflexivity.
Qed.

(** ** The CRC7 engine *)

(** X3. [GenerateCRCTable] changes nothing but [crctable]; it leaves 256
    entries, all below 128 (seven-bit remainders) with entry 0 equal to 0,
    and running it again changes nothing. *)
Theorem GenerateCRCTable_table w :
  length (crctable w) = 256%nat ->
  only_crctable w (snd (GenerateCRCTable w)) /\
  length (crctable (snd (GenerateCRCTable w))) = 256%nat /\
  Forall (fun t => 0 <= t < 128) (crctable (snd (GenerateCRCTable w))) /\
  aget (crctable (snd (GenerateCRCTable w))) 0 = 0 /\
  GenerateCRCTable (snd (GenerateCRCTable w)) = (tt, snd (GenerateCRCTable w)).
Proof.
  intros Hlen. rewrite (GenerateCRCTable_spec w Hlen). cbn [snd].
  split; [reflexivity|]. split; [reflexivity|].
  split; [apply CRC7_TABLE_small|]. split; [reflexivity|].
  rewrite GenerateCRCTable_spec by reflexivity. reflexivity.
Qed.

Lemma GenerateCRCTable_table_witness :
  length (crctable (power_on no_card)) = 256%nat /\
  GenerateCRCTable (snd (GenerateCRCTable (power_on no_card)))
  = (tt, snd (GenerateCRCTable (power_on no_card))).
Proof.
  split; [reflexivity|].
  apply (GenerateCRCTable_table (power_on no_card) eq_refl).
Defined.

(** X4. With the generated table, a running CRC below 128 and a byte, the
    index [AddByteToCRC] reads at is inside the table (below 256), the
    value it returns is again below 128, and the world is left as it was:
    folding bytes never reads past the table. *)
Theorem AddByteToCRC_in_bounds crc b w :
  crctable w = CRC7_TABLE -> 0 <= crc < 128 -> is_byte b ->
  0 <= Z.lxor (Z.shiftl crc 1) b < 256 /\
  0 <= fst (AddByteToCRC crc b w) < 128 /\
  snd (AddByteToCRC crc b w) = w.
Proof.
  intros Ht Hc [Hb0 Hb1]. split; [|split; [|reflexivity]].
  - rewrite Z.shiftl_mul_pow2 by lia. change (2 ^ 1) with 2.
    assert (H0 : 0 <= Z.lxor (crc * 2) b) by (apply Z.lxor_nonneg; lia).
    split; [exact H0|].
    destruct (Z.eq_dec (Z.lxor (crc * 2) b) 0) as [->|Hne]; [lia|].
    change 256 with (2 ^ 8). apply Z.log2_lt_pow2; [lia|].
    pose proof (Z.log2_lxor (crc * 2) b ltac:(lia) ltac:(lia)) as L.
    assert (Z.log2 (crc * 2) < 8).
    { destruct (Z.eq_dec crc 0) as [->|]; [reflexivity|].
      apply Z.log2_lt_pow2; [lia|]. change (2 ^ 8) with 256. lia. }
    assert (Z.log2 b < 8).
    { destruct (Z.eq_dec b 0) as [->|]; [reflexivity|].
      apply Z.log2_lt_pow2; [lia|]. change (2 ^ 8) with 256. lia. }
    lia.
  - unfold AddByteToCRC, gets. cbn [fst]. rewrite Ht.
    apply (aget_table_small (fun t => 0 <= t < 128)); [apply CRC7_TABLE_small|lia].
Qed.

Lemma AddByteToCRC_in_bounds_witness :
  crctable (booted no_card) = CRC7_TABLE /\ 0 <= 0x4a < 128 /\ is_byte 0xff /\
  0 <= fst (AddByteToCRC 0x4a 0xff (booted no_card)) < 128.
Proof.
  assert (Ht : crctable (booted no_card) = CRC7_TABLE)
    by (rewrite booted_eq; reflexivity).
  assert (Hc : 0 <= 0x4a < 128) by lia.
  assert (Hb : is_byte 0xff) by (unfold is_byte; lia).
  split; [exact Ht|]. split; [exact Hc|]. split; [exact Hb|].
  exact (proj1 (proj2 (AddByteToCRC_in_bounds 0x4a 0xff (booted no_card) Ht Hc Hb))).
Defined.

(** ** The command engine *)

(** X5. For a command with bit 7 clear, [SD_send_command] returns the last
    byte it polled: it polls at least once and at most ten times, every
    byte polled before the last had bit 7 set, and it stops before the
    tenth poll only on a byte with bit 7 clear.  A returned value with bit
    7 set therefore means that all ten polls were used. *)
Theorem SD_send_command_response command arg w :
  Z.land command 0x80 = 0 ->
  let r := fst (SD_send_command command arg w) in
  let n := response_polls w in
  (1 <= n <= 10)%nat /\
  r = incoming w (8 + n - 1) /\
  0 <= r < 256 /\
  (forall j, (S j < n)%nat -> Z.land (incoming w (8 + j)) 0x80 <> 0) /\
  ((n < 10)%nat -> Z.land r 0x80 = 0) /\
  (Z.land r 0x80 <> 0 -> n = 10%nat).
Proof.
  intros Hp. cbv zeta.
  assert (A : nz (Z.land command 0x80) = false) by (rewrite Hp; reflexivity).
  destruct (SD_send_command_spec command arg w A) as (w1 & E & _).
  rewrite E. cbn [fst]. unfold exchange_response.
  pose proof (polls_pos 10 (fun r => Z.land r 0x80 =? 0) (incoming w) 8 ltac:(lia)) as Pp.
  pose proof (polls_le 10 (fun r => Z.land r 0x80 =? 0) (incoming w) 8) as Ple.
  pose proof (polls_last 10 (fun r => Z.land r 0x80 =? 0) (incoming w) 8) as Pl.
  fold (response_polls w) in Pp, Ple, Pl.
  assert (Hstop : (response_polls w < 10)%nat ->
                  Z.land (incoming w (8 + response_polls w - 1)) 0x80 = 0).
  { intros Hn. apply Z.eqb_eq. apply Pl. lia. }
  split; [lia|]. split; [reflexivity|]. split; [apply incoming_range|].
  split; [|split; [exact Hstop|]].
  - intros j Hj.
    pose proof (polls_before 10 (fun r => Z.land r 0x80 =? 0) (incoming w) 8 j Hj) as B.
    apply Z.eqb_neq in B. exact B.
  - intros Hr.
    destruct (Nat.eq_dec (response_polls w) 10%nat) as [H10|H10]; [exact H10|].
    contradiction Hr. apply Hstop. lia.
Qed.

Lemma SD_send_command_response_witness :
  Z.land SD_GO_IDLE 0x80 = 0 /\
  fst (SD_send_command SD_GO_IDLE 0 (power_on idle_card))
  = incoming (power_on idle_card) (8 + response_polls (power_on idle_card) - 1).
Proof.
  split; [reflexivity|].
  exact (proj1 (proj2 (SD_send_command_response SD_GO_IDLE 0
                         (power_on idle_card) eq_refl))).
Defined.

(** X6. With no card on the bus (MISO held high) [SD_send_command] returns
    0xFF for every command, after all ten response polls; for an advanced
    command the call ends with the CMD55 exchange, the command itself not
    being sent. *)
Theorem SD_send_command_no_card command arg w :
  miso w = no_card ->
  fst (SD_send_command command arg w) = 0xff /\
  response_polls w = 10%nat /\
  (Z.land command 0x80 <> 0 ->
   SD_send_command command arg w = SD_send_command CMD55 0 w).
Proof.
  intros Hw. split; [apply (no_card_response command arg w Hw)|]. split.
  - unfold response_polls. apply polls_none. intros j _.
    rewrite (incoming_no_card _ _ Hw). reflexivity.
  - intros Ha. rewrite (SD_send_command_adv _ _ _ (nz_true _ Ha)).
    pose proof (proj1 (no_card_response CMD55 0 w Hw)) as R.
    destruct (SD_send_command CMD55 0 w) as [r w1]. cbn [fst] in R.
    rewrite R. reflexivity.
Qed.

Lemma SD_send_command_no_card_witness :
  miso (power_on no_card) = no_card /\
  fst (SD_send_command SD_ADV_INIT (Z.shiftl 1 30) (power_on no_card)) = 0xff.
Proof.
  split; [reflexivity|].
  exact (proj1 (SD_send_command_no_card SD_ADV_INIT (Z.shiftl 1 30)
                  (power_on no_card) eq_refl)).
Defined.

(** X7. A call of [SD_send_command] touches no memory and clocks a bounded
    number of bytes: between 9 and 38, and at most 19 for a command with
    bit 7 clear. *)
Theorem SD_send_command_footprint command arg w :
  same_memory w (snd (SD_send_command command arg w)) /\
  pulses (snd (SD_send_command command arg w))
  = (pulses w + 8 * N.of_nat (command_len command w))%N /\
  (9 <= command_len command w <= 38)%nat /\
  (Z.land command 0x80 = 0 -> (command_len command w <= 19)%nat).
Proof.
  destruct (SD_send_command_moved command arg w) as (Mv & _).
  split; [exact (mv_mem _ _ _ _ Mv)|]. split; [exact (mv_pulses _ _ _ _ Mv)|].
  assert (B : forall c v, (9 <= exchange_len c v <= 19)%nat).
  { intros c v. unfold exchange_len.
    pose proof (polls_pos 10 (fun r => Z.land r 0x80 =? 0) (incoming v) 8 ltac:(lia)).
    pose proof (polls_le 10 (fun r => Z.land r 0x80 =? 0) (incoming v) 8).
    fold (response_polls v) in *. destruct (keeps_selected c); lia. }
  unfold command_len. split.
  - destruct (nz (Z.land command 0x80)); [|pose proof (B command w); lia].
    pose proof (B CMD55 w).
    destruct (fst (SD_send_command CMD55 0 w) >? 1); [lia|].
    pose proof (B (Z.land command 0x7f) (snd (SD_send_command CMD55 0 w))). lia.
  - intros Hp. rewrite Hp. change (nz 0) with false. cbv iota. apply B.
Qed.

(** X8. [SD_wait_for_data] polls at least once and at most 100 times and
    returns the last byte polled, all earlier ones being 0xFF.  It returns
    0xFF exactly when the card sent 0xFF a hundred times in a row. *)
Theorem SD_wait_for_data_result w :
  let r := fst (SD_wait_for_data w) in
  let n := data_polls w in
  (1 <= n <= 100)%nat /\
  r = incoming w (n - 1) /\
  (forall j, (S j < n)%nat -> incoming w j = 0xff) /\
  (r = 0xff <-> forall j, (j < 100)%nat -> incoming w j = 0xff) /\
  moved w (snd (SD_wait_for_data w)) (tx_bytes (cs_high w) (replicate n 0xff)) n.
Proof.
  cbv zeta. unfold SD_wait_for_data.
  destruct (poll_chain w w [] 0 (cs_high w) (moved_refl w) eq_refl 100 0xff
              (fun r => negb (r =? 0xff)) 0) as (w' & E & Mv & _).
  cbn zeta in E, Mv. fold (data_polls w) in E, Mv. rewrite E. cbn [fst snd].
  pose proof (polls_pos 100 (fun r => negb (r =? 255)) (incoming w) 0 ltac:(lia)) as Pp.
  pose proof (polls_le 100 (fun r => negb (r =? 255)) (incoming w) 0) as Ple.
  pose proof (polls_last 100 (fun r => negb (r =? 255)) (incoming w) 0) as Pl.
  fold (data_polls w) in Pp, Ple, Pl. cbn [Init.Nat.add] in *.
  assert (Hbefore : forall j, (S j < data_polls w)%nat -> incoming w j = 255).
  { intros j Hj.
    pose proof (polls_before 100 (fun r => negb (r =? 255)) (incoming w) 0 j Hj) as B.
    cbn [Init.Nat.add] in B. apply negb_false_iff, Z.eqb_eq in B. exact B. }
  destruct (data_polls w) as [|p] eqn:Ep; [lia|].
  split; [lia|]. split; [reflexivity|]. split; [exact Hbefore|]. split; [|exact Mv].
  split.
  - intros Hr j Hj.
    assert (S p = 100%nat).
    { destruct (Nat.eq_dec (S p) 100%nat) as [H|H]; [exact H|].
      specialize (Pl ltac:(lia)). rewrite Hr in Pl. discriminate Pl. }
    destruct (Nat.eq_dec j p) as [->|Hne].
    + replace (S p - 1)%nat with p in Hr by lia. exact Hr.
    + apply Hbefore. lia.
  - intros Hall. apply Hall. lia.
Qed.

(** ** Card initialisation *)

(** X9. [SDInit] leaves the buffers ([csd], [crctable]) as they were and
    forgets the card type it is entered with: a run that returns
    NotDetected leaves [sdtype] unknown, every run leaves one of the three
    known values, and SD (version 1) is recorded exactly when the run
    returns Ok, the interface-condition response is not 0x01 and the
    read-OCR response is 0x01. *)
Theorem SDInit_frame w :
  let w1 := snd (SDInit_go_idle w) in
  let r8 := fst (SD_send_command SD_SEND_IF_COND 0x1aa w1) in
  let w2 := snd (SD_send_command SD_SEND_IF_COND 0x1aa w1) in
  let r58 := fst (SD_send_command SD_READ_OCR 0 w2) in
  same_buffers w (snd (SDInit w)) /\
  (fst (SDInit w) = SDCARD_NOT_DETECTED ->
   sdtype (snd (SDInit w)) = SDTYPE_UNKNOWN) /\
  (sdtype (snd (SDInit w)) = SDTYPE_UNKNOWN \/
   sdtype (snd (SDInit w)) = SDTYPE_SD \/
   sdtype (snd (SDInit w)) = SDTYPE_SDHC) /\
  (sdtype (snd (SDInit w)) = SDTYPE_SD <->
   fst (SDInit w) = SDCARD_OK /\ r8 <> 0x01 /\ r58 = 0x01).
Proof.
  cbv zeta. split; [apply SDInit_buffers|].
  rewrite SDInit_unfold.
  pose proof (SDInit_go_idle_sdtype w) as U.
  destruct (SDInit_go_idle w) as [response w1]. cbn [fst snd] in *.
  destruct (negb (response =? 1)).
  - cbn [fst snd]. rewrite U.
    split; [reflexivity|]. split; [left; reflexivity|].
    split; [discriminate|]. intros (H & _). discriminate H.
  - destruct (SDInit_detect_spec w1) as (w' & Ed & Et).
    rewrite Ed. cbn [fst snd]. rewrite Et, U. clear Ed Et.
    split; [discriminate|].
    destruct (Z.eqb_spec (fst (SD_send_command SD_SEND_IF_COND 426 w1)) 1) as [H8|H8].
    + split; [right; right; reflexivity|].
      split; [discriminate|]. intros (_ & H & _). contradiction.
    + destruct (Z.eqb_spec
                  (fst (SD_send_command SD_READ_OCR 0
                          (snd (SD_send_command SD_SEND_IF_COND 426 w1)))) 1)
        as [H58|H58].
      * split; [right; left; reflexivity|]. split; [|reflexivity].
        intros _. split; [reflexivity|]. split; [exact H8|exact H58].
      * split; [left; reflexivity|].
        split; [discriminate|]. intros (_ & _ & H). contradiction.
Qed.

(** X10. With no card on the bus (MISO held high) [SDInit] returns
    NotDetected and leaves [sdtype] unknown; the bus is as silent
    afterwards as before. *)
Theorem SDInit_without_card w :
  miso w = no_card ->
  fst (SDInit w) = SDCARD_NOT_DETECTED /\
  sdtype (snd (SDInit w)) = SDTYPE_UNKNOWN /\
  miso (snd (SDInit w)) = no_card.
Proof.
  intros Hw. pose proof (SDInit_no_card w Hw) as R.
  split; [exact R|]. split.
  - revert R. rewrite SDInit_unfold.
    pose proof (SDInit_go_idle_sdtype w) as U.
    destruct (SDInit_go_idle w) as [response w1]. cbn [fst snd] in *.
    destruct (negb (response =? 1)); [intros _; exact U|].
    destruct (SDInit_detect_spec w1) as (w' & Ed & _). rewrite Ed.
    discriminate.
  - rewrite (sb_miso _ _ (SDInit_buffers w)). exact Hw.
Qed.

Lemma SDInit_without_card_witness :
  miso (power_on no_card) = no_card /\
  fst (SDInit (power_on no_card)) = SDCARD_NOT_DETECTED.
Proof.
  split; [reflexivity|].
  exact (proj1 (SDInit_without_card (power_on no_card) eq_refl)).
Defined.

(** ** Reading and writing the CSD *)

(** X11. [ReadCSD] returns with the card still selected (CS low), whatever
    it returns; it changes neither [sdtype] nor [crctable] and spends no
    delay; and the buffer it leaves has 16 entries, all bytes: on failure
    the 16 zeroes it stored before sending the command, the old contents
    being lost. *)
Theorem ReadCSD_frame w :
  length (csd w) = 16%nat ->
  cs_high (snd (ReadCSD w)) = false /\
  sdtype (snd (ReadCSD w)) = sdtype w /\
  crctable (snd (ReadCSD w)) = crctable w /\
  elapsed_ms (snd (ReadCSD w)) = elapsed_ms w /\
  length (csd (snd (ReadCSD w))) = 16%nat /\
  Forall is_byte (csd (snd (ReadCSD w))) /\
  (fst (ReadCSD w) <> SDCARD_OK -> csd (snd (ReadCSD w)) = replicate 16 0).
Proof.
  intros Hlen.
  destruct (ReadCSD_selected w) as (C & S & T & _ & El).
  destruct (ReadCSD_csd w Hlen) as (L & B).
  split; [exact C|]. split; [exact S|]. split; [exact T|]. split; [exact El|].
  split; [exact L|]. split; [exact B|].
  destruct (ReadCSD_run w Hlen) as (w1 & _ & w' & Erun & _).
  rewrite Erun. cbn [fst snd csd set_csd].
  destruct (incoming w1 (data_polls w1 - 1) =? 254); [|reflexivity].
  intros H. contradiction H. reflexivity.
Qed.

Lemma ReadCSD_frame_witness :
  length (csd (booted no_card)) = 16%nat /\
  cs_high (snd (ReadCSD (booted no_card))) = false.
Proof.
  assert (H : length (csd (booted no_card)) = 16%nat)
    by apply (wf_csd_len _ (wf_booted _)).
  split; [exact H|].
  exact (proj1 (ReadCSD_frame (booted no_card) H)).
Defined.

(** X12. [WriteCSD] touches no memory (the buffer it sends is left as it
    is) and returns with the card still selected (CS low); what it
    returns is Ok, Timeout or ReadWriteFail, the last one exactly when
    the response to the program-CSD command is not 0. *)
Theorem WriteCSD_frame w :
  same_memory w (snd (WriteCSD w)) /\
  cs_high (snd (WriteCSD w)) = false /\
  (fst (WriteCSD w) = SDCARD_OK \/ fst (WriteCSD w) = SDCARD_TIMEOUT \/
   fst (WriteCSD w) = SDCARD_RWFAIL) /\
  (fst (WriteCSD w) = SDCARD_RWFAIL <->
   fst (SD_send_command SD_PROGRAM_CSD 0 w) <> 0).
Proof.
  split; [apply WriteCSD_memory|]. split; [apply WriteCSD_selected|].
  rewrite WriteCSD_unfold.
  destruct (SD_send_command_spec SD_PROGRAM_CSD 0 w eq_refl) as (w1 & E & Mv & C).
  rewrite E. cbn [fst]. change (negb (keeps_selected SD_PROGRAM_CSD)) with false in C.
  unfold nz. destruct (Z.eqb_spec (exchange_response w) 0) as [H0|H0]; cbn [negb].
  - destruct (WriteCSD_data_phase w1 C) as (w' & Erun & _ & _).
    rewrite Erun. cbn [fst].
    destruct (nz (incoming w1 _)).
    + split; [left; reflexivity|]. split; [discriminate|]. intros H. contradiction.
    + split; [right; left; reflexivity|]. split; [discriminate|].
      intros H. contradiction.
  - cbn [fst]. split; [right; right; reflexivity|].
    split; [intros _; exact H0|reflexivity].
Qed.

(** ** The LED *)

(** X13. [BlinkLED] moves the LED line only and takes 35 ms per bit shown,
    between 35 ms and 1120 ms in all.  It stops after the lowest set bit
    of the pattern: with that bit at position [j] it takes [35 * (32 - j)]
    ms and leaves the LED on; a zero pattern takes 35 ms and leaves the
    LED off. *)
Theorem BlinkLED_duration pattern w :
  0 <= pattern < 2 ^ 32 ->
  only_led w (snd (BlinkLED pattern w)) /\
  elapsed_ms w + 35 <= elapsed_ms (snd (BlinkLED pattern w)) <= elapsed_ms w + 1120 /\
  (pattern = 0 ->
   elapsed_ms (snd (BlinkLED pattern w)) = elapsed_ms w + 35 /\
   led_on (snd (BlinkLED pattern w)) = false) /\
  (forall j, 0 <= j < 32 -> Z.testbit pattern j = true -> pattern mod 2 ^ j = 0 ->
     elapsed_ms (snd (BlinkLED pattern w)) = elapsed_ms w + 35 * (32 - j) /\
     led_on (snd (BlinkLED pattern w)) = true).
Proof.
  intros Hp. split; [apply BlinkLED_frame|]. split; [|split].
  - pose proof (BlinkLED_loop_time 32 pattern w ltac:(lia)) as T.
    unfold BlinkLED. lia.
  - intros ->. unfold BlinkLED. rewrite BlinkLED_loop_unfold.
    destruct (BlinkLED_pass 0 w) as (w1 & E & _ & L & T).
    rewrite E. cbn [snd]. split; [exact T|exact L].
  - intros j Hj Hb Hlow. unfold BlinkLED.
    apply BlinkLED_loop_run; [exact Hp|exact Hj|exact Hb|exact Hlow|lia].
Qed.

Lemma BlinkLED_duration_witness :
  0 <= PATTERN_WERROR < 2 ^ 32 /\
  elapsed_ms (snd (BlinkLED PATTERN_WERROR (power_on no_card))) = 1120 /\
  led_on (snd (BlinkLED PATTERN_WERROR (power_on no_card))) = true.
Proof.
  assert (Hp : 0 <= PATTERN_WERROR < 2 ^ 32) by (unfold PATTERN_WERROR; lia).
  split; [exact Hp|].
  destruct (BlinkLED_duration PATTERN_WERROR (power_on no_card) Hp) as (_ & _ & _ & H).
  apply (H 0); [lia|reflexivity|reflexivity].
Defined.

(** X14. [ShowState] leaves the LED on exactly when the lock bit of
    [csd[14]] is set; it takes 35 ms and moves nothing but the LED line. *)
Theorem ShowState_shows_lock w :
  led_on (snd (ShowState w)) = Z.testbit (aget (csd w) 14) 4 /\
  elapsed_ms (snd (ShowState w)) = elapsed_ms w + 35 /\
  only_led w (snd (ShowState w)).
Proof.
  unfold ShowState, CardIsLocked, bind, gets.
  change LOCK_BIT_MASK with (2 ^ 4). rewrite nz_land_pow2 by lia.
  destruct (Z.testbit (aget (csd w) 14) 4).
  - destruct (BlinkLED_loop_run 32 PATTERN_LOCKED 31 w) as (T & L);
      [unfold PATTERN_LOCKED; lia|lia|reflexivity|reflexivity|lia|].
    fold (BlinkLED PATTERN_LOCKED) in T, L.
    split; [exact L|]. split; [rewrite T; lia|apply BlinkLED_frame].
  - unfold BlinkLED at 1 2. rewrite BlinkLED_loop_unfold.
    destruct (BlinkLED_pass PATTERN_UNLOCKED w) as (w1 & E & O & L & T).
    rewrite E. cbn [snd]. split; [exact L|]. split; [exact T|].
    apply BlinkLED_frame.
Qed.

(** ** The lock bit on the wire *)



(** ** Reading the card's state *)

(** X16. With no card on the bus (MISO held high) [ReadState] never
    returns: it stays in its first loop, blinking the loading pattern and
    calling [SDInit] again, whatever bound is put on the number of
    retries. *)
Theorem ReadState_without_card w :
  miso w = no_card -> forall fuel, ReadState fuel w = None.
Proof.
  intros Hw fuel. unfold ReadState.
  pose proof (SDInit_no_card w Hw) as R.
  pose proof (sb_miso _ _ (SDInit_buffers w)) as M.
  destruct (SDInit w) as [r w1]. cbn [fst snd] in R, M.
  rewrite SDInit_retry_no_card; [reflexivity| |].
  - rewrite R. discriminate.
  - rewrite M. exact Hw.
Qed.

Lemma ReadState_without_card_witness :
  miso (booted no_card) = no_card /\ ReadState 1000 (booted no_card) = None.
Proof.
  assert (H : miso (booted no_card) = no_card) by (rewrite booted_eq; reflexivity).
  split; [exact H|].
  exact (ReadState_without_card (booted no_card) H 1000%nat).
Defined.

(** X17. When [ReadState] returns, the last thing it did was a call of
    [ReadCSD] that returned Ok: the card is still selected (CS low), and
    neither the CRC table nor the card's line has changed.  A larger
    bound on the retries gives the same final state. *)
Theorem ReadState_returns fuel w w' :
  ReadState fuel w = Some w' ->
  (exists v, ReadCSD v = (SDCARD_OK, w')) /\
  cs_high w' = false /\
  crctable w' = crctable w /\
  miso w' = miso w /\
  (forall fuel', (fuel <= fuel')%nat -> ReadState fuel' w = Some w').
Proof.
  intros H. destruct (ReadState_frame _ _ _ H) as (Hlast & Hs & Hc & Hm).
  split; [exact Hlast|]. split; [exact Hs|]. split; [exact Hc|]. split; [exact Hm|].
  intros fuel' Hle. unfold ReadState in *.
  destruct (SDInit w) as [r w1].
  destruct (retry_loop fuel PATTERN_LOADING SDInit r w1) as [w2|] eqn:E1;
    [|discriminate H].
  rewrite (retry_loop_mono _ _ _ _ _ _ E1 fuel' Hle).
  destruct (ReadCSD w2) as [r' w3].
  apply (retry_loop_mono _ _ _ _ _ _ H fuel' Hle).
Qed.

(** From reset, with a card that reports the lock bit set. *)
Lemma ReadState_returns_witness :
  exists w',
    ReadState 0 (booted locked_card) = Some w' /\
    cs_high w' = false /\
    aget (csd w') 14 = 0x10.
Proof.
  destruct (ReadState 0 (booted locked_card)) as [w'|] eqn:E;
    [|vm_compute in E; discriminate E].
  exists w'. split; [reflexivity|].
  split; [exact (proj1 (proj2 (ReadState_returns _ _ _ E)))|].
  vm_compute in E. injection E as <-. reflexivity.
Defined.

(** ** The push button *)

(** X18. [ReadSwitchOnce] takes one sample of the shared pin while the pin
    is an input, whatever its direction was on entry, and returns 1 when
    the sample is low (button pressed) and 0 otherwise.  On return the pin
    is an output again and the LED is on exactly when the lock bit of
    [csd[14]] is set, whatever the LED showed before; no other pin, no
    delay and nothing of the SD engine is touched. *)
Theorem ReadSwitchOnce_reads_button b :
  fst (ReadSwitchOnce b) = (if ledsw b (reads b) then 0 else 1) /\
  reads (snd (ReadSwitchOnce b)) = (reads b + 1)%N /\
  Z.testbit (DDRB (snd (ReadSwitchOnce b))) LEDSW_BIT = true /\
  led_on (core (snd (ReadSwitchOnce b))) = Z.testbit (aget (csd (core b)) 14) 4 /\
  (forall k, 0 <= k < 8 -> k <> LEDSW_BIT ->
     Z.testbit (DDRB (snd (ReadSwitchOnce b))) k = Z.testbit (DDRB b) k) /\
  only_led (core b) (core (snd (ReadSwitchOnce b))) /\
  elapsed_ms (core (snd (ReadSwitchOnce b))) = elapsed_ms (core b).
Proof.
  destruct (ReadSwitchOnce_spec b) as (b' & E & [O S R D] & (Lo & Ll) & T).
  rewrite E. cbn [fst snd].
  split; [unfold sample; rewrite N.add_0_r; reflexivity|].
  split; [rewrite R; reflexivity|]. split; [exact Lo|].
  split; [rewrite Ll, (ol_csd _ _ O); reflexivity|].
  split; [exact D|]. split; [exact O|exact T].
Qed.

(** X19. [ButtonIs] returns 1 exactly when six samples in a row, taken
    100 ms apart, show the state asked for, and 0 otherwise.  It stops at
    the first sample that differs: having taken [n] samples it has spent
    [100 * (n - 1)] ms, so a match costs 500 ms and a first sample that
    differs costs nothing.  The LED shows the lock bit on return. *)
Theorem ButtonIs_debounced state b :
  let r := fst (ButtonIs state b) in
  let b' := snd (ButtonIs state b) in
  (r = 1 <-> forall k, (k < 6)%nat -> sample b k = state) /\
  (r = 0 \/ r = 1) /\
  (exists n,
     (1 <= n <= 6)%nat /\
     switch_read b b' n /\
     elapsed_ms (core b') = elapsed_ms (core b) + 100 * (Z.of_nat n - 1) /\
     (r = 1 -> n = 6%nat) /\
     (forall k, (S k < n)%nat -> sample b k = state) /\
     (r = 0 -> sample b (n - 1) <> state)) /\
  shows_lock b'.
Proof.
  cbv zeta.
  destruct (ButtonIs_spec state b)
    as (r & b' & n & E & Hn & R & L & T & Hr & Hall & H6 & Hbefore & Hz).
  rewrite E. cbn [fst snd].
  split; [exact Hall|]. split; [exact Hr|]. split; [|exact L].
  exists n. split; [exact Hn|]. split; [exact R|]. split; [exact T|].
  split; [exact H6|]. split; [exact Hbefore|exact Hz].
Qed.

(** ** The main loop *)

(** X20. A pass of the main loop in which one of the six samples of the
    button is not "pressed" ends, whatever the card does, without a single
    exchange on the SPI bus: the bus log, the buffer and the card type are
    as they were, the button was sampled at most six times, and the LED
    shows the lock bit. *)
Theorem main_pass_idle fuel b :
  (exists k, (k < 6)%nat /\ sample b k <> SW_PRESSED) ->
  exists b' n,
    main_pass fuel b = Some b' /\
    (1 <= n <= 6)%nat /\ switch_read b b' n /\ shows_lock b' /\
    trace (core b') = trace (core b) /\
    pulses (core b') = pulses (core b) /\
    csd (core b') = csd (core b) /\
    sdtype (core b') = sdtype (core b).
Proof.
  intros Hk. destruct (main_pass_idle_run fuel b Hk) as (b' & n & E & Hn & R & L).
  exists b', n. split; [exact E|]. split; [exact Hn|]. split; [exact R|].
  split; [exact L|]. pose proof (sr_core _ _ _ R) as O.
  split; [unfold trace; rewrite (ol_wire _ _ O); reflexivity|].
  split; [exact (ol_pulses _ _ O)|]. split; [exact (ol_csd _ _ O)|exact (ol_sdtype _ _ O)].
Qed.

Lemma main_pass_idle_witness :
  (exists k, (k < 6)%nat /\ sample (reset locked_card button_up) k <> SW_PRESSED) /\
  exists b', main_pass 0 (reset locked_card button_up) = Some b' /\
             trace (core b') = [].
Proof.
  assert (H : exists k, (k < 6)%nat /\
                        sample (reset locked_card button_up) k <> SW_PRESSED).
  { exists 0%nat. split; [lia|]. vm_compute. discriminate. }
  split; [exact H|].
  destruct (main_pass_idle 0 (reset locked_card button_up) H)
    as (b' & n & E & _ & _ & _ & T & _).
  exists b'. split; [exact E|exact T].
Defined.



(** X22. When [main] reaches its loop, the CRC table is the CRC7 table,
    the pins CS, MOSI, SCK and LED are outputs and the direction of the
    others is as at entry, the button has not been read, and the last
    call was a [ReadCSD] that returned Ok, the card being left selected. *)
Theorem main_init_establishes fuel b b' :
  length (crctable (core b)) = 256%nat ->
  main_init fuel b = Some b' ->
  crctable (core b') = CRC7_TABLE /\
  (forall k, 0 <= k < 8 ->
     Z.testbit (DDRB b') k
     = (Z.testbit (DDRB b) k || (k =? CS_BIT) || (k =? MOSI_BIT) || (k =? SCK_BIT)
        || (k =? LEDSW_BIT))) /\
  reads b' = reads b /\
  cs_high (core b') = false /\
  (exists v, ReadCSD v = (SDCARD_OK, core b')).
Proof.
  intros Hlen H.
  destruct (main_init_spec _ _ _ Hlen H) as (Hc & _ & _ & Hr & Hd & Hs & Hlast).
  split; [exact Hc|]. split; [exact Hd|]. split; [exact Hr|].
  split; [exact Hs|exact Hlast].
Qed.

Lemma main_init_establishes_witness :
  length (crctable (core (reset locked_card button_up))) = 256%nat /\
  exists b',
    main_init 0 (reset locked_card button_up) = Some b' /\
    crctable (core b') = CRC7_TABLE /\ DDRB b' = 0x1d.
Proof.
  split; [reflexivity|].
  destruct (main_init 0 (reset locked_card button_up)) as [b'|] eqn:E;
    [|vm_compute in E; discriminate E].
  exists b'. split; [reflexivity|].
  split; [exact (proj1 (main_init_establishes 0 (reset locked_card button_up) b'
                         eq_refl E))|].
  vm_compute in E. injection E as <-. reflexivity.
Defined.

(** X23. However many passes of its loop [main] has made, the CRC table is
    the CRC7 table, the pins CS, MOSI, SCK and LED are outputs, the
    direction of the other pins is as at entry, and after at least one
    pass the LED shows the lock bit of the buffer. *)
Theorem main_invariant passes fuel b b' :
  length (crctable (core b)) = 256%nat ->
  main passes fuel b = Some b' ->
  crctable (core b') = CRC7_TABLE /\
  (forall k, 0 <= k < 8 ->
     Z.testbit (DDRB b') k
     = (Z.testbit (DDRB b) k || (k =? CS_BIT) || (k =? MOSI_BIT) || (k =? SCK_BIT)
        || (k =? LEDSW_BIT))) /\
  ((0 < passes)%nat -> shows_lock b') /\
  miso (core b') = miso (core b) /\ ledsw b' = ledsw b.
Proof.
  intros Hlen H. unfold main in H.
  destruct (main_init fuel b) as [b1|] eqn:E; [|discriminate H].
  destruct (main_init_spec _ _ _ Hlen E) as (Hc & Hm & Hs & _ & Hd & _).
  destruct (main_loop_spec _ _ _ _ H) as ([S M C D _] & L).
  split; [congruence|]. split; [|split; [exact L|split; congruence]].
  intros k Hk. destruct (Z.eq_dec k LEDSW_BIT) as [->|Hne].
  - rewrite <- (Hd LEDSW_BIT) by (unfold LEDSW_BIT; lia).
    destruct passes as [|n].
    + cbn [main_loop] in H. injection H as <-. reflexivity.
    + rewrite (proj1 (L ltac:(lia))). symmetry.
      rewrite (Hd LEDSW_BIT) by (unfold LEDSW_BIT; lia).
      rewrite Z.eqb_refl. apply orb_true_r.
  - rewrite (D k Hk Hne). apply Hd. exact Hk.
Qed.

Lemma main_invariant_witness :
  length (crctable (core (reset locked_card button_up))) = 256%nat /\
  exists b',
    main 2 0 (reset locked_card button_up) = Some b' /\
    crctable (core b') = CRC7_TABLE /\ led_on (core b') = true.
Proof.
  split; [reflexivity|].
  destruct (main 2 0 (reset locked_card button_up)) as [b'|] eqn:E;
    [|vm_compute in E; discriminate E].
  exists b'. split; [reflexivity|].
  split; [exact (proj1 (main_invariant 2 0 (reset locked_card button_up) b'
                         eq_refl E))|].
  vm_compute in E. injection E as <-. reflexivity.
Defined.

(** X24. With no card on the bus [main] never reaches its loop: it stays
    in the first loop of [ReadState], so the button is never read. *)
Theorem main_without_card b :
  miso (core b) = no_card -> length (crctable (core b)) = 256%nat ->
  forall passes fuel, main passes fuel b = None.
Proof.
  intros Hw Hlen passes fuel. unfold main, main_init.
  destruct (main_setup_spec b Hlen) as (b1 & E & _ & Hm & _).
  rewrite E. unfold ReadState_board, ReadState.
  assert (Hw1 : miso (core b1) = no_card) by (rewrite Hm; exact Hw).
  pose proof (SDInit_no_card _ Hw1) as R.
  pose proof (sb_miso _ _ (SDInit_buffers (core b1))) as M.
  destruct (SDInit (core b1)) as [r w1]. cbn [fst snd] in R, M.
  rewrite SDInit_retry_no_card; [reflexivity| |].
  - rewrite R. discriminate.
  - rewrite M. exact Hw1.
Qed.

Lemma main_without_card_witness :
  miso (core (reset no_card button_up)) = no_card /\
  length (crctable (core (reset no_card button_up))) = 256%nat /\
  main 3 1000 (reset no_card button_up) = None.
Proof.
  split; [reflexivity|]. split; [reflexivity|].
  exact (main_without_card (reset no_card button_up) eq_refl eq_refl 3%nat 1000%nat).
Defined.
